(** * terraform-provider-astra: keyspace and CDC resources

    A shallow embedding of [resource_keyspace.go] and [resource_cdc.go]
    (package [provider]) and of the Go library calls they rely on.

    - Go strings are byte strings: [string] over [ascii].
    - Go ints (HTTP status codes, retry counters) are [Z]; the counters of
      the source stay far below any machine bound.
    - A Go function returning [(v, err)] returns a pair whose second
      component is an [error] ([None] is [nil]).
    - Remote calls are answered by a [World]: for every client method the
      response to its [n]-th call.  The calls made so far are recorded in a
      trace, and the [*schema.ResourceData] the SDK hands to an operation is
      threaded through as state.
    - A run-time panic (index out of range, nil dereference, failed type
      assertion) is an outcome of its own, and so is a [for] loop that is
      still running when the fuel of the model is used up. *)

From Stdlib Require Import ZArith Lia Ascii String.
From stdpp Require Import base option list gmap strings.

Local Open Scope Z_scope.

(** ** Go's [strings] package *)

Module strings.

(** [strings.HasPrefix(s, prefix)] *)
Fixpoint HasPrefix (s prefix : string) {struct prefix} : bool :=
  match prefix with
  | EmptyString => true
  | String a prefix' =>
      match s with
      | EmptyString => false
      | String b s' => Ascii.eqb a b && HasPrefix s' prefix'
      end
  end.

(** [strings.ToLower] on ASCII input maps ['A'..'Z'] to ['a'..'z'] byte by
    byte.  Go lower-cases by rune outside ASCII; bytes above 127 are left
    as they are here, so statements about [ToLower] are meant for ASCII
    strings. *)
Definition lowerByte (c : ascii) : ascii :=
  let n := nat_of_ascii c in
  if ((65 <=? n) && (n <=? 90))%nat then ascii_of_nat (n + 32) else c.

Fixpoint ToLower (s : string) : string :=
  match s with
  | EmptyString => EmptyString
  | String c s' => String (lowerByte c) (ToLower s')
  end.

(** The worker of [strings.Split] for a non-empty separator: scan from
    the left, cut at every occurrence of [sep] and resume after it
    (occurrences do not overlap).  [skip] counts the bytes of a matched
    separator that are still to be dropped.  The head of the result is the
    segment being read. *)
Fixpoint genSplit (sep : string) (skip : nat) (s : string) : list string :=
  match s with
  | EmptyString => [EmptyString]
  | String c s' =>
      match skip with
      | S k => genSplit sep k s'
      | O =>
          if HasPrefix s sep
          then EmptyString :: genSplit sep (Nat.pred (String.length sep)) s'
          else match genSplit sep 0 s' with
               | seg :: rest => String c seg :: rest
               | [] => [String c EmptyString]
               end
      end
  end.

(** With an empty separator Go splits after each UTF-8 sequence; on ASCII
    input that is after each byte. *)
Fixpoint explode (s : string) : list string :=
  match s with
  | EmptyString => []
  | String c s' => String c EmptyString :: explode s'
  end.

(** [strings.Split(s, sep)] *)
Definition Split (s sep : string) : list string :=
  match sep with
  | EmptyString => explode s
  | _ => genSplit sep 0 s
  end.

(** [strings.ReplaceAll(s, old, new)] for a one-byte [old] (the source
    only replaces ["-"]). *)
Fixpoint ReplaceAllByte (s : string) (old : ascii) (new : string) : string :=
  match s with
  | EmptyString => EmptyString
  | String c s' =>
      if Ascii.eqb c old then new +:+ ReplaceAllByte s' old new
      else String c (ReplaceAllByte s' old new)
  end.

(** [strings.Contains(s, "/")]: does the byte ['/'] occur in [s]? *)
Fixpoint ContainsSlash (s : string) : bool :=
  match s with
  | EmptyString => false
  | String c s' => Ascii.eqb c "/" || ContainsSlash s'
  end.

End strings.

(** Two functions used to state facts about [strings.Split]: [consHead] puts
    [s] in front of the first segment, [countSlash] counts the ['/'] bytes. *)
Definition consHead (s : string) (l : list string) : list string :=
  match l with
  | seg :: rest => (s +:+ seg) :: rest
  | [] => [s]
  end.

Fixpoint countSlash (s : string) : nat :=
  match s with
  | EmptyString => O
  | String c s' => if Ascii.eqb c "/" then S (countSlash s') else countSlash s'
  end.

(** Go's [error]: [nil] or a value with a message. *)
Definition error : Type := option string.
Definition nil_error : error := None.

(** [errors.New(msg)] *)
Definition errors_New (msg : string) : error := Some msg.

(** ** Resource identities

    [resource_keyspace.go]: the id written by [setKeyspaceResourceData] and
    read by [parseKeyspaceID]; [resource_cdc.go]: the id written at the end of
    [resourceCDCCreate] and read by [parseCDCID]. *)

(** [fmt.Sprintf("%s/keyspace/%s", databaseID, keyspaceName)] *)
Definition keyspaceID (databaseID keyspaceName : string) : string :=
  databaseID +:+ "/keyspace/" +:+ keyspaceName.

Definition parseKeyspaceID (id : string) : string * string * error :=
  let idParts := strings.Split id "/keyspace/" in
  if negb (length idParts =? 2)%nat then
    ("", "", errors_New "invalid keyspace id format: expected database_id/keyspace")
  else
    (default "" (idParts !! 0%nat), default "" (idParts !! 1%nat), nil_error).

(** [fmt.Sprintf("%s/%s/%s/%s", databaseId, keyspace, table, tenantName)] *)
Definition cdcID (databaseId keyspace table tenantName : string) : string :=
  databaseId +:+ "/" +:+ keyspace +:+ "/" +:+ table +:+ "/" +:+ tenantName.

(** The four fields are those of the source for an ASCII id, where
    [strings.ToLower] is Go's; the number of segments is that of the source
    for every id. *)
Definition parseCDCID (id : string) : string * string * string * string * error :=
  let idParts := strings.Split (strings.ToLower id) "/" in
  if negb (length idParts =? 4)%nat then
    ("", "", "", "",
     errors_New "invalid role id format: expected databaseId/keyspace/table/tenantName")
  else
    (default "" (idParts !! 0%nat), default "" (idParts !! 1%nat),
     default "" (idParts !! 2%nat), default "" (idParts !! 3%nat), nil_error).

(** A string of bytes below 128. *)
Definition isASCII (s : string) : bool :=
  (fix go (s : string) : bool :=
     match s with
     | EmptyString => true
     | String c s' => (nat_of_ascii c <? 128)%nat && go s'
     end) s.

(** [validators.go]: [keyspaceNameRegex] is
    [^[a-zA-Z0-9][a-zA-Z0-9_]{0,48}$]. *)
Definition isAlnum (c : ascii) : bool :=
  let n := nat_of_ascii c in
  (((48 <=? n) && (n <=? 57)) || ((65 <=? n) && (n <=? 90))
   || ((97 <=? n) && (n <=? 122)))%nat.

Definition isWord (c : ascii) : bool := isAlnum c || Ascii.eqb c "_".

Fixpoint allBytes (p : ascii -> bool) (s : string) : bool :=
  match s with
  | EmptyString => true
  | String c s' => p c && allBytes p s'
  end.

Definition keyspaceNameRegex_MatchString (s : string) : bool :=
  match s with
  | EmptyString => false
  | String c rest =>
      isAlnum c && allBytes isWord rest && (String.length rest <=? 48)%nat
  end.

(** ** terraform-plugin-sdk: [schema.ResourceData], [diag], [retry] *)

(** [diag.Diagnostics], kept as the summaries of its error diagnostics;
    [nil] is the empty list. *)
Definition Diagnostics : Type := list string.

Definition diag_FromErr (err : string) : Diagnostics := [err].
Definition diag_Errorf (msg : string) : Diagnostics := [msg].

(** [validators.go] *)
Definition validateKeyspace (v : string) : Diagnostics :=
  if negb (keyspaceNameRegex_MatchString v) then ["Invalid keyspace name"]
  else [].

Inductive ValueType := TypeString | TypeInt.

Inductive Value := VString (s : string) | VInt (n : Z).

(** The part of [*schema.ResourceData] the operations touch: the schema it
    was built from, the id and the attribute values. *)
Record ResourceData := mkResourceData {
  rdSchema : gmap string ValueType;
  rdId : string;
  rdAttrs : gmap string Value;
}.

Definition zeroValue (t : ValueType) : Value :=
  match t with TypeString => VString "" | TypeInt => VInt 0 end.

Definition hasType (v : Value) (t : ValueType) : bool :=
  match v, t with
  | VString _, TypeString | VInt _, TypeInt => true
  | _, _ => false
  end.

(** [d.Get(key)]: the value read at the schema type of [key], the zero value
    of that type when unset, [nil] for a key the schema does not have. *)
Definition rd_Get (d : ResourceData) (key : string) : option Value :=
  match rdSchema d !! key with
  | Some t =>
      Some (match rdAttrs d !! key with
            | Some v => if hasType v t then v else zeroValue t
            | None => zeroValue t
            end)
  | None => None
  end.

(** The string [d.Get(key).(string)] yields when [key] is a string of the
    schema. *)
Definition rd_GetString (d : ResourceData) (key : string) : string :=
  match rd_Get d key with
  | Some (VString s) => s
  | _ => ""
  end.

(** The int [d.Get(key).(int)] yields when [key] is an int of the schema. *)
Definition rd_GetInt (d : ResourceData) (key : string) : Z :=
  match rd_Get d key with
  | Some (VInt n) => n
  | _ => 0
  end.

(** [d.Set(key, value)]: an error for a key outside the schema or a value
    of the wrong type. *)
Definition rd_Set (d : ResourceData) (key : string) (v : Value)
  : ResourceData * error :=
  match rdSchema d !! key with
  | Some t =>
      if hasType v t
      then (mkResourceData (rdSchema d) (rdId d) (<[key := v]> (rdAttrs d)), None)
      else (d, Some ("wrong type for " +:+ key))
  | None => (d, Some ("Invalid address to set: " +:+ key))
  end.

(** [d.SetId(id)] *)
Definition rd_SetId (d : ResourceData) (id : string) : ResourceData :=
  mkResourceData (rdSchema d) id (rdAttrs d).

(** [resourceKeyspace().Schema] *)
Definition resourceKeyspace_Schema : gmap string ValueType :=
  <["name" := TypeString]> (<["database_id" := TypeString]> ∅).

(** [resourceCDC().Schema] *)
Definition resourceCDC_Schema : gmap string ValueType :=
  <["table" := TypeString]> (<["keyspace" := TypeString]>
  (<["database_id" := TypeString]> (<["database_name" := TypeString]>
  (<["topic_partitions" := TypeInt]> (<["tenant_name" := TypeString]>
  (<["connector_status" := TypeString]> (<["data_topic" := TypeString]> ∅))))))).

(** [*retry.RetryError]: [nil] is [None]. *)
Record RetryError := mkRetryError { Err : string; Retryable : bool }.

Definition retry_RetryableError (err : string) : option RetryError :=
  Some (mkRetryError err true).
Definition retry_NonRetryableError (err : string) : option RetryError :=
  Some (mkRetryError err false).

(** ** The remote control plane *)

(** A client call returns [(response, nil)] or [(nil, err)]. *)
Inductive GoResult (A : Type) := Ok (a : A) | Failed (err : string).
Arguments Ok {A} a.
Arguments Failed {A} err.

(** [astra.StatusEnum] values used by the provider. *)
Definition ACTIVE : string := "ACTIVE".
Definition ERROR : string := "ERROR".
Definition TERMINATED : string := "TERMINATED".
Definition TERMINATING : string := "TERMINATING".

(** [astra.Database]: the status and the two [Info] pointers that are read. *)
Record Database := mkDatabase {
  Status : string;
  Info_CloudProvider : option string;
  Info_Region : option string;
}.

(** [astra.GetDatabaseResponse] *)
Record GetDatabaseResponse := mkGetDatabaseResponse {
  gdStatusCode : Z;
  gdBody : string;
  JSON200 : option Database;
}.

(** The other [...WithResponse] results: status code and raw body. *)
Record ClientResponse := mkClientResponse {
  StatusCode : Z;
  Body : string;
}.

(** [*http.Response]: the status line, and what [ioutil.ReadAll] gives on
    its body. *)
Record HttpResponse := mkHttpResponse {
  httpStatus : string;
  httpBody : string;
  httpBodyErr : error;
}.

Definition ioutil_ReadAll (r : HttpResponse) : string * error :=
  (httpBody r, httpBodyErr r).

(** An element of [CDCResult]; only the fields the provider reads. *)
Record CDCEntry := mkCDCEntry {
  Keyspace : string;
  DatabaseTable : string;
  ConnectorStatus : string;
  DataTopic : string;
}.

(** An element of [StreamingTokens]. *)
Record StreamingToken := mkStreamingToken { Tokenid : string }.

(** [astrastreaming.EnableCDCJSONRequestBody] *)
Record EnableCDCJSONRequestBody := mkEnableCDCBody {
  reqDatabaseId : string;
  reqDatabaseName : string;
  reqKeyspace : string;
  reqOrgId : string;
  reqTableName : string;
  reqTopicPartitions : Z;
}.

(** [astrastreaming.DeleteCDCJSONRequestBody] *)
Record DeleteCDCJSONRequestBody := mkDeleteCDCBody {
  delDatabaseId : string;
  delDatabaseName : string;
  delKeyspace : string;
  delOrgId : string;
  delTableName : string;
  delTopicPartitions : Z;
}.

(** The calls an operation can make, with the request data they carry. *)
Inductive Call :=
| CallGetDatabaseWithResponse (databaseID : string)
| CallAddKeyspaceWithResponse (databaseID keyspaceName : string)
| CallDropKeyspaceWithResponse (databaseID keyspaceName : string)
| CallGetCurrentOrganization
| CallGetDatabase (databaseId : string)
| CallIdListTenantTokensWithResponse (tenantName authorization org cluster : string)
| CallGetTokenByIDWithResponse (tenantName tokenId authorization org cluster : string)
| CallEnableCDC (tenantName cluster authorization : string)
                (body : EnableCDCJSONRequestBody)
| CallGetCDC (tenantName cluster authorization : string)
| CallSleep (seconds : Z)
| CallListKeyspaces (databaseID : string)
| CallDeleteCDC (tenantName cluster authorization : string)
                (body : DeleteCDCJSONRequestBody).

Inductive Api :=
| GetDatabaseWithResponse | AddKeyspaceWithResponse | DropKeyspaceWithResponse
| GetCurrentOrganization | GetDatabase | IdListTenantTokensWithResponse
| GetTokenByIDWithResponse | EnableCDC | GetCDC | Sleep
| ListKeyspaces | DeleteCDC.

Definition isCall (a : Api) (c : Call) : bool :=
  match a, c with
  | GetDatabaseWithResponse, CallGetDatabaseWithResponse _
  | AddKeyspaceWithResponse, CallAddKeyspaceWithResponse _ _
  | DropKeyspaceWithResponse, CallDropKeyspaceWithResponse _ _
  | GetCurrentOrganization, CallGetCurrentOrganization
  | GetDatabase, CallGetDatabase _
  | IdListTenantTokensWithResponse, CallIdListTenantTokensWithResponse _ _ _ _
  | GetTokenByIDWithResponse, CallGetTokenByIDWithResponse _ _ _ _ _
  | EnableCDC, CallEnableCDC _ _ _ _
  | GetCDC, CallGetCDC _ _ _
  | Sleep, CallSleep _
  | ListKeyspaces, CallListKeyspaces _
  | DeleteCDC, CallDeleteCDC _ _ _ _ => true
  | _, _ => false
  end.

(** The trace has the latest call first. *)
Fixpoint calls (a : Api) (tr : list Call) : nat :=
  match tr with
  | [] => O
  | c :: tr' => if isCall a c then S (calls a tr') else calls a tr'
  end.

(** What the provider is configured with ([meta.(astraClients)]) and what
    the remote side answers: for each client method the result of its
    [n]-th call (counting from 0) on the given request.  [getDatabase] is the
    helper of [resource_database.go], taken as given.  The three [json...]
    fields are [json.Unmarshal] into a fresh [OrgId], [CDCResult] and
    [StreamingTokens]: the value left in the target and the error. *)
Record World := mkWorld {
  token : string;
  onGetDatabaseWithResponse : nat -> string -> GoResult GetDatabaseResponse;
  onAddKeyspaceWithResponse : nat -> string -> string -> GoResult ClientResponse;
  onDropKeyspaceWithResponse : nat -> string -> string -> GoResult ClientResponse;
  onGetCurrentOrganization : nat -> GoResult HttpResponse;
  on_getDatabase : nat -> string -> GoResult Database;
  onIdListTenantTokensWithResponse : nat -> Call -> GoResult ClientResponse;
  onGetTokenByIDWithResponse : nat -> Call -> GoResult ClientResponse;
  onEnableCDC : nat -> Call -> GoResult HttpResponse;
  onGetCDC : nat -> Call -> GoResult HttpResponse;
  jsonOrgId : string -> string * error;
  jsonCDCResult : string -> list CDCEntry * error;
  jsonStreamingTokens : string -> list StreamingToken * error;
}.

(** ** Running an operation *)

Record State := mkState {
  trace : list Call;
  rd : ResourceData;
}.

Inductive Outcome (A : Type) :=
| Val (a : A)
| Panic (reason : string)
| OutOfFuel.
Arguments Val {A} a.
Arguments Panic {A} reason.
Arguments OutOfFuel {A}.

Definition M (A : Type) : Type := State -> Outcome A * State.

Definition ret {A} (a : A) : M A := fun st => (Val a, st).

Definition bind {A B} (m : M A) (k : A -> M B) : M B :=
  fun st =>
    match m st with
    | (Val a, st') => k a st'
    | (Panic r, st') => (Panic r, st')
    | (OutOfFuel, st') => (OutOfFuel, st')
    end.

Definition panic {A} (reason : string) : M A := fun st => (Panic reason, st).

Definition outOfFuel {A} : M A := fun st => (OutOfFuel, st).

Notation "'let*' x ':=' m 'in' k" := (bind m (fun x => k))
  (at level 10, x name, m at level 200, k at level 200).
Notation "'let*' ' pat ':=' m 'in' k" :=
  (bind m (fun x => match x with pat => k end))
  (at level 10, pat pattern, m at level 200, k at level 200).

(** Record a call and hand back how many calls of that method came before. *)
Definition issue (a : Api) (c : Call) : M nat :=
  fun st => (Val (calls a (trace st)), mkState (c :: trace st) (rd st)).

(** [d.Get(key).(string)] and [d.Get(key).(int)] *)
Definition d_GetString (key : string) : M string :=
  fun st =>
    match rd_Get (rd st) key with
    | Some (VString s) => (Val s, st)
    | _ => (Panic "interface conversion: interface {} is not string", st)
    end.

Definition d_GetInt (key : string) : M Z :=
  fun st =>
    match rd_Get (rd st) key with
    | Some (VInt n) => (Val n, st)
    | _ => (Panic "interface conversion: interface {} is not int", st)
    end.

Definition d_Id : M string := fun st => (Val (rdId (rd st)), st).

Definition d_SetId (id : string) : M unit :=
  fun st => (Val tt, mkState (trace st) (rd_SetId (rd st) id)).

Definition d_Set (key : string) (v : Value) : M error :=
  fun st =>
    let r := rd_Set (rd st) key v in
    (Val (snd r), mkState (trace st) (fst r)).

(** [time.Sleep(n * time.Second)] *)
Definition time_Sleep (seconds : Z) : M unit :=
  let* _ := issue Sleep (CallSleep seconds) in ret tt.

(** [retry.RetryContext(ctx, timeout, f)]: [f] is run again for as long as
    it reports a retryable error and the timeout has not passed; [budget] is
    the number of runs of [f] that fit in the timeout.  A nil result ends
    with nil, a non-retryable error ends with that error, and on timeout the
    last error of [f] is returned, or the timeout error when [f] never
    reported. *)
Fixpoint retry_loop (budget : nat) (f : M (option RetryError)) (resultErr : error)
  : M error :=
  match budget with
  | O =>
      ret (match resultErr with
           | Some e => Some e
           | None => Some "timeout while waiting for state to become 'success'"
           end)
  | S budget' =>
      let* rerr := f in
      match rerr with
      | None => ret nil_error
      | Some e =>
          if Retryable e then retry_loop budget' f (Some (Err e))
          else ret (Some (Err e))
      end
  end.

Definition retry_RetryContext (budget : nat) (f : M (option RetryError)) : M error :=
  retry_loop budget f None.

(** [p == nil] for a pointer. *)
Definition isNil {A} (p : option A) : bool :=
  match p with None => true | Some _ => false end.

(** How a [for] loop of the source is left: by a [return] of the enclosing
    function, or by its condition or a [break], with the variables as they
    are then. *)
Inductive LoopExit (V : Type) :=
| Return (diags : Diagnostics)
| Leave (vars : V).
Arguments Return {V} diags.
Arguments Leave {V} vars.

(** The variables of [resourceCDCCreate] that its first loop changes. *)
Record EnableVars := mkEnableVars {
  enableClientResult : option HttpResponse;
  retryCount : Z;
  pulsarCluster : string;
  pulsarToken : string;
  bodyBuffer : string;
}.

(** The variables of [resourceCDCCreate] that its second loop changes;
    [retryCount] is set to 0 before the loop. *)
Record PollVars := mkPollVars {
  cdcResult : list CDCEntry;
  pollRetryCount : Z;
  pollBodyBuffer : string;
}.

(** ** The provider's operations *)

Section Provider.

Variable w : World.

(** *** Client methods *)

Definition client_GetDatabaseWithResponse (databaseID : string)
  : M (GoResult GetDatabaseResponse) :=
  let* n := issue GetDatabaseWithResponse (CallGetDatabaseWithResponse databaseID) in
  ret (onGetDatabaseWithResponse w n databaseID).

Definition client_AddKeyspaceWithResponse (databaseID keyspaceName : string)
  : M (GoResult ClientResponse) :=
  let* n := issue AddKeyspaceWithResponse
              (CallAddKeyspaceWithResponse databaseID keyspaceName) in
  ret (onAddKeyspaceWithResponse w n databaseID keyspaceName).

Definition client_DropKeyspaceWithResponse (databaseID keyspaceName : string)
  : M (GoResult ClientResponse) :=
  let* n := issue DropKeyspaceWithResponse
              (CallDropKeyspaceWithResponse databaseID keyspaceName) in
  ret (onDropKeyspaceWithResponse w n databaseID keyspaceName).

Definition client_GetCurrentOrganization : M (GoResult HttpResponse) :=
  let* n := issue GetCurrentOrganization CallGetCurrentOrganization in
  ret (onGetCurrentOrganization w n).

Definition getDatabase (databaseId : string) : M (GoResult Database) :=
  let* n := issue GetDatabase (CallGetDatabase databaseId) in
  ret (on_getDatabase w n databaseId).

Definition streamingClient_IdListTenantTokensWithResponse
    (tenantName authorization org cluster : string) : M (GoResult ClientResponse) :=
  let c := CallIdListTenantTokensWithResponse tenantName authorization org cluster in
  let* n := issue IdListTenantTokensWithResponse c in
  ret (onIdListTenantTokensWithResponse w n c).

Definition streamingClient_GetTokenByIDWithResponse
    (tenantName tokenId authorization org cluster : string)
  : M (GoResult ClientResponse) :=
  let c := CallGetTokenByIDWithResponse tenantName tokenId authorization org cluster in
  let* n := issue GetTokenByIDWithResponse c in
  ret (onGetTokenByIDWithResponse w n c).

Definition streamingClientv3_EnableCDC (tenantName cluster authorization : string)
    (body : EnableCDCJSONRequestBody) : M (GoResult HttpResponse) :=
  let c := CallEnableCDC tenantName cluster authorization body in
  let* n := issue EnableCDC c in
  ret (onEnableCDC w n c).

Definition streamingClientv3_GetCDC (tenantName cluster authorization : string)
  : M (GoResult HttpResponse) :=
  let c := CallGetCDC tenantName cluster authorization in
  let* n := issue GetCDC c in
  ret (onGetCDC w n c).

(** *** resource_keyspace.go

    [keyspaceMutex] serialises the calls of one process; a single
    sequential run does not see it, and [Lock]/[Unlock] are left out. *)

Definition setKeyspaceResourceData (databaseID keyspaceName : string) : M error :=
  let* _ := d_SetId (keyspaceID databaseID keyspaceName) in
  let* err := d_Set "name" (VString keyspaceName) in
  match err with
  | Some e => ret (Some e)
  | None =>
      let* err := d_Set "database_id" (VString databaseID) in
      match err with
      | Some e => ret (Some e)
      | None => ret nil_error
      end
  end.

(** The function literal passed to [retry.RetryContext] in
    [resourceKeyspaceCreate]. *)
Definition resourceKeyspaceCreate_func (databaseID keyspaceName : string)
  : M (option RetryError) :=
  let* res := client_GetDatabaseWithResponse databaseID in
  match res with
  | Failed err => ret (retry_RetryableError err)
  | Ok res =>
      if gdStatusCode res >=? 500 then
        ret (retry_RetryableError ("error while fetching database: " +:+ gdBody res))
      else if (gdStatusCode res >? 200) || isNil (JSON200 res) then
        ret (retry_NonRetryableError
               ("unexpected response fetching database: " +:+ gdBody res))
      else
        match JSON200 res with
        | None => panic "nil pointer dereference"
        | Some db =>
            if String.eqb (Status db) ERROR || String.eqb (Status db) TERMINATED
               || String.eqb (Status db) TERMINATING then
              ret (retry_NonRetryableError
                     ("database failed to reach active status: status=" +:+ Status db))
            else if String.eqb (Status db) ACTIVE then
              let* resp := client_AddKeyspaceWithResponse databaseID keyspaceName in
              match resp with
              | Failed err =>
                  ret (retry_NonRetryableError
                         ("error calling add keyspace (not retrying) " +:+ err))
              | Ok resp =>
                  if StatusCode resp =? 409 then
                    ret (retry_RetryableError
                           ("error adding keyspace to database (retrying): "
                            +:+ Body resp))
                  else if StatusCode resp =? 401 then
                    ret (retry_NonRetryableError
                           "error adding keyspace to database (insufficient permissions, role missing 'db-keyspace-create')")
                  else if StatusCode resp >=? 400 then
                    ret (retry_NonRetryableError
                           ("error adding keyspace to database (not retrying): "
                            +:+ Body resp))
                  else
                    let* err := setKeyspaceResourceData databaseID keyspaceName in
                    match err with
                    | Some e =>
                        ret (retry_NonRetryableError
                               ("error setting keyspace data (not retrying) " +:+ e))
                    | None => ret None
                    end
              end
            else
              ret (retry_RetryableError
                     ("expected database to be active but is " +:+ Status db))
        end
  end.

(** [budget] stands for [d.Timeout(schema.TimeoutCreate)]. *)
Definition resourceKeyspaceCreate (budget : nat) : M Diagnostics :=
  let* databaseID := d_GetString "database_id" in
  let* keyspaceName := d_GetString "name" in
  let* err := retry_RetryContext budget
                (resourceKeyspaceCreate_func databaseID keyspaceName) in
  match err with
  | Some e => ret (diag_FromErr e)
  | None => ret []
  end.

(** The function literal passed to [retry.RetryContext] in
    [resourceKeyspaceDelete]. *)
Definition resourceKeyspaceDelete_func (databaseID keyspaceName : string)
  : M (option RetryError) :=
  let* res := client_GetDatabaseWithResponse databaseID in
  match res with
  | Failed err => ret (retry_RetryableError err)
  | Ok res =>
      if gdStatusCode res >=? 500 then
        ret (retry_RetryableError ("error while fetching database: " +:+ gdBody res))
      else if (gdStatusCode res >? 200) || isNil (JSON200 res) then
        ret (retry_NonRetryableError
               ("unexpected response fetching database: " +:+ gdBody res))
      else
        match JSON200 res with
        | None => panic "nil pointer dereference"
        | Some db =>
            if String.eqb (Status db) ERROR || String.eqb (Status db) TERMINATED
               || String.eqb (Status db) TERMINATING then
              ret (retry_NonRetryableError
                     ("database failed to reach active status: status=" +:+ Status db))
            else if String.eqb (Status db) ACTIVE then
              let* resp := client_DropKeyspaceWithResponse databaseID keyspaceName in
              match resp with
              | Failed err =>
                  ret (retry_NonRetryableError
                         ("error calling drop keyspace (not retrying) " +:+ err))
              | Ok resp =>
                  if StatusCode resp =? 409 then
                    ret (retry_RetryableError
                           ("error dropping keyspace from database (retrying): "
                            +:+ Body resp))
                  else if StatusCode resp =? 401 then
                    ret (retry_NonRetryableError
                           "error adding keyspace to database (insufficient permissions, role missing 'db-keyspace-drop')")
                  else if StatusCode resp >=? 400 then
                    ret (retry_NonRetryableError
                           ("error dropping keyspace from database (not retrying): "
                            +:+ Body resp))
                  else
                    let* _ := d_SetId "" in
                    ret None
              end
            else
              ret (retry_RetryableError
                     ("expected database to be active but is " +:+ Status db))
        end
  end.

Definition resourceKeyspaceDelete (budget : nat) : M Diagnostics :=
  let* databaseID := d_GetString "database_id" in
  let* keyspaceName := d_GetString "name" in
  let* err := retry_RetryContext budget
                (resourceKeyspaceDelete_func databaseID keyspaceName) in
  match err with
  | Some e => ret (diag_FromErr e)
  | None =>
      let* _ := d_SetId "" in
      ret []
  end.

(** *** resource_cdc.go

    [fmt.Println] and [fmt.Printf] write to standard output and are left
    out. *)

Definition GetPulsarCluster (cloudProvider rawRegion : string) : string :=
  let region := strings.ReplaceAllByte rawRegion "-" "" in
  strings.ToLower ("pulsar-" +:+ cloudProvider +:+ "-" +:+ region).

Definition getPulsarToken (pulsarCluster token : string) (org : string)
    (tenantName : string) : M (string * error) :=
  let* pulsarTokenResponse :=
    streamingClient_IdListTenantTokensWithResponse
      tenantName ("Bearer " +:+ token) org pulsarCluster in
  match pulsarTokenResponse with
  | Failed err => ret ("", Some err)
  | Ok pulsarTokenResponse =>
      let '(streamingTokens, err) := jsonStreamingTokens w (Body pulsarTokenResponse) in
      match err with
      | Some e => ret ("", Some e)
      | None =>
          match streamingTokens with
          | [] => panic "index out of range [0] with length 0"
          | first :: _ =>
              let tokenId := Tokenid first in
              let* getTokenResponse :=
                streamingClient_GetTokenByIDWithResponse
                  tenantName tokenId ("Bearer " +:+ token) org pulsarCluster in
              match getTokenResponse with
              | Failed err => ret ("", Some err)
              | Ok getTokenResponse => ret (Body getTokenResponse, nil_error)
              end
          end
      end
  end.

Definition prepCDC (databaseId token : string) (org : string) (tenantName : string)
  : M (string * string * error) :=
  let* db := getDatabase databaseId in
  match db with
  | Failed err => ret ("", "", Some err)
  | Ok db =>
      match Info_CloudProvider db, Info_Region db with
      | Some cloudProvider, Some region =>
          let pulsarCluster := GetPulsarCluster cloudProvider region in
          let* '(pulsarToken, err) :=
            getPulsarToken pulsarCluster token org tenantName in
          ret (pulsarCluster, pulsarToken, err)
      | _, _ => panic "nil pointer dereference"
      end
  end.

Definition setCDCData (id : string) : M error :=
  let* _ := d_SetId id in
  ret nil_error.

(** The first loop of [resourceCDCCreate]:
    [for enableClientResult == nil || strings.HasPrefix(enableClientResult.Status, "401")]. *)
Fixpoint enableLoop (fuel : nat) (databaseId tenantName org : string)
    (cdcRequestJSON : EnableCDCJSONRequestBody) (v : EnableVars)
  : M (LoopExit EnableVars) :=
  match fuel with
  | O => outOfFuel
  | S fuel' =>
      if match enableClientResult v with
         | None => true
         | Some r => strings.HasPrefix (httpStatus r) "401"
         end
      then
        let* res := streamingClientv3_EnableCDC tenantName (pulsarCluster v)
                      ("Bearer " +:+ pulsarToken v) cdcRequestJSON in
        match res with
        | Failed err => ret (Return (diag_FromErr err))
        | Ok res =>
            if strings.HasPrefix (httpStatus res) "2" then
              ret (Leave (mkEnableVars (Some res) (retryCount v) (pulsarCluster v)
                            (pulsarToken v) (fst (ioutil_ReadAll res))))
            else
              let* _ := if retryCount v >? 0 then time_Sleep 20 else ret tt in
              if retryCount v >? 6 then
                ret (Return (diag_Errorf ("Could not enable CDC with token: "
                                          +:+ bodyBuffer v)))
              else
                let retryCount' := retryCount v + 1 in
                let* '(pulsarCluster', pulsarToken', err) :=
                  prepCDC databaseId (token w) org tenantName in
                match err with
                | Some e => ret (Return (diag_FromErr e))
                | None =>
                    enableLoop fuel' databaseId tenantName org cdcRequestJSON
                      (mkEnableVars (Some res) retryCount' pulsarCluster'
                         pulsarToken' (bodyBuffer v))
                end
        end
      else ret (Leave v)
  end.

(** The second loop of [resourceCDCCreate]:
    [for cdcResult == nil || len(cdcResult) <= 0]. *)
Fixpoint getCDCLoop (fuel : nat) (tenantName cluster authorization : string)
    (v : PollVars) : M (LoopExit PollVars) :=
  match fuel with
  | O => outOfFuel
  | S fuel' =>
      if (Z.of_nat (length (cdcResult v)) <=? 0) then
        let* getCDCResponse :=
          streamingClientv3_GetCDC tenantName cluster authorization in
        match getCDCResponse with
        | Failed err => ret (Return (diag_FromErr err))
        | Ok getCDCResponse =>
            if negb (strings.HasPrefix (httpStatus getCDCResponse) "2") then
              ret (Return (diag_Errorf ("Error enabling client "
                                        +:+ fst (ioutil_ReadAll getCDCResponse))))
            else
              let bodyBuffer' := fst (ioutil_ReadAll getCDCResponse) in
              let cdcResult' := fst (jsonCDCResult w bodyBuffer') in
              let* _ := if pollRetryCount v >? 0 then time_Sleep 20 else ret tt in
              if pollRetryCount v >? 6 then
                ret (Return (diag_Errorf ("Could not enable CDC with token: "
                                          +:+ bodyBuffer')))
              else
                getCDCLoop fuel' tenantName cluster authorization
                  (mkPollVars cdcResult' (pollRetryCount v) bodyBuffer')
        end
      else ret (Leave v)
  end.

(** [fuel] bounds the iterations of each of the two loops. *)
Definition resourceCDCCreate (fuel : nat) : M Diagnostics :=
  let* table := d_GetString "table" in
  let* keyspace := d_GetString "keyspace" in
  let* databaseId := d_GetString "database_id" in
  let* databaseName := d_GetString "database_name" in
  let* topicPartitions := d_GetInt "topic_partitions" in
  let* tenantName := d_GetString "tenant_name" in
  let* orgBody := client_GetCurrentOrganization in
  match orgBody with
  | Failed _ => panic "nil pointer dereference"
  | Ok orgBody =>
      let '(bodyBuffer0, err) := ioutil_ReadAll orgBody in
      match err with
      | Some e => ret (diag_FromErr e)
      | None =>
          let org := fst (jsonOrgId w bodyBuffer0) in
          let cdcRequestJSON :=
            mkEnableCDCBody databaseId databaseName keyspace org table
              topicPartitions in
          let* '(pulsarCluster0, pulsarToken0, err) :=
            prepCDC databaseId (token w) org tenantName in
          match err with
          | Some e => ret (diag_FromErr e)
          | None =>
              let* exit1 :=
                enableLoop fuel databaseId tenantName org cdcRequestJSON
                  (mkEnableVars None 0 pulsarCluster0 pulsarToken0 bodyBuffer0) in
              match exit1 with
              | Return diags => ret diags
              | Leave v1 =>
                  let* exit2 :=
                    getCDCLoop fuel tenantName (pulsarCluster v1)
                      ("Bearer " +:+ pulsarToken v1)
                      (mkPollVars [] 0 (bodyBuffer v1)) in
                  match exit2 with
                  | Return diags => ret diags
                  | Leave v2 =>
                      match cdcResult v2 with
                      | [] => panic "index out of range [0] with length 0"
                      | first :: _ =>
                          let* err := d_Set "connector_status"
                                        (VString (ConnectorStatus first)) in
                          match err with
                          | Some e => ret (diag_FromErr e)
                          | None =>
                              let* err := d_Set "data_topic"
                                            (VString (DataTopic first)) in
                              match err with
                              | Some e => ret (diag_FromErr e)
                              | None =>
                                  let* _ := setCDCData
                                              (cdcID databaseId keyspace table
                                                 tenantName) in
                                  ret []
                              end
                          end
                      end
                  end
              end
          end
      end
  end.

(** The [for i := 0; i < len(cdcResult); i++] loop of [resourceCDCRead]:
    [true] when it returns from the function at a matching entry. *)
Fixpoint findCDC (keyspace table : string) (cdcResult : list CDCEntry) : bool :=
  match cdcResult with
  | [] => false
  | e :: rest =>
      if String.eqb (Keyspace e) keyspace then
        if String.eqb (DatabaseTable e) table then true
        else findCDC keyspace table rest
      else findCDC keyspace table rest
  end.

Definition resourceCDCRead : M Diagnostics :=
  let* id := d_Id in
  let '(databaseId, keyspace, table, tenantName, err) := parseCDCID id in
  match err with
  | Some e => ret (diag_FromErr e)
  | None =>
      let* orgBody := client_GetCurrentOrganization in
      match orgBody with
      | Failed _ => panic "nil pointer dereference"
      | Ok orgBody =>
          let '(bodyBuffer0, err) := ioutil_ReadAll orgBody in
          match err with
          | Some e => ret (diag_FromErr e)
          | None =>
              let org := fst (jsonOrgId w bodyBuffer0) in
              let* '(pulsarCluster0, pulsarToken0, _) :=
                prepCDC databaseId (token w) org tenantName in
              let* getCDCResponse :=
                streamingClientv3_GetCDC tenantName pulsarCluster0 pulsarToken0 in
              match getCDCResponse with
              | Failed _ => panic "nil pointer dereference"
              | Ok getCDCResponse =>
                  if negb (strings.HasPrefix (httpStatus getCDCResponse) "2") then
                    ret (diag_Errorf ("Error getting cdc config "
                                      +:+ fst (ioutil_ReadAll getCDCResponse)))
                  else
                    let body := fst (ioutil_ReadAll getCDCResponse) in
                    let cdcResult0 := fst (jsonCDCResult w body) in
                    if findCDC keyspace table cdcResult0 then ret []
                    else
                      match cdcResult0 with
                      | [] => panic "index out of range [0] with length 0"
                      | first :: _ =>
                          let* err := d_Set "connector_status"
                                        (VString (ConnectorStatus first)) in
                          match err with
                          | Some e => ret (diag_FromErr e)
                          | None =>
                              let* err := d_Set "data_topic"
                                            (VString (DataTopic first)) in
                              match err with
                              | Some e => ret (diag_FromErr e)
                              | None =>
                                  let* _ := d_SetId "" in
                                  ret []
                              end
                          end
                      end
              end
          end
      end
  end.

End Provider.

(** * The outcome classes of the specification

    Every classification step of the specification answers Retry, Fail or
    Proceed.  [classifyParentStatus] is the policy of the status poller as the
    specification words it; [observe] says what each answer means for a run
    of a function handed to [retry.RetryContext]. *)

Inductive RetryOutcome := Retry | Fail | Proceed.

Definition isTerminalStatus (status : string) : bool :=
  String.eqb status ERROR || String.eqb status TERMINATED
  || String.eqb status TERMINATING.

Definition classifyParentStatus (r : GoResult GetDatabaseResponse) : RetryOutcome :=
  match r with
  | Failed _ => Retry
  | Ok res =>
      if gdStatusCode res >=? 500 then Retry
      else if (gdStatusCode res >? 200) || isNil (JSON200 res) then Fail
      else match JSON200 res with
           | None => Fail
           | Some db =>
               if isTerminalStatus (Status db) then Fail
               else if String.eqb (Status db) ACTIVE then Proceed
               else Retry
           end
  end.

(** A run of the retried function that started in [st] and read the parent
    status with the call [read]: Retry and Fail end the run with a retryable
    or a non-retryable error right after the read; Proceed goes on to issue
    the call [mutation]. *)
Definition observe (read mutation : Call) (st : State)
    (run : Outcome (option RetryError) * State) (o : RetryOutcome) : Prop :=
  match o with
  | Retry =>
      exists e, run = (Val (retry_RetryableError e), mkState (read :: trace st) (rd st))
  | Fail =>
      exists e, run = (Val (retry_NonRetryableError e), mkState (read :: trace st) (rd st))
  | Proceed => trace (snd run) = mutation :: read :: trace st
  end.

(** Both keyspace operations classify the parent status read in [st] as [o]. *)
Definition classified (w : World) (st : State) (databaseID keyspaceName : string)
    (o : RetryOutcome) : Prop :=
  observe (CallGetDatabaseWithResponse databaseID)
    (CallAddKeyspaceWithResponse databaseID keyspaceName) st
    (resourceKeyspaceCreate_func w databaseID keyspaceName st) o
  /\ observe (CallGetDatabaseWithResponse databaseID)
       (CallDropKeyspaceWithResponse databaseID keyspaceName) st
       (resourceKeyspaceDelete_func w databaseID keyspaceName st) o.

(** ** Frame conditions on the id

    [keeps_id m]: [m] never writes the id.  [id_only_on ok m]: [m] writes the
    id only on runs that end with [ok]. *)
Definition keeps_id {B} (m : M B) : Prop :=
  forall st, rdId (rd (snd (m st))) = rdId (rd st).

Definition id_only_on {A} (ok : A) (m : M A) : Prop :=
  forall st, fst (m st) = Val ok \/ rdId (rd (snd (m st))) = rdId (rd st).

(** * Scenarios

    Concrete resource data and worlds on which the operations are run. *)

(** A fresh [ResourceData] of a resource: no id, the given configuration. *)
Definition newResourceData (schema : gmap string ValueType)
    (config : gmap string Value) : ResourceData :=
  mkResourceData schema "" config.

Definition keyspaceConfig : gmap string Value :=
  <["database_id" := VString "db-1"]> (<["name" := VString "ks1"]> ∅).

Definition keyspaceState : State :=
  mkState [] (newResourceData resourceKeyspace_Schema keyspaceConfig).

Definition cdcConfig : gmap string Value :=
  <["table" := VString "Orders"]> (<["keyspace" := VString "KS1"]>
  (<["database_id" := VString "db-1"]> (<["database_name" := VString "main"]>
  (<["topic_partitions" := VInt 3]> (<["tenant_name" := VString "tenant"]> ∅))))).

Definition cdcState : State :=
  mkState [] (newResourceData resourceCDC_Schema cdcConfig).

(** A world for the keyspace operations: the database status read and the
    two mutations answer by call number; nothing else is reachable. *)
Definition keyspaceWorld (status : nat -> GoResult GetDatabaseResponse)
    (add drop : nat -> GoResult ClientResponse) : World :=
  mkWorld "AstraCS:token"
    (fun n _ => status n) (fun n _ _ => add n) (fun n _ _ => drop n)
    (fun _ => Failed "no route") (fun _ _ => Failed "no route")
    (fun _ _ => Failed "no route") (fun _ _ => Failed "no route")
    (fun _ _ => Failed "no route") (fun _ _ => Failed "no route")
    (fun _ => ("", Some "unexpected end of JSON input"))
    (fun _ => ([], Some "unexpected end of JSON input"))
    (fun _ => ([], Some "unexpected end of JSON input")).

(** A database response with code 200 and the given status. *)
Definition databaseIn (status : string) : GoResult GetDatabaseResponse :=
  Ok (mkGetDatabaseResponse 200 "{...}"
        (Some (mkDatabase status (Some "GCP") (Some "us-east1")))).

Definition accepted : GoResult ClientResponse := Ok (mkClientResponse 201 "").

(** The database is initialising for the first two reads. *)
Definition worldBecomesActive : World :=
  keyspaceWorld
    (fun n => if (n <? 2)%nat then databaseIn "INITIALIZING" else databaseIn ACTIVE)
    (fun _ => accepted) (fun _ => accepted).

(** The first mutation meets a concurrent modification. *)
Definition worldConflictOnce : World :=
  keyspaceWorld (fun _ => databaseIn ACTIVE)
    (fun n => if (n <? 1)%nat then Ok (mkClientResponse 409 "conflict") else accepted)
    (fun n => if (n <? 1)%nat then Ok (mkClientResponse 409 "conflict") else accepted).

(** A world for the CDC operations.  The organisation, the database and the
    token endpoints always answer; the token list decodes to [tokens], the
    CDC listing is decoded by [listing], and [EnableCDC] and [GetCDC] answer
    by call number. *)
Definition cdcWorld (tokens : list StreamingToken * error)
    (enable getcdc : nat -> GoResult HttpResponse)
    (listing : string -> list CDCEntry * error) : World :=
  mkWorld "AstraCS:token"
    (fun _ _ => Failed "no route") (fun _ _ _ => Failed "no route")
    (fun _ _ _ => Failed "no route")
    (fun _ => Ok (mkHttpResponse "200 OK" "org-json" None))
    (fun _ _ => Ok (mkDatabase ACTIVE (Some "GCP") (Some "us-east1")))
    (fun _ _ => Ok (mkClientResponse 200 "tokens-json"))
    (fun _ _ => Ok (mkClientResponse 200 "pulsar-jwt"))
    (fun n _ => enable n) (fun n _ => getcdc n)
    (fun _ => ("org-1", None))
    listing
    (fun _ => tokens).

Definition oneToken : list StreamingToken * error :=
  ([mkStreamingToken "token-1"], None).

Definition answer (line : string) (body : string) : GoResult HttpResponse :=
  Ok (mkHttpResponse line body None).


Definition otherEntry : CDCEntry :=
  mkCDCEntry "ks1" "users" "running" "persistent://tenant/astracdc/data-users".

(** The listing body is either the empty array or one with [otherEntry]. *)
Definition decodeListing (body : string) : list CDCEntry * error :=
  if String.eqb body "[]" then ([], None) else ([otherEntry], None).

(** [EnableCDC] answers 401 to every attempt. *)
Definition world401 : World :=
  cdcWorld oneToken (fun _ => answer "401 Unauthorized" "stale token")
    (fun _ => answer "200 OK" "[]") decodeListing.

(** [EnableCDC] is accepted, the listing stays empty. *)
Definition worldNeverListed : World :=
  cdcWorld oneToken (fun _ => answer "200 OK" "")
    (fun _ => answer "200 OK" "[]") decodeListing.

(** [EnableCDC] is refused with the given status line, while the tenant
    already lists the CDC of another table. *)
Definition worldRefused (line : string) : World :=
  cdcWorld oneToken (fun _ => answer line "refused")
    (fun _ => answer "200 OK" "[other]") decodeListing.

(** The tenant has no token. *)
Definition worldNoToken : World :=
  cdcWorld ([], None) (fun _ => answer "200 OK" "")
    (fun _ => answer "200 OK" "[other]") decodeListing.

(** A CDC resource that was created before: its id is set. *)
Definition cdcStateWithId (id : string) : State :=
  mkState [] (mkResourceData resourceCDC_Schema id cdcConfig).

(** The listing answers of [resourceCDCRead]'s three branches. *)
Definition worldListing (entries : list CDCEntry) : World :=
  cdcWorld oneToken (fun _ => answer "200 OK" "")
    (fun _ => answer "200 OK" "listing") (fun _ => (entries, None)).

(** [EnableCDC] answers 401 to the first two attempts and accepts the third;
    the tenant lists the CDC of another table. *)
Definition worldStaleTwice : World :=
  cdcWorld oneToken
    (fun n => if (n <? 2)%nat then answer "401 Unauthorized" "stale token"
              else answer "200 OK" "")
    (fun _ => answer "200 OK" "[other]") decodeListing.

(** [EnableCDC] is accepted at once, the listing endpoint is unavailable. *)
Definition worldListingDown : World :=
  cdcWorld oneToken (fun _ => answer "200 OK" "")
    (fun _ => answer "503 Service Unavailable" "try later") decodeListing.

(** The database cannot be read, so credential resolution fails; the
    streaming endpoints refuse a request without credentials. *)
Definition worldDatabaseDown : World :=
  mkWorld "AstraCS:token"
    (fun _ _ => Failed "no route") (fun _ _ _ => Failed "no route")
    (fun _ _ _ => Failed "no route")
    (fun _ => Ok (mkHttpResponse "200 OK" "org-json" None))
    (fun _ _ => Failed "database unreachable")
    (fun _ _ => Failed "no route") (fun _ _ => Failed "no route")
    (fun _ _ => answer "401 Unauthorized" "missing token")
    (fun _ _ => answer "401 Unauthorized" "missing token")
    (fun _ => ("org-1", None))
    decodeListing
    (fun _ => ([], Some "unexpected end of JSON input")).

(** The organisation endpoint cannot be reached. *)
Definition worldOrganizationDown : World :=
  mkWorld "AstraCS:token"
    (fun _ _ => Failed "no route") (fun _ _ _ => Failed "no route")
    (fun _ _ _ => Failed "no route")
    (fun _ => Failed "connection refused")
    (fun _ _ => Ok (mkDatabase ACTIVE (Some "GCP") (Some "us-east1")))
    (fun _ _ => Ok (mkClientResponse 200 "tokens-json"))
    (fun _ _ => Ok (mkClientResponse 200 "pulsar-jwt"))
    (fun _ _ => answer "200 OK" "") (fun _ _ => answer "200 OK" "[other]")
    (fun _ => ("org-1", None))
    decodeListing
    (fun _ => oneToken).

(** * The remaining operations

    [resourceKeyspaceRead] and [resourceCDCDelete] use two more answers of
    the remote side: the helper [listKeyspaces] of the keyspaces data source,
    taken as given, and the client method [DeleteCDC].  Each is used once in a
    run; its answer may depend on the request and on all the calls made
    before (the trace), and the call is entered in the trace like every
    other. *)

Record Remote := mkRemote {
  on_listKeyspaces : list Call -> string -> list string * error;
  onDeleteCDC : list Call -> string -> string -> string ->
                DeleteCDCJSONRequestBody -> GoResult HttpResponse;
}.

(** [strings.Join(elems, sep)] *)
Fixpoint strings_Join (elems : list string) (sep : string) : string :=
  match elems with
  | [] => ""
  | [e] => e
  | e :: rest => e +:+ sep +:+ strings_Join rest sep
  end.

(** No byte of [s] is an upper-case ASCII letter. *)
Definition noUpper (s : string) : bool :=
  allBytes (fun c => Ascii.eqb (strings.lowerByte c) c) s.

(** The [for _, k := range keyspaces] loop of [resourceKeyspaceRead]: [true]
    when it meets [keyspaceName]. *)
Fixpoint findKeyspace (keyspaceName : string) (keyspaces : list string) : bool :=
  match keyspaces with
  | [] => false
  | k :: rest => if String.eqb k keyspaceName then true
                 else findKeyspace keyspaceName rest
  end.

Section ProviderMore.

Variable w : World.
Variable x : Remote.

Definition listKeyspaces (databaseID : string) : M (list string * error) :=
  fun st =>
    (Val (on_listKeyspaces x (trace st) databaseID),
     mkState (CallListKeyspaces databaseID :: trace st) (rd st)).

Definition streamingClientv3_DeleteCDC (tenantName cluster authorization : string)
    (body : DeleteCDCJSONRequestBody) : M (GoResult HttpResponse) :=
  fun st =>
    (Val (onDeleteCDC x (trace st) tenantName cluster authorization body),
     mkState (CallDeleteCDC tenantName cluster authorization body :: trace st) (rd st)).

Definition resourceKeyspaceRead : M Diagnostics :=
  let* id := d_Id in
  let '(databaseID, keyspaceName, err) := parseKeyspaceID id in
  match err with
  | Some e => ret (diag_FromErr e)
  | None =>
      let* '(keyspaces, err) := listKeyspaces databaseID in
      match err with
      | Some e => ret (diag_FromErr e)
      | None =>
          if findKeyspace keyspaceName keyspaces then
            let* err := setKeyspaceResourceData databaseID keyspaceName in
            match err with
            | Some e => ret (diag_FromErr e)
            | None => ret []
            end
          else
            let* _ := d_SetId "" in
            ret []
      end
  end.

Definition resourceCDCDelete : M Diagnostics :=
  let* id := d_Id in
  let '(databaseId, keyspace, table, tenantName, err) := parseCDCID id in
  match err with
  | Some e => ret (diag_FromErr e)
  | None =>
      let* orgBody := client_GetCurrentOrganization w in
      match orgBody with
      | Failed _ => panic "nil pointer dereference"
      | Ok orgBody =>
          let '(bodyBuffer0, err) := ioutil_ReadAll orgBody in
          match err with
          | Some e => ret (diag_FromErr e)
          | None =>
              let org := fst (jsonOrgId w bodyBuffer0) in
              let* '(pulsarCluster0, pulsarToken0, _) :=
                prepCDC w databaseId (token w) org tenantName in
              let* databaseName := d_GetString "database_name" in
              let* topicPartitions := d_GetInt "topic_partitions" in
              let deleteRequestBody :=
                mkDeleteCDCBody databaseId databaseName keyspace org table
                  topicPartitions in
              let* getDeleteCDCResponse :=
                streamingClientv3_DeleteCDC tenantName pulsarCluster0 pulsarToken0
                  deleteRequestBody in
              match getDeleteCDCResponse with
              | Failed _ => panic "nil pointer dereference"
              | Ok getDeleteCDCResponse =>
                  if negb (strings.HasPrefix (httpStatus getDeleteCDCResponse) "2")
                  then
                    ret (diag_Errorf ("Error deleting cdc "
                                      +:+ fst (ioutil_ReadAll getDeleteCDCResponse)))
                  else
                    let* _ := d_SetId "" in
                    ret []
              end
          end
      end
  end.

End ProviderMore.

(** A remote side on which [DeleteCDC] answers with the given status line,
    whatever the request. *)
Definition remoteDeleteAnswers (line : string) : Remote :=
  mkRemote (fun _ _ => ([], None)) (fun _ _ _ _ _ => answer line "").

(** The resource data [setKeyspaceResourceData] leaves on a resource of
    [resourceKeyspace]: the id and the two attributes. *)
Definition keyspaceCreated (d : ResourceData) (databaseID keyspaceName : string)
  : ResourceData :=
  mkResourceData (rdSchema d) (keyspaceID databaseID keyspaceName)
    (<["database_id" := VString databaseID]>
       (<["name" := VString keyspaceName]> (rdAttrs d))).

(** The resource data a successful [resourceCDCCreate] leaves: the two
    computed attributes taken from the entry [first] of the listing, then the
    id. *)
Definition cdcCreated (d : ResourceData) (id : string) (first : CDCEntry)
  : ResourceData :=
  mkResourceData (rdSchema d) id
    (<["data_topic" := VString (DataTopic first)]>
       (<["connector_status" := VString (ConnectorStatus first)]> (rdAttrs d))).

(** The statements of [resourceCDCCreate] that follow its first loop, with
    the variables [v1] as that loop leaves them: the second loop, the two
    computed attributes and the id. *)
Definition resourceCDCCreate_afterEnable (w : World) (fuel : nat)
    (table keyspace databaseId tenantName : string) (v1 : EnableVars)
  : M Diagnostics :=
  let* exit2 :=
    getCDCLoop w fuel tenantName (pulsarCluster v1) ("Bearer " +:+ pulsarToken v1)
      (mkPollVars [] 0 (bodyBuffer v1)) in
  match exit2 with
  | Return diags => ret diags
  | Leave v2 =>
      match cdcResult v2 with
      | [] => panic "index out of range [0] with length 0"
      | first :: _ =>
          let* err := d_Set "connector_status" (VString (ConnectorStatus first)) in
          match err with
          | Some e => ret (diag_FromErr e)
          | None =>
              let* err := d_Set "data_topic" (VString (DataTopic first)) in
              match err with
              | Some e => ret (diag_FromErr e)
              | None =>
                  let* _ := setCDCData (cdcID databaseId keyspace table tenantName) in
                  ret []
              end
          end
      end
  end.

(** The entry of the listing that carries the keyspace and the table as
    [cdcConfig] names them. *)
Definition configuredEntry : CDCEntry :=
  mkCDCEntry "KS1" "Orders" "running" "persistent://tenant/astracdc/data-Orders".

(** The state a successful [resourceCDCCreate] leaves from [cdcState]. *)
Definition cdcStateCreated : State :=
  mkState []
    (cdcCreated (newResourceData resourceCDC_Schema cdcConfig)
       (cdcID "db-1" "KS1" "Orders" "tenant") configuredEntry).

(** * Properties *)

(** ** Runs of the scenarios *)

Example split_keyspace_id :
  strings.Split "db-1/keyspace/ks1" "/keyspace/" = ["db-1"; "ks1"].
Proof. reflexivity. Qed.

Example split_trailing_separators :
  strings.Split "a/b//" "/" = ["a"; "b"; ""; ""].
Proof. reflexivity. Qed.

Example split_leftmost_first :
  strings.Split "xaaay" "aa" = ["x"; "ay"].
Proof. reflexivity. Qed.

Example GetPulsarCluster_gcp :
  GetPulsarCluster "GCP" "us-east1" = "pulsar-gcp-useast1"
  /\ GetPulsarCluster "AWS" "us-east-1" = "pulsar-aws-useast1".
Proof. split; reflexivity. Qed.

Example validateKeyspace_examples :
  validateKeyspace "ks_1" = [] /\ validateKeyspace "_ks" = ["Invalid keyspace name"]
  /\ validateKeyspace "a/b" = ["Invalid keyspace name"].
Proof. repeat split; reflexivity. Qed.

(** Status Initializing, Initializing, Active, then an accepted mutation:
    success after three reads and one mutation, with the id
    [db-1/keyspace/ks1]. *)
Example keyspace_create_after_initializing :
  let run := resourceKeyspaceCreate worldBecomesActive 10 keyspaceState in
  fst run = Val []
  /\ rdId (rd (snd run)) = "db-1/keyspace/ks1"
  /\ calls GetDatabaseWithResponse (trace (snd run)) = 3%nat
  /\ calls AddKeyspaceWithResponse (trace (snd run)) = 1%nat.
Proof. vm_compute. repeat split. Qed.

(** A 409 on the first mutation and an accepted second one: success after
    exactly two mutation calls. *)
Example keyspace_create_conflict_then_accepted :
  let run := resourceKeyspaceCreate worldConflictOnce 10 keyspaceState in
  fst run = Val []
  /\ rdId (rd (snd run)) = "db-1/keyspace/ks1"
  /\ calls AddKeyspaceWithResponse (trace (snd run)) = 2%nat.
Proof. vm_compute. repeat split. Qed.

Example keyspace_delete_conflict_then_accepted :
  let run := resourceKeyspaceDelete worldConflictOnce 10
               (mkState [] (mkResourceData resourceKeyspace_Schema
                              "db-1/keyspace/ks1" keyspaceConfig)) in
  fst run = Val []
  /\ rdId (rd (snd run)) = ""
  /\ calls DropKeyspaceWithResponse (trace (snd run)) = 2%nat.
Proof. vm_compute. repeat split. Qed.

(** When the timeout passes while the database is still initialising, the
    last retryable error is returned. *)
Example keyspace_create_timeout :
  fst (resourceKeyspaceCreate worldBecomesActive 2 keyspaceState)
  = Val ["expected database to be active but is INITIALIZING"].
Proof. reflexivity. Qed.

(** ** Strings *)

Section SplitFacts.

Implicit Types s t : string.

Lemma append_cons c s t : String c s +:+ t = String c (s +:+ t).
Proof. reflexivity. Qed.

Lemma append_empty_l s : "" +:+ s = s.
Proof. reflexivity. Qed.

Lemma append_empty_r s : s +:+ "" = s.
Proof.
  induction s as [|c s IH]; [reflexivity | now rewrite append_cons, IH].
Qed.

Lemma genSplit_nonempty sep (s : string) : forall k, strings.genSplit sep k s <> [].
Proof.
  induction s as [|c s IH]; intros k; cbn [strings.genSplit]; [discriminate|].
  destruct k as [|k]; [|apply IH].
  destruct (strings.HasPrefix (String c s) sep); [discriminate|].
  destruct (strings.genSplit sep 0 s); discriminate.
Qed.

Lemma HasPrefix_slash_other sep' c s :
  Ascii.eqb c "/" = false ->
  strings.HasPrefix (String c s) (String "/" sep') = false.
Proof.
  intros Hc. cbn [strings.HasPrefix]. now rewrite Ascii.eqb_sym, Hc.
Qed.

(** A piece without ['/'] in front of [t] stays in the first segment. *)
Lemma genSplit_app_noslash sep' (s t : string) :
  strings.ContainsSlash s = false ->
  strings.genSplit (String "/" sep') 0 (s +:+ t)
  = consHead s (strings.genSplit (String "/" sep') 0 t).
Proof.
  induction s as [|c s IH]; intros Hs.
  - rewrite append_empty_l.
    pose proof (genSplit_nonempty (String "/" sep') t 0%nat) as Hne.
    destruct (strings.genSplit _ 0 t); [congruence | reflexivity].
  - simpl in Hs. apply orb_false_elim in Hs as [Hc Hs].
    rewrite append_cons. cbn [strings.genSplit]. rewrite (HasPrefix_slash_other _ _ _ Hc), (IH Hs).
    pose proof (genSplit_nonempty (String "/" sep') t 0%nat) as Hne.
    destruct (strings.genSplit _ 0 t); [congruence | reflexivity].
Qed.

Lemma genSplit_noslash sep' (s : string) :
  strings.ContainsSlash s = false ->
  strings.genSplit (String "/" sep') 0 s = [s].
Proof.
  intros Hs. pose proof (genSplit_app_noslash sep' s "" Hs) as H.
  rewrite append_empty_r in H. rewrite H. cbn. now rewrite append_empty_r.
Qed.

Lemma lowerByte_slash (c : ascii) :
  Ascii.eqb (strings.lowerByte c) "/" = Ascii.eqb c "/".
Proof.
  destruct c as [[] [] [] [] [] [] [] []]; reflexivity.
Qed.

Lemma ToLower_app (a b : string) :
  strings.ToLower (a +:+ b) = strings.ToLower a +:+ strings.ToLower b.
Proof.
  induction a as [|c a IH]; [reflexivity|].
  rewrite append_cons. cbn [strings.ToLower]. now rewrite append_cons, IH.
Qed.

Lemma ContainsSlash_ToLower (s : string) :
  strings.ContainsSlash (strings.ToLower s) = strings.ContainsSlash s.
Proof.
  induction s as [|c s IH]; simpl; [reflexivity|].
  now rewrite lowerByte_slash, IH.
Qed.

(** Splitting on ["/"] yields one segment more than there are ['/'] bytes,
    so lower-casing does not change the number of segments. *)
Lemma HasPrefix_slash_byte c s :
  strings.HasPrefix (String c s) "/" = Ascii.eqb c "/".
Proof.
  cbn [strings.HasPrefix]. now rewrite andb_true_r, Ascii.eqb_sym.
Qed.

Lemma length_Split_slash (s : string) :
  length (strings.Split s "/") = S (countSlash s).
Proof.
  unfold strings.Split. induction s as [|c s IH]; [reflexivity|].
  cbn [strings.genSplit countSlash]. rewrite HasPrefix_slash_byte.
  destruct (Ascii.eqb c "/"); simpl.
  - now rewrite IH.
  - pose proof (genSplit_nonempty "/" s 0%nat) as Hne.
    destruct (strings.genSplit "/" 0 s); [congruence | exact IH].
Qed.

Lemma countSlash_ToLower (s : string) :
  countSlash (strings.ToLower s) = countSlash s.
Proof.
  induction s as [|c s IH]; simpl; [reflexivity|].
  now rewrite lowerByte_slash, IH.
Qed.

End SplitFacts.

(** A name accepted by [validateKeyspace] contains no ['/']. *)
Lemma isWord_not_slash (c : ascii) : isWord c = true -> Ascii.eqb c "/" = false.
Proof. destruct c as [[] [] [] [] [] [] [] []]; vm_compute; congruence. Qed.

Lemma allBytes_isWord_no_slash (s : string) :
  allBytes isWord s = true -> strings.ContainsSlash s = false.
Proof.
  induction s as [|c s IH]; [reflexivity|]. cbn [allBytes strings.ContainsSlash].
  intros H. apply andb_prop in H as [Hc Hs].
  now rewrite (isWord_not_slash c Hc), (IH Hs).
Qed.

Lemma validateKeyspace_no_slash (name : string) :
  validateKeyspace name = [] -> strings.ContainsSlash name = false.
Proof.
  unfold validateKeyspace, keyspaceNameRegex_MatchString.
  destruct name as [|c rest]; [discriminate|].
  destruct (isAlnum c) eqn:Hc; [|discriminate].
  destruct (allBytes isWord rest) eqn:Hrest; [|discriminate].
  intros _. cbn [strings.ContainsSlash].
  rewrite (allBytes_isWord_no_slash rest Hrest), orb_false_r.
  apply isWord_not_slash. unfold isWord. now rewrite Hc.
Qed.

(** ** Resource data *)

Lemma rd_Set_id (d : ResourceData) key v : rdId (fst (rd_Set d key v)) = rdId d.
Proof.
  unfold rd_Set. destruct (rdSchema d !! key) as [t|]; [|reflexivity].
  destruct (hasType v t); reflexivity.
Qed.

Lemma rd_Set_schema (d : ResourceData) key v :
  rdSchema (fst (rd_Set d key v)) = rdSchema d.
Proof.
  unfold rd_Set. destruct (rdSchema d !! key) as [t|]; [|reflexivity].
  destruct (hasType v t); reflexivity.
Qed.

Lemma rd_Set_ok (d : ResourceData) key v t :
  rdSchema d !! key = Some t -> hasType v t = true ->
  rd_Set d key v
  = (mkResourceData (rdSchema d) (rdId d) (<[key := v]> (rdAttrs d)), None).
Proof. intros Hk Ht. unfold rd_Set. now rewrite Hk, Ht. Qed.

Lemma setKeyspaceResourceData_state (st : State) databaseID keyspaceName :
  rdId (rd (snd (setKeyspaceResourceData databaseID keyspaceName st)))
  = keyspaceID databaseID keyspaceName
  /\ trace (snd (setKeyspaceResourceData databaseID keyspaceName st)) = trace st.
Proof.
  unfold setKeyspaceResourceData, bind, d_SetId, d_Set, ret. cbn.
  destruct (snd (rd_Set _ "name" _)); cbn.
  - now rewrite rd_Set_id.
  - destruct (snd (rd_Set _ "database_id" _)); cbn; now rewrite !rd_Set_id.
Qed.

(** ** Identity strings *)

Lemma parseKeyspaceID_keyspaceID (databaseID keyspaceName : string) :
  strings.ContainsSlash databaseID = false ->
  strings.ContainsSlash keyspaceName = false ->
  parseKeyspaceID (keyspaceID databaseID keyspaceName)
  = (databaseID, keyspaceName, None).
Proof.
  intros Hdb Hks. unfold parseKeyspaceID, keyspaceID, strings.Split.
  rewrite genSplit_app_noslash by assumption.
  assert (strings.genSplit "/keyspace/" 0 ("/keyspace/" +:+ keyspaceName)
          = "" :: strings.genSplit "/keyspace/" 0 keyspaceName) as -> by reflexivity.
  rewrite genSplit_noslash by assumption.
  cbn. now rewrite append_empty_r.
Qed.

Lemma Split_slash_cons (a rest : string) :
  strings.ContainsSlash a = false ->
  strings.genSplit "/" 0 (a +:+ "/" +:+ rest) = a :: strings.genSplit "/" 0 rest.
Proof.
  intros Ha. rewrite genSplit_app_noslash by assumption.
  assert (strings.genSplit "/" 0 ("/" +:+ rest) = "" :: strings.genSplit "/" 0 rest)
    as -> by reflexivity.
  cbn. now rewrite append_empty_r.
Qed.

Lemma parseCDCID_cdcID (databaseId keyspace table tenantName : string) :
  strings.ContainsSlash databaseId = false ->
  strings.ContainsSlash keyspace = false ->
  strings.ContainsSlash table = false ->
  strings.ContainsSlash tenantName = false ->
  parseCDCID (cdcID databaseId keyspace table tenantName)
  = (strings.ToLower databaseId, strings.ToLower keyspace, strings.ToLower table,
     strings.ToLower tenantName, None).
Proof.
  intros Hd Hk Ht Hn. unfold parseCDCID, cdcID, strings.Split.
  rewrite !ToLower_app.
  change (strings.ToLower "/") with "/".
  rewrite !Split_slash_cons by now rewrite ContainsSlash_ToLower.
  rewrite genSplit_noslash by now rewrite ContainsSlash_ToLower.
  reflexivity.
Qed.




(** C6. An id whose split on the delimiter does not have the expected number
    of segments (2 for the keyspace id split on [/keyspace/], 4 for the CDC id
    split on [/]) is rejected: the decoder returns its error and empty
    fields. *)
Theorem decode_rejects_wrong_arity (id : string) :
  (length (strings.Split id "/keyspace/") <> 2%nat ->
   parseKeyspaceID id
   = ("", "", Some "invalid keyspace id format: expected database_id/keyspace"))
  /\ (length (strings.Split id "/") <> 4%nat ->
      parseCDCID id
      = ("", "", "", "",
         Some "invalid role id format: expected databaseId/keyspace/table/tenantName")).
Proof.
  split; intros Hlen.
  - unfold parseKeyspaceID.
    destruct (Nat.eqb_spec (length (strings.Split id "/keyspace/")) 2);
      [contradiction | reflexivity].
  - unfold parseCDCID.
    rewrite length_Split_slash in Hlen |- *. rewrite countSlash_ToLower.
    destruct (Nat.eqb_spec (S (countSlash id)) 4); [contradiction | reflexivity].
Qed.

Lemma decode_rejects_wrong_arity_witness :
  parseKeyspaceID "db-1/ks1/extra"
  = ("", "", Some "invalid keyspace id format: expected database_id/keyspace")
  /\ parseCDCID "db-1/ks1/extra"
     = ("", "", "", "",
        Some "invalid role id format: expected databaseId/keyspace/table/tenantName").
Proof.
  split.
  - apply (proj1 (decode_rejects_wrong_arity "db-1/ks1/extra")). vm_compute. lia.
  - apply (proj2 (decode_rejects_wrong_arity "db-1/ks1/extra")). vm_compute. lia.
Defined.

(** ** Keyspace operations: classification of the parent status *)

Ltac run_func :=
  cbv beta iota zeta delta
    [resourceKeyspaceCreate_func resourceKeyspaceDelete_func bind
     client_GetDatabaseWithResponse client_AddKeyspaceWithResponse
     client_DropKeyspaceWithResponse issue ret panic d_SetId];
  cbn [trace rd fst snd].

Lemma observe_create (w : World) (st : State) (databaseID keyspaceName : string) :
  observe (CallGetDatabaseWithResponse databaseID)
    (CallAddKeyspaceWithResponse databaseID keyspaceName) st
    (resourceKeyspaceCreate_func w databaseID keyspaceName st)
    (classifyParentStatus
       (onGetDatabaseWithResponse w (calls GetDatabaseWithResponse (trace st))
          databaseID)).
Proof.
  run_func. unfold classifyParentStatus, isTerminalStatus.
  destruct (onGetDatabaseWithResponse w (calls GetDatabaseWithResponse (trace st))
              databaseID) as [res|err]; [|cbn; eauto].
  destruct (gdStatusCode res >=? 500); [cbn; eauto|].
  destruct (JSON200 res) as [db|]; cbn [isNil];
    [|rewrite orb_true_r; cbn; eauto].
  destruct (gdStatusCode res >? 200); [cbn; eauto|]. cbn [orb].
  destruct (_ || _ || _); [cbn; eauto|].
  destruct (String.eqb (Status db) ACTIVE); [|cbn; eauto].
  cbn [observe trace].
  destruct (onAddKeyspaceWithResponse w _ databaseID keyspaceName) as [resp|err];
    [|reflexivity].
  destruct (StatusCode resp =? 409); [reflexivity|].
  destruct (StatusCode resp =? 401); [reflexivity|].
  destruct (StatusCode resp >=? 400); [reflexivity|].
  match goal with
  | |- context [setKeyspaceResourceData ?a ?b ?s] =>
      pose proof (proj2 (setKeyspaceResourceData_state s a b)) as Htr;
      destruct (setKeyspaceResourceData a b s) as [[[e|]| |] s']
  end; exact Htr.
Qed.

Lemma observe_delete (w : World) (st : State) (databaseID keyspaceName : string) :
  observe (CallGetDatabaseWithResponse databaseID)
    (CallDropKeyspaceWithResponse databaseID keyspaceName) st
    (resourceKeyspaceDelete_func w databaseID keyspaceName st)
    (classifyParentStatus
       (onGetDatabaseWithResponse w (calls GetDatabaseWithResponse (trace st))
          databaseID)).
Proof.
  run_func. unfold classifyParentStatus, isTerminalStatus.
  destruct (onGetDatabaseWithResponse w (calls GetDatabaseWithResponse (trace st))
              databaseID) as [res|err]; [|cbn; eauto].
  destruct (gdStatusCode res >=? 500); [cbn; eauto|].
  destruct (JSON200 res) as [db|]; cbn [isNil];
    [|rewrite orb_true_r; cbn; eauto].
  destruct (gdStatusCode res >? 200); [cbn; eauto|]. cbn [orb].
  destruct (_ || _ || _); [cbn; eauto|].
  destruct (String.eqb (Status db) ACTIVE); [|cbn; eauto].
  cbn [observe trace].
  destruct (onDropKeyspaceWithResponse w _ databaseID keyspaceName) as [resp|err];
    [|reflexivity].
  destruct (StatusCode resp =? 409); [reflexivity|].
  destruct (StatusCode resp =? 401); [reflexivity|].
  destruct (StatusCode resp >=? 400); reflexivity.
Qed.

(** The three answers exclude each other. *)
Lemma observe_Fail_only read mutation st run :
  observe read mutation st run Fail ->
  ~ observe read mutation st run Retry /\ ~ observe read mutation st run Proceed.
Proof.
  intros [e ->]. split.
  - intros [e' H]. discriminate H.
  - cbn. intros H. apply (f_equal length) in H. cbn in H. lia.
Qed.

Lemma classified_spec w st databaseID keyspaceName :
  classified w st databaseID keyspaceName
    (classifyParentStatus
       (onGetDatabaseWithResponse w (calls GetDatabaseWithResponse (trace st))
          databaseID)).
Proof. split; [apply observe_create | apply observe_delete]. Qed.

Lemma isTerminalStatus_true status :
  status = ERROR \/ status = TERMINATED \/ status = TERMINATING ->
  isTerminalStatus status = true.
Proof. intros [->| [->| ->]]; reflexivity. Qed.

Lemma isTerminalStatus_false status :
  status <> ERROR -> status <> TERMINATED -> status <> TERMINATING ->
  isTerminalStatus status = false.
Proof.
  intros H1 H2 H3. unfold isTerminalStatus.
  apply String.eqb_neq in H1, H2, H3. now rewrite H1, H2, H3.
Qed.

(** C1. The parent-status read of the keyspace operations is classified in
    this order: a transport error is retried; a code of 500 or more is
    retried; a code above 200 or a missing JSON body fails without retry; a
    status ERROR, TERMINATED or TERMINATING fails without retry (and is
    neither retried nor followed by the mutation); ACTIVE proceeds to the
    mutation; every other status is retried. *)
Theorem parent_status_classification
    (w : World) (st : State) (databaseID keyspaceName : string) :
  let r := onGetDatabaseWithResponse w (calls GetDatabaseWithResponse (trace st))
             databaseID in
  let outcome := classified w st databaseID keyspaceName in
  (forall err, r = Failed err -> outcome Retry)
  /\ (forall res, r = Ok res -> 500 <= gdStatusCode res -> outcome Retry)
  /\ (forall res, r = Ok res -> gdStatusCode res < 500 ->
      200 < gdStatusCode res \/ JSON200 res = None -> outcome Fail)
  /\ (forall res db, r = Ok res -> gdStatusCode res <= 200 -> JSON200 res = Some db ->
      (Status db = ERROR \/ Status db = TERMINATED \/ Status db = TERMINATING ->
       outcome Fail /\ ~ outcome Retry /\ ~ outcome Proceed)
      /\ (Status db = ACTIVE -> outcome Proceed)
      /\ (Status db <> ERROR -> Status db <> TERMINATED ->
          Status db <> TERMINATING -> Status db <> ACTIVE -> outcome Retry)).
Proof.
  intros r outcome. pose proof (classified_spec w st databaseID keyspaceName) as H.
  fold r in H. fold outcome in H. unfold classifyParentStatus in H.
  refine (conj _ (conj _ (conj _ _))).
  - intros err Hr. now rewrite Hr in H.
  - intros res Hr Hc. rewrite Hr in H.
    now replace (gdStatusCode res >=? 500) with true in H by (symmetry; lia).
  - intros res Hr Hc Hbad. rewrite Hr in H.
    replace (gdStatusCode res >=? 500) with false in H by (symmetry; lia).
    destruct Hbad as [Hbad|Hbad].
    + now replace (gdStatusCode res >? 200) with true in H by (symmetry; lia).
    + rewrite Hbad in H. cbn [isNil] in H. now rewrite orb_true_r in H.
  - intros res db Hr Hc Hdb. rewrite Hr in H.
    replace (gdStatusCode res >=? 500) with false in H by (symmetry; lia).
    replace (gdStatusCode res >? 200) with false in H by (symmetry; lia).
    rewrite Hdb in H. cbn [isNil orb] in H.
    refine (conj _ (conj _ _)).
    + intros Hterm. rewrite (isTerminalStatus_true _ Hterm) in H.
      refine (conj H (conj _ _)); intros [Hbad _];
        destruct H as [H _]; now apply observe_Fail_only in H.
    + intros Hact. rewrite Hact in H. exact H.
    + intros H1 H2 H3 H4. rewrite (isTerminalStatus_false _ H1 H2 H3) in H.
      apply String.eqb_neq in H4. now rewrite H4 in H.
Qed.

Lemma parent_status_classification_witness :
  classified (keyspaceWorld (fun _ => Failed "connection reset")
                (fun _ => accepted) (fun _ => accepted))
    keyspaceState "db-1" "ks1" Retry
  /\ classified (keyspaceWorld
                   (fun _ => Ok (mkGetDatabaseResponse 503 "unavailable" None))
                   (fun _ => accepted) (fun _ => accepted))
       keyspaceState "db-1" "ks1" Retry
  /\ classified (keyspaceWorld
                   (fun _ => Ok (mkGetDatabaseResponse 404 "not found" None))
                   (fun _ => accepted) (fun _ => accepted))
       keyspaceState "db-1" "ks1" Fail
  /\ classified (keyspaceWorld (fun _ => databaseIn TERMINATED)
                   (fun _ => accepted) (fun _ => accepted))
       keyspaceState "db-1" "ks1" Fail
  /\ classified (keyspaceWorld (fun _ => databaseIn ACTIVE)
                   (fun _ => accepted) (fun _ => accepted))
       keyspaceState "db-1" "ks1" Proceed
  /\ classified (keyspaceWorld (fun _ => databaseIn "INITIALIZING")
                   (fun _ => accepted) (fun _ => accepted))
       keyspaceState "db-1" "ks1" Retry.
Proof.
  refine (conj _ (conj _ (conj _ (conj _ (conj _ _))))).
  - apply (proj1 (parent_status_classification _ keyspaceState "db-1" "ks1")
             "connection reset").
    reflexivity.
  - eapply (proj1 (proj2 (parent_status_classification _ keyspaceState "db-1" "ks1"))).
    + reflexivity.
    + cbn. lia.
  - eapply (proj1 (proj2 (proj2
             (parent_status_classification _ keyspaceState "db-1" "ks1")))).
    + reflexivity.
    + cbn. lia.
    + left. cbn. lia.
  - eapply (proj2 (proj2 (proj2
             (parent_status_classification _ keyspaceState "db-1" "ks1")))).
    + reflexivity.
    + cbn. lia.
    + reflexivity.
    + right. left. reflexivity.
  - eapply (proj2 (proj2 (proj2
             (parent_status_classification _ keyspaceState "db-1" "ks1")))).
    + reflexivity.
    + cbn. lia.
    + reflexivity.
    + reflexivity.
  - eapply (proj2 (proj2 (proj2
             (parent_status_classification _ keyspaceState "db-1" "ks1")))).
    + reflexivity.
    + cbn. lia.
    + reflexivity.
    + cbn. discriminate.
    + cbn. discriminate.
    + cbn. discriminate.
    + cbn. discriminate.
Defined.

(** ** Keyspace operations: a terminal parent *)

Lemma keyspace_schema_database_id :
  resourceKeyspace_Schema !! "database_id" = Some TypeString.
Proof. reflexivity. Qed.

Lemma keyspace_schema_name : resourceKeyspace_Schema !! "name" = Some TypeString.
Proof. reflexivity. Qed.

Lemma d_GetString_schema (st : State) key :
  rdSchema (rd st) !! key = Some TypeString ->
  d_GetString key st = (Val (rd_GetString (rd st) key), st).
Proof.
  intros Hk. unfold d_GetString, rd_GetString, rd_Get. rewrite Hk.
  destruct (rdAttrs (rd st) !! key) as [[s|n]|]; reflexivity.
Qed.

(** C7. When the first read of the parent shows ERROR, TERMINATED or
    TERMINATING, keyspace create and keyspace delete end at once with the
    error of the terminal parent: the read is the only call made, so
    AddKeyspace and DropKeyspace are never called, and the resource data is as
    before. *)
Theorem terminal_parent_fails_immediately
    (w : World) (st : State) (n : nat) (res : GetDatabaseResponse) (db : Database) :
  rdSchema (rd st) = resourceKeyspace_Schema ->
  onGetDatabaseWithResponse w (calls GetDatabaseWithResponse (trace st))
    (rd_GetString (rd st) "database_id") = Ok res ->
  gdStatusCode res <= 200 ->
  JSON200 res = Some db ->
  Status db = ERROR \/ Status db = TERMINATED \/ Status db = TERMINATING ->
  let failure :=
    (Val ["database failed to reach active status: status=" +:+ Status db],
     mkState (CallGetDatabaseWithResponse (rd_GetString (rd st) "database_id")
                :: trace st) (rd st)) in
  (resourceKeyspaceCreate w (S n) st = failure
   /\ resourceKeyspaceDelete w (S n) st = failure)
  /\ calls AddKeyspaceWithResponse (trace (snd failure))
     = calls AddKeyspaceWithResponse (trace st)
  /\ calls DropKeyspaceWithResponse (trace (snd failure))
     = calls DropKeyspaceWithResponse (trace st).
Proof.
  intros Hsch Hres Hcode Hjson Hterm failure.
  split; [|split; reflexivity].
  assert (Hterm' : isTerminalStatus (Status db) = true)
    by now apply isTerminalStatus_true.
  unfold isTerminalStatus in Hterm'.
  unfold resourceKeyspaceCreate, resourceKeyspaceDelete, bind.
  rewrite !d_GetString_schema
    by (rewrite Hsch; auto using keyspace_schema_database_id, keyspace_schema_name).
  unfold retry_RetryContext. cbn [retry_loop]. run_func.
  rewrite Hres.
  replace (gdStatusCode res >=? 500) with false by (symmetry; lia).
  replace (gdStatusCode res >? 200) with false by (symmetry; lia).
  rewrite Hjson. cbn [isNil orb]. rewrite Hterm'. cbn.
  split; reflexivity.
Qed.

Lemma terminal_parent_fails_immediately_witness :
  let w := keyspaceWorld (fun _ => databaseIn TERMINATED)
             (fun _ => accepted) (fun _ => accepted) in
  let failure :=
    (Val ["database failed to reach active status: status=TERMINATED"],
     mkState [CallGetDatabaseWithResponse "db-1"] (rd keyspaceState)) in
  resourceKeyspaceCreate w 5 keyspaceState = failure
  /\ resourceKeyspaceDelete w 5 keyspaceState = failure.
Proof.
  intros w failure.
  refine (proj1 (terminal_parent_fails_immediately w keyspaceState 4
                   (mkGetDatabaseResponse 200 "{...}"
                      (Some (mkDatabase TERMINATED (Some "GCP") (Some "us-east1"))))
                   (mkDatabase TERMINATED (Some "GCP") (Some "us-east1"))
                   _ _ _ _ _)).
  - reflexivity.
  - reflexivity.
  - cbn. lia.
  - reflexivity.
  - right. left. reflexivity.
Defined.

(** ** Create writes the id on success only *)

Lemma setKeyspaceResourceData_ok (st : State) databaseID keyspaceName :
  rdSchema (rd st) = resourceKeyspace_Schema ->
  fst (setKeyspaceResourceData databaseID keyspaceName st) = Val None.
Proof.
  intros Hsch. unfold setKeyspaceResourceData, bind, d_SetId, d_Set, ret.
  cbn [fst snd rd trace].
  rewrite (rd_Set_ok _ "name" _ TypeString)
    by (cbn [rd_SetId rdSchema]; rewrite ?Hsch; auto using keyspace_schema_name).
  cbn [fst snd rd trace].
  rewrite (rd_Set_ok _ "database_id" _ TypeString)
    by (cbn [rd_SetId rdSchema]; rewrite ?Hsch;
        auto using keyspace_schema_database_id).
  reflexivity.
Qed.

(** A run of the function retried by [resourceKeyspaceCreate] either ends
    with nil or leaves the resource data as it was. *)
Lemma resourceKeyspaceCreate_func_frame (w : World) (st : State) databaseID keyspaceName :
  rdSchema (rd st) = resourceKeyspace_Schema ->
  fst (resourceKeyspaceCreate_func w databaseID keyspaceName st) = Val None
  \/ rd (snd (resourceKeyspaceCreate_func w databaseID keyspaceName st)) = rd st.
Proof.
  intros Hsch. run_func.
  destruct (onGetDatabaseWithResponse w _ databaseID) as [res|err]; [|now right].
  destruct (gdStatusCode res >=? 500); [now right|].
  destruct (_ || _); [now right|].
  destruct (JSON200 res) as [db|]; [|now right].
  destruct (_ || _ || _); [now right|].
  destruct (String.eqb (Status db) ACTIVE); [|now right].
  destruct (onAddKeyspaceWithResponse w _ databaseID keyspaceName) as [resp|err];
    [|now right].
  destruct (StatusCode resp =? 409); [now right|].
  destruct (StatusCode resp =? 401); [now right|].
  destruct (StatusCode resp >=? 400); [now right|].
  left.
  match goal with
  | |- context [setKeyspaceResourceData ?a ?b ?s] =>
      pose proof (setKeyspaceResourceData_ok s a b Hsch) as Hok;
      destruct (setKeyspaceResourceData a b s) as [o s']
  end.
  cbn in Hok. now subst o.
Qed.

Lemma retry_loop_frame (f : M (option RetryError)) (d : ResourceData) :
  (forall st, rd st = d -> fst (f st) = Val None \/ rd (snd (f st)) = d) ->
  forall budget resultErr st,
    rd st = d ->
    fst (retry_loop budget f resultErr st) = Val None
    \/ rd (snd (retry_loop budget f resultErr st)) = d.
Proof.
  intros Hf. induction budget as [|budget IH]; intros resultErr st Hst.
  - right. exact Hst.
  - cbn [retry_loop]. unfold bind.
    destruct (Hf st Hst) as [Hok|Hsame].
    + destruct (f st) as [o st1]. cbn in Hok. subst o. now left.
    + destruct (f st) as [[[e|]| |] st1]; cbn in Hsame |- *; auto.
      destruct (Retryable e); [apply IH; exact Hsame | now right].
Qed.

Lemma resourceKeyspaceCreate_frame (w : World) (budget : nat) (st : State) :
  rdSchema (rd st) = resourceKeyspace_Schema ->
  fst (resourceKeyspaceCreate w budget st) = Val []
  \/ rd (snd (resourceKeyspaceCreate w budget st)) = rd st.
Proof.
  intros Hsch. unfold resourceKeyspaceCreate, bind.
  rewrite !d_GetString_schema
    by (rewrite Hsch; auto using keyspace_schema_database_id, keyspace_schema_name).
  unfold retry_RetryContext.
  destruct (retry_loop_frame
              (resourceKeyspaceCreate_func w (rd_GetString (rd st) "database_id")
                 (rd_GetString (rd st) "name")) (rd st)) with
    (budget := budget) (resultErr := @None string) (st := st) as [Hok|Hsame].
  - intros st0 Hst0. rewrite <- Hst0.
    apply resourceKeyspaceCreate_func_frame. now rewrite Hst0.
  - reflexivity.
  - destruct (retry_loop _ _ _ _) as [o st1]. cbn in Hok. subst o. now left.
  - destruct (retry_loop _ _ _ _) as [[[e|]| |] st1]; cbn in Hsame |- *; auto.
Qed.

Section Frame.

Context {A : Type}.

Lemma keeps_id_ret {B} (b : B) : keeps_id (ret b).
Proof. intros st. reflexivity. Qed.

Lemma keeps_id_panic {B} reason : keeps_id (@panic B reason).
Proof. intros st. reflexivity. Qed.

Lemma keeps_id_outOfFuel {B} : keeps_id (@outOfFuel B).
Proof. intros st. reflexivity. Qed.

Lemma keeps_id_issue a c : keeps_id (issue a c).
Proof. intros st. reflexivity. Qed.

Lemma keeps_id_d_GetString key : keeps_id (d_GetString key).
Proof.
  intros st. unfold d_GetString. destruct (rd_Get _ _) as [[s|n]|]; reflexivity.
Qed.

Lemma keeps_id_d_GetInt key : keeps_id (d_GetInt key).
Proof.
  intros st. unfold d_GetInt. destruct (rd_Get _ _) as [[s|n]|]; reflexivity.
Qed.

Lemma keeps_id_d_Id : keeps_id d_Id.
Proof. intros st. reflexivity. Qed.

Lemma keeps_id_d_Set key v : keeps_id (d_Set key v).
Proof. intros st. unfold d_Set. cbn. apply rd_Set_id. Qed.

Lemma keeps_id_bind {B C} (m : M B) (k : B -> M C) :
  keeps_id m -> (forall b, keeps_id (k b)) -> keeps_id (bind m k).
Proof.
  intros Hm Hk st. unfold bind. specialize (Hm st).
  destruct (m st) as [[b| |] st1]; cbn in Hm |- *; [|assumption..].
  now rewrite Hk.
Qed.

Lemma id_only_on_keeps ok (m : M A) : keeps_id m -> id_only_on ok m.
Proof. intros Hm st. right. apply Hm. Qed.

Lemma id_only_on_bind {B} ok (m : M B) (k : B -> M A) :
  keeps_id m -> (forall b, id_only_on ok (k b)) -> id_only_on ok (bind m k).
Proof.
  intros Hm Hk st. unfold bind. specialize (Hm st).
  destruct (m st) as [[b| |] st1]; cbn in Hm |- *; [|now right..].
  destruct (Hk b st1) as [Hok|Hsame]; [now left | right; congruence].
Qed.

Lemma id_only_on_success ok (m : M A) :
  (forall st, fst (m st) = Val ok) -> id_only_on ok m.
Proof. intros Hm st. left. apply Hm. Qed.

End Frame.

Create HintDb frame.

#[local] Hint Resolve keeps_id_ret keeps_id_panic keeps_id_outOfFuel keeps_id_issue
  keeps_id_d_GetString keeps_id_d_GetInt keeps_id_d_Id keeps_id_d_Set : frame.

(** Work through a computation built from [bind], [match] and [if]. *)
Ltac frame_step :=
  match goal with
  | |- id_only_on _ (bind (setCDCData _) _) =>
      apply id_only_on_success; intros; reflexivity
  | |- keeps_id (bind _ _) => apply keeps_id_bind; [|intros ?]
  | |- id_only_on _ (bind _ _) => apply id_only_on_bind; [|intros ?]
  | |- keeps_id (match ?x with _ => _ end) => destruct x
  | |- id_only_on _ (match ?x with _ => _ end) => destruct x
  | |- keeps_id _ => solve [auto with frame]
  | |- id_only_on _ _ => solve [apply id_only_on_keeps; auto with frame]
  end.

Ltac frame := repeat frame_step.

Section FrameCDC.

Variable w : World.

Lemma keeps_id_getPulsarToken pulsarCluster token org tenantName :
  keeps_id (getPulsarToken w pulsarCluster token org tenantName).
Proof.
  unfold getPulsarToken, streamingClient_IdListTenantTokensWithResponse,
    streamingClient_GetTokenByIDWithResponse.
  frame.
Qed.

Lemma keeps_id_prepCDC databaseId token org tenantName :
  keeps_id (prepCDC w databaseId token org tenantName).
Proof.
  unfold prepCDC, getDatabase. frame. apply keeps_id_getPulsarToken.
Qed.

Lemma keeps_id_time_Sleep n : keeps_id (time_Sleep n).
Proof. unfold time_Sleep. frame. Qed.

Lemma keeps_id_enableLoop fuel databaseId tenantName org body :
  forall v, keeps_id (enableLoop w fuel databaseId tenantName org body v).
Proof.
  induction fuel as [|fuel IH]; intros v; cbn [enableLoop]; [frame|].
  unfold streamingClientv3_EnableCDC.
  pose proof keeps_id_prepCDC. pose proof keeps_id_time_Sleep.
  frame; auto.
Qed.

Lemma keeps_id_getCDCLoop fuel tenantName cluster authorization :
  forall v, keeps_id (getCDCLoop w fuel tenantName cluster authorization v).
Proof.
  induction fuel as [|fuel IH]; intros v; cbn [getCDCLoop]; [frame|].
  unfold streamingClientv3_GetCDC.
  pose proof keeps_id_time_Sleep.
  frame; auto.
Qed.

Lemma resourceCDCCreate_frame fuel :
  id_only_on (A := Diagnostics) [] (resourceCDCCreate w fuel).
Proof.
  unfold resourceCDCCreate, client_GetCurrentOrganization.
  pose proof keeps_id_prepCDC. pose proof keeps_id_enableLoop.
  pose proof keeps_id_getCDCLoop.
  frame; auto.
Qed.

End FrameCDC.

(** ** CDC: credential resolution *)

(** C9. When the tenant-token listing succeeds and decodes without error to
    an empty list, [getPulsarToken] indexes the first element all the same:
    the run panics with an index out of range, returns no error value, and
    [GetTokenByID] is not called. *)
Theorem getPulsarToken_empty_list_panics
    (w : World) (st : State) (pulsarCluster token org tenantName : string)
    (pulsarTokenResponse : ClientResponse) :
  let request := CallIdListTenantTokensWithResponse tenantName
                   ("Bearer " +:+ token) org pulsarCluster in
  onIdListTenantTokensWithResponse w
    (calls IdListTenantTokensWithResponse (trace st)) request
  = Ok pulsarTokenResponse ->
  jsonStreamingTokens w (Body pulsarTokenResponse) = ([], None) ->
  getPulsarToken w pulsarCluster token org tenantName st
  = (Panic "index out of range [0] with length 0",
     mkState (request :: trace st) (rd st)).
Proof.
  intros request Hresp Hjson.
  unfold getPulsarToken, streamingClient_IdListTenantTokensWithResponse, bind,
    issue, ret, panic.
  cbn [trace rd fst snd]. fold request. rewrite Hresp, Hjson. reflexivity.
Qed.

Lemma getPulsarToken_empty_list_panics_witness :
  fst (getPulsarToken worldNoToken "pulsar-gcp-useast1" "AstraCS:token" "org-1"
         "tenant" cdcState)
  = Panic "index out of range [0] with length 0".
Proof.
  rewrite (getPulsarToken_empty_list_panics worldNoToken cdcState
             "pulsar-gcp-useast1" "AstraCS:token" "org-1" "tenant"
             (mkClientResponse 200 "tokens-json") eq_refl eq_refl).
  reflexivity.
Defined.

Ltac run_cdc :=
  cbv beta iota zeta delta
    [prepCDC getPulsarToken getDatabase client_GetCurrentOrganization
     streamingClient_IdListTenantTokensWithResponse
     streamingClient_GetTokenByIDWithResponse streamingClientv3_EnableCDC
     streamingClientv3_GetCDC time_Sleep setCDCData d_SetId d_Set d_Id
     bind issue ret panic outOfFuel];
  cbn [trace rd fst snd calls isCall].

(** What a run of [prepCDC] leaves behind, whatever it returns: one more
    [getDatabase] call, no [EnableCDC], [GetCDC] or organisation call, and
    the resource data as it was. *)
Lemma prepCDC_effect (w : World) databaseId token org tenantName (st : State) :
  let st' := snd (prepCDC w databaseId token org tenantName st) in
  rd st' = rd st
  /\ calls GetDatabase (trace st') = S (calls GetDatabase (trace st))
  /\ calls EnableCDC (trace st') = calls EnableCDC (trace st)
  /\ calls GetCDC (trace st') = calls GetCDC (trace st)
  /\ calls Sleep (trace st') = calls Sleep (trace st).
Proof.
  run_cdc.
  destruct (on_getDatabase w _ databaseId) as [db|err]; [|now cbn].
  destruct (Info_CloudProvider db), (Info_Region db); try now cbn.
  destruct (onIdListTenantTokensWithResponse w _ _) as [resp|err]; [|now cbn].
  destruct (jsonStreamingTokens w (Body resp)) as [[|first rest] [e|]]; try now cbn.
  destruct (onGetTokenByIDWithResponse w _ _); now cbn.
Qed.

(** ** CDC read *)

Lemma findCDC_true keyspace table (listing : list CDCEntry) :
  (exists e, In e listing /\ Keyspace e = keyspace /\ DatabaseTable e = table) ->
  findCDC keyspace table listing = true.
Proof.
  intros (e & Hin & Hk & Ht). induction listing as [|x rest IH]; [destruct Hin|].
  cbn [findCDC]. destruct Hin as [->|Hin].
  - apply String.eqb_eq in Hk, Ht. now rewrite Hk, Ht.
  - rewrite (IH Hin).
    now destruct (String.eqb (Keyspace x) keyspace),
      (String.eqb (DatabaseTable x) table).
Qed.

Lemma findCDC_false keyspace table (listing : list CDCEntry) :
  (forall e, In e listing -> ~ (Keyspace e = keyspace /\ DatabaseTable e = table)) ->
  findCDC keyspace table listing = false.
Proof.
  induction listing as [|x rest IH]; intros Hno; [reflexivity|].
  cbn [findCDC]. rewrite IH by (intros e He; apply Hno; now right).
  destruct (String.eqb_spec (Keyspace x) keyspace) as [Hk|]; [|reflexivity].
  destruct (String.eqb_spec (DatabaseTable x) table) as [Ht|]; [|reflexivity].
  exfalso. apply (Hno x); [now left | now split].
Qed.



(** ** CDC create: the retry loop on 401 *)

Lemma cdc_schema_strings key :
  In key ["table"; "keyspace"; "database_id"; "database_name"; "tenant_name";
          "connector_status"; "data_topic"] ->
  resourceCDC_Schema !! key = Some TypeString.
Proof.
  cbn [In]. intros H.
  repeat (destruct H as [<-|H]; [reflexivity|]). destruct H.
Qed.

Lemma cdc_schema_topic_partitions :
  resourceCDC_Schema !! "topic_partitions" = Some TypeInt.
Proof. reflexivity. Qed.

Lemma d_GetInt_schema (st : State) key :
  rdSchema (rd st) !! key = Some TypeInt ->
  d_GetInt key st = (Val (rd_GetInt (rd st) key), st).
Proof.
  intros Hk. unfold d_GetInt, rd_GetInt, rd_Get. rewrite Hk.
  destruct (rdAttrs (rd st) !! key) as [[s|n]|]; reflexivity.
Qed.

Lemma HasPrefix_401_not_2 (s : string) :
  strings.HasPrefix s "401" = true -> strings.HasPrefix s "2" = false.
Proof.
  destruct s as [|c s]; [discriminate|]. cbn [strings.HasPrefix].
  intros H. apply andb_prop in H as [Hc _].
  apply Ascii.eqb_eq in Hc. now subst c.
Qed.

(** Run [resourceCDCCreate] up to its first [prepCDC]. *)
Ltac cdc_create_start Hsch Horg Hbody :=
  cbv beta iota zeta delta
    [resourceCDCCreate bind client_GetCurrentOrganization issue ret ioutil_ReadAll];
  repeat (rewrite d_GetString_schema
            by (rewrite Hsch; apply cdc_schema_strings; cbn; auto 10);
          cbv beta iota);
  rewrite d_GetInt_schema by (rewrite Hsch; apply cdc_schema_topic_partitions);
  cbv beta iota;
  rewrite d_GetString_schema
    by (rewrite Hsch; apply cdc_schema_strings; cbn; auto 10);
  cbv beta iota; cbn [trace rd]; rewrite Horg, Hbody.

Section StaleCredential.

Variable w : World.

(** Credential resolution succeeds every time. *)
Hypothesis prepCDC_succeeds :
  forall databaseId token org tenantName st,
  exists pulsarCluster pulsarToken,
    fst (prepCDC w databaseId token org tenantName st)
    = Val (pulsarCluster, pulsarToken, None).

(** Every [EnableCDC] attempt is answered with a 401 status. *)
Hypothesis enable_401 :
  forall n request,
  exists r, onEnableCDC w n request = Ok r
            /\ strings.HasPrefix (httpStatus r) "401" = true.

(** With [retryCount = 7 - j] the loop makes [j + 1] more attempts, resolves
    the credentials [j] more times, and returns the error. *)
Lemma enableLoop_401 databaseId tenantName org body :
  forall (j fuel : nat) (v : EnableVars) (st : State),
    (j <= 7)%nat ->
    retryCount v = 7 - Z.of_nat j ->
    (j < fuel)%nat ->
    match enableClientResult v with
    | None => True
    | Some r => strings.HasPrefix (httpStatus r) "401" = true
    end ->
    exists st',
      enableLoop w fuel databaseId tenantName org body v st
      = (Val (Return ["Could not enable CDC with token: " +:+ bodyBuffer v]), st')
      /\ calls EnableCDC (trace st') = (calls EnableCDC (trace st) + S j)%nat
      /\ calls GetDatabase (trace st') = (calls GetDatabase (trace st) + j)%nat
      /\ rd st' = rd st.
Proof.
  induction j as [|j IH]; intros fuel v st Hj Hrc Hfuel Hcond;
    (destruct fuel as [|fuel]; [lia|]); cbn [enableLoop].
  all: assert (Hloop : match enableClientResult v with
                       | None => true
                       | Some r => strings.HasPrefix (httpStatus r) "401"
                       end = true)
         by (destruct (enableClientResult v); [exact Hcond | reflexivity]).
  all: rewrite Hloop; clear Hloop.
  all: unfold streamingClientv3_EnableCDC, bind at 1;
    unfold bind at 1; unfold issue at 1; unfold ret at 1; cbn [trace rd fst snd].
  all: match goal with
       | |- context [onEnableCDC w ?n ?c] =>
           destruct (enable_401 n c) as (r & -> & H401)
       end.
  all: rewrite (HasPrefix_401_not_2 _ H401).
  - (* the last attempt: retryCount = 7 *)
    replace (retryCount v >? 0) with true by (symmetry; lia).
    replace (retryCount v >? 6) with true by (symmetry; lia).
    run_cdc. eexists. split; [reflexivity|]. cbn. repeat split; lia.
  - replace (retryCount v >? 6) with false by (symmetry; lia).
    unfold bind at 1.
    set (st1 := mkState (CallEnableCDC _ _ _ _ :: trace st) (rd st)).
    set (pause := (if retryCount v >? 0 then time_Sleep 20 else ret tt) st1).
    assert (Hpause : fst pause = Val tt
                     /\ calls EnableCDC (trace (snd pause))
                        = S (calls EnableCDC (trace st))
                     /\ calls GetDatabase (trace (snd pause))
                        = calls GetDatabase (trace st)
                     /\ rd (snd pause) = rd st).
    { subst pause st1. destruct (retryCount v >? 0); run_cdc; auto. }
    destruct pause as [o st2]. destruct Hpause as (Ho & He & Hg & Hd).
    cbn in Ho, He, Hg, Hd. subst o. unfold bind at 1.
    destruct (prepCDC_succeeds databaseId (token w) org tenantName st2)
      as (cluster & tok & Hprep).
    destruct (prepCDC_effect w databaseId (token w) org tenantName st2)
      as (Hd' & Hg' & He' & _).
    destruct (prepCDC w databaseId (token w) org tenantName st2) as [o st3].
    cbn in Hprep, Hd', Hg', He'. subst o.
    destruct (IH fuel (mkEnableVars (Some r) (retryCount v + 1) cluster tok
                         (bodyBuffer v)) st3) as (st' & Hres & HcE & HcG & Hrd).
    + lia.
    + cbn. lia.
    + lia.
    + exact H401.
    + cbn [bodyBuffer] in Hres. exists st'. split; [exact Hres|].
      repeat split; try congruence; lia.
Qed.

(** C2 (as amended). When every [EnableCDC] attempt is answered 401 and
    [prepCDC] succeeds every time, [resourceCDCCreate] ends with the error
    [Could not enable CDC with token] after exactly 8 attempts (the first
    and 7 retries) and exactly 8 runs of [prepCDC] (one before the loop, one
    after each of the first 7 attempts); 8 iterations of fuel are enough,
    and the resource data is left as it was. *)
Theorem stale_credential_retries_bounded
    (st : State) (fuel : nat) (orgBody : HttpResponse) :
  rdSchema (rd st) = resourceCDC_Schema ->
  onGetCurrentOrganization w (calls GetCurrentOrganization (trace st)) = Ok orgBody ->
  httpBodyErr orgBody = None ->
  (8 <= fuel)%nat ->
  exists st',
    resourceCDCCreate w fuel st
    = (Val ["Could not enable CDC with token: " +:+ httpBody orgBody], st')
    /\ calls EnableCDC (trace st') = (calls EnableCDC (trace st) + 8)%nat
    /\ calls GetDatabase (trace st') = (calls GetDatabase (trace st) + 8)%nat
    /\ rd st' = rd st.
Proof.
  intros Hsch Horg Hbody Hfuel.
  cdc_create_start Hsch Horg Hbody.
  match goal with
  | |- context [prepCDC w ?a ?b ?c ?d ?s] =>
      destruct (prepCDC_succeeds a b c d s) as (cluster & tok & Hprep);
      destruct (prepCDC_effect w a b c d s) as (Hd & Hg & He & _);
      destruct (prepCDC w a b c d s) as [o st1]
  end.
  cbn in Hprep, Hd, Hg, He. subst o.
  match goal with
  | |- context [enableLoop w fuel ?a ?b ?c ?d ?v st1] =>
      destruct (enableLoop_401 a b c d 7 fuel v st1)
        as (st' & Hloop & HcE & HcG & Hrd);
      [lia | reflexivity | lia | exact I | rewrite Hloop]
  end.
  exists st'. split; [reflexivity|]. repeat split; try congruence; lia.
Qed.

End StaleCredential.

Lemma world401_prepCDC databaseId token org tenantName st :
  exists pulsarCluster pulsarToken,
    fst (prepCDC world401 databaseId token org tenantName st)
    = Val (pulsarCluster, pulsarToken, None).
Proof. do 2 eexists. reflexivity. Qed.

Lemma world401_enable n request :
  exists r, onEnableCDC world401 n request = Ok r
            /\ strings.HasPrefix (httpStatus r) "401" = true.
Proof. eexists. split; reflexivity. Qed.

Lemma stale_credential_retries_bounded_witness :
  exists st',
    resourceCDCCreate world401 8 cdcState
    = (Val ["Could not enable CDC with token: org-json"], st')
    /\ calls EnableCDC (trace st') = 8%nat
    /\ calls GetDatabase (trace st') = 8%nat
    /\ rd st' = rd cdcState.
Proof.
  apply (stale_credential_retries_bounded world401 world401_prepCDC world401_enable
           cdcState 8 (mkHttpResponse "200 OK" "org-json" None)).
  - reflexivity.
  - reflexivity.
  - reflexivity.
  - lia.
Defined.

(** With 401 on every attempt the create operation makes 8 [EnableCDC]
    attempts and resolves the credentials 8 times: more than the 6 to 7 that
    the specification gives as the bound. *)
Lemma stale_credential_counterexample :
  let run := resourceCDCCreate world401 20 cdcState in
  fst run = Val ["Could not enable CDC with token: org-json"]
  /\ calls EnableCDC (trace (snd run)) = 8%nat
  /\ calls GetDatabase (trace (snd run)) = 8%nat
  /\ calls Sleep (trace (snd run)) = 7%nat
  /\ ~ (calls EnableCDC (trace (snd run)) <= 7)%nat
  /\ ~ (calls GetDatabase (trace (snd run)) <= 7)%nat.
Proof.
  vm_compute. repeat split; try reflexivity; lia.
Qed.

(** ** CDC create: the poll after the mutation *)

Section NeverListed.

Variable w : World.

Hypothesis prepCDC_succeeds :
  forall databaseId token org tenantName st,
  exists pulsarCluster pulsarToken,
    fst (prepCDC w databaseId token org tenantName st)
    = Val (pulsarCluster, pulsarToken, None).

(** Every [GetCDC] call succeeds with a 2xx status and an empty list. *)
Hypothesis listing_empty :
  forall n request,
  exists r, onGetCDC w n request = Ok r
            /\ strings.HasPrefix (httpStatus r) "2" = true
            /\ fst (jsonCDCResult w (httpBody r)) = [].

(** The second loop never increments [retryCount]: from an empty list and
    [retryCount = 0] every iteration calls [GetCDC], does not sleep, and
    goes round again. *)
Lemma getCDCLoop_never_leaves tenantName cluster authorization :
  forall (fuel : nat) (v : PollVars) (st : State),
    cdcResult v = [] ->
    pollRetryCount v = 0 ->
    exists st',
      getCDCLoop w fuel tenantName cluster authorization v st = (OutOfFuel, st')
      /\ calls GetCDC (trace st') = (calls GetCDC (trace st) + fuel)%nat
      /\ calls Sleep (trace st') = calls Sleep (trace st)
      /\ rd st' = rd st.
Proof.
  induction fuel as [|fuel IH]; intros v st Hempty Hrc; cbn [getCDCLoop].
  - exists st. repeat split. lia.
  - rewrite Hempty, Hrc. cbn [length].
    change (Z.of_nat 0 <=? 0) with true. change (0 >? 0) with false.
    change (0 >? 6) with false. cbv beta iota.
    unfold streamingClientv3_GetCDC, bind at 1.
    unfold bind at 1. unfold issue at 1. unfold ret at 1. cbn [trace rd fst snd].
    match goal with
    | |- context [onGetCDC w ?n ?c] =>
        destruct (listing_empty n c) as (r & -> & H2xx & Hlist)
    end.
    unfold ioutil_ReadAll. cbn [fst]. rewrite H2xx, Hlist. cbn [negb].
    unfold bind at 1. unfold ret at 1.
    match goal with
    | |- context [getCDCLoop w fuel ?a ?b ?c ?v' ?s] =>
        destruct (IH v' s eq_refl eq_refl) as (st' & Hloop & Hc & Hs & Hd)
    end.
    exists st'. split; [exact Hloop|]. cbn in Hc, Hs, Hd.
    repeat split; try congruence; lia.
Qed.

(** C3 (what the code does). After an accepted [EnableCDC], when every
    [GetCDC] call succeeds with an empty list, the poll of
    [resourceCDCCreate] never returns: whatever the number [fuel] of
    iterations granted, it is still running when they are used up, having
    called [GetCDC] [fuel] times without a pause.  No attempt ceiling stops
    it and no convergence-timeout error is produced. *)
Theorem convergence_poll_never_gives_up
    (st : State) (orgBody : HttpResponse) :
  rdSchema (rd st) = resourceCDC_Schema ->
  onGetCurrentOrganization w (calls GetCurrentOrganization (trace st)) = Ok orgBody ->
  httpBodyErr orgBody = None ->
  (forall request,
      exists r, onEnableCDC w (calls EnableCDC (trace st)) request = Ok r
                /\ strings.HasPrefix (httpStatus r) "2" = true) ->
  forall fuel,
  exists st',
    resourceCDCCreate w fuel st = (OutOfFuel, st')
    /\ ((1 <= fuel)%nat ->
        calls GetCDC (trace st') = (calls GetCDC (trace st) + fuel)%nat
        /\ calls Sleep (trace st') = calls Sleep (trace st))
    /\ rd st' = rd st.
Proof.
  intros Hsch Horg Hbody Henable fuel.
  cdc_create_start Hsch Horg Hbody.
  match goal with
  | |- context [prepCDC w ?a ?b ?c ?d ?s] =>
      destruct (prepCDC_succeeds a b c d s) as (cluster & tok & Hprep);
      destruct (prepCDC_effect w a b c d s) as (Hd & _ & He & Hg & Hs);
      destruct (prepCDC w a b c d s) as [o st1]
  end.
  cbn in Hprep, Hd, He, Hg, Hs. subst o.
  destruct fuel as [|fuel].
  - cbn [enableLoop]. unfold outOfFuel. exists st1.
    split; [reflexivity|]. split; [lia | exact Hd].
  - cbn [enableLoop enableClientResult].
    unfold streamingClientv3_EnableCDC, bind at 1.
    unfold bind at 1. unfold issue at 1. unfold ret at 1. cbn [trace rd fst snd].
    rewrite He.
    match goal with
    | |- context [onEnableCDC w _ ?c] =>
        destruct (Henable c) as (r & -> & H2xx)
    end.
    rewrite H2xx. unfold ret at 1. cbn [pulsarCluster pulsarToken bodyBuffer].
    match goal with
    | |- context [getCDCLoop w ?f ?a ?b ?c ?v ?s] =>
        destruct (getCDCLoop_never_leaves a b c f v s eq_refl eq_refl)
          as (st' & Hloop & Hc' & Hs' & Hd')
    end.
    rewrite Hloop. exists st'. cbn in Hc', Hs', Hd'.
    repeat split; try congruence; lia.
Qed.

End NeverListed.

Lemma worldNeverListed_prepCDC databaseId token org tenantName st :
  exists pulsarCluster pulsarToken,
    fst (prepCDC worldNeverListed databaseId token org tenantName st)
    = Val (pulsarCluster, pulsarToken, None).
Proof. do 2 eexists. reflexivity. Qed.

Lemma worldNeverListed_listing n request :
  exists r, onGetCDC worldNeverListed n request = Ok r
            /\ strings.HasPrefix (httpStatus r) "2" = true
            /\ fst (jsonCDCResult worldNeverListed (httpBody r)) = [].
Proof. eexists. repeat split; reflexivity. Qed.

Lemma convergence_poll_never_gives_up_witness :
  exists st',
    resourceCDCCreate worldNeverListed 1000 cdcState = (OutOfFuel, st')
    /\ calls GetCDC (trace st') = 1000%nat
    /\ calls Sleep (trace st') = 0%nat
    /\ rd st' = rd cdcState.
Proof.
  destruct (convergence_poll_never_gives_up worldNeverListed
              worldNeverListed_prepCDC worldNeverListed_listing cdcState
              (mkHttpResponse "200 OK" "org-json" None) eq_refl eq_refl eq_refl
              (fun _ => ex_intro _ (mkHttpResponse "200 OK" "" None)
                          (conj eq_refl eq_refl))
              1000%nat) as (st' & Hrun & Hcalls & Hrd).
  exists st'. destruct Hcalls as [Hc Hs]; [lia|].
  repeat split; assumption.
Defined.

(** ** CDC create: a refused mutation *)

Section RefusedMutation.

Variable w : World.

Hypothesis prepCDC_succeeds :
  forall databaseId token org tenantName st,
  exists pulsarCluster pulsarToken,
    fst (prepCDC w databaseId token org tenantName st)
    = Val (pulsarCluster, pulsarToken, None).

(** C4 (what the code does). An [EnableCDC] response whose status line
    starts with neither [2] nor [401] (so 409, 404, 500, ...) is not an error
    for [resourceCDCCreate]: the loop is left after that one attempt, the
    listing is polled, and when the tenant lists any CDC the operation
    reports success and writes the id, with the connector status and data
    topic of the first entry listed. *)
Theorem enable_cdc_refusal_taken_as_accepted
    (st : State) (orgBody enableResponse getCDCResponse : HttpResponse)
    (first : CDCEntry) (rest : list CDCEntry) (fuel : nat) :
  rdSchema (rd st) = resourceCDC_Schema ->
  onGetCurrentOrganization w (calls GetCurrentOrganization (trace st)) = Ok orgBody ->
  httpBodyErr orgBody = None ->
  (forall request,
      onEnableCDC w (calls EnableCDC (trace st)) request = Ok enableResponse) ->
  strings.HasPrefix (httpStatus enableResponse) "2" = false ->
  strings.HasPrefix (httpStatus enableResponse) "401" = false ->
  (forall request, onGetCDC w (calls GetCDC (trace st)) request = Ok getCDCResponse) ->
  strings.HasPrefix (httpStatus getCDCResponse) "2" = true ->
  fst (jsonCDCResult w (httpBody getCDCResponse)) = first :: rest ->
  (2 <= fuel)%nat ->
  exists st',
    resourceCDCCreate w fuel st = (Val [], st')
    /\ calls EnableCDC (trace st') = S (calls EnableCDC (trace st))
    /\ rdId (rd st')
       = cdcID (rd_GetString (rd st) "database_id") (rd_GetString (rd st) "keyspace")
           (rd_GetString (rd st) "table") (rd_GetString (rd st) "tenant_name")
    /\ rdAttrs (rd st') !! "connector_status" = Some (VString (ConnectorStatus first))
    /\ rdAttrs (rd st') !! "data_topic" = Some (VString (DataTopic first)).
Proof.
  intros Hsch Horg Hbody Henable Hnot2 Hnot401 Hget H2xx Hlist Hfuel.
  destruct fuel as [|[|fuel]]; [lia | lia |].
  cdc_create_start Hsch Horg Hbody.
  match goal with
  | |- context [prepCDC w ?a ?b ?c ?d ?s] =>
      destruct (prepCDC_succeeds a b c d s) as (cluster & tok & Hprep);
      destruct (prepCDC_effect w a b c d s) as (Hd & _ & He & Hg & _);
      destruct (prepCDC w a b c d s) as [o st1]
  end.
  cbn in Hprep, Hd, He, Hg. subst o.
  (* first loop: one attempt, one more prepCDC, then the condition fails *)
  cbn [enableLoop enableClientResult retryCount].
  unfold streamingClientv3_EnableCDC, bind at 1.
  unfold bind at 1. unfold issue at 1. unfold ret at 1. cbn [trace rd fst snd].
  rewrite He, Henable, Hnot2.
  change (0 >? 0) with false. change (0 >? 6) with false. cbv beta iota.
  unfold bind at 1. unfold ret at 1. unfold bind at 1.
  match goal with
  | |- context [prepCDC w ?a ?b ?c ?d ?s] =>
      destruct (prepCDC_succeeds a b c d s) as (cluster' & tok' & Hprep');
      destruct (prepCDC_effect w a b c d s) as (Hd' & _ & He' & Hg' & _);
      destruct (prepCDC w a b c d s) as [o st2]
  end.
  cbn in Hprep', Hd', He', Hg'. subst o. cbv beta iota.
  rewrite Hnot401. unfold ret at 1.
  cbn [pulsarCluster pulsarToken bodyBuffer].
  (* second loop: one call, a non-empty list *)
  cbn [getCDCLoop cdcResult pollRetryCount length].
  change (Z.of_nat 0 <=? 0) with true. change (0 >? 0) with false.
  change (0 >? 6) with false. cbv beta iota.
  unfold streamingClientv3_GetCDC, bind at 1.
  unfold bind at 1. unfold issue at 1. unfold ret at 1. cbn [trace rd fst snd].
  rewrite Hg', Hg, Hget. unfold ioutil_ReadAll. cbn [fst]. rewrite H2xx, Hlist.
  cbn [negb]. unfold bind at 1. unfold ret at 1. cbn [length].
  replace (Z.of_nat (S (length rest)) <=? 0) with false
    by (symmetry; apply Z.leb_gt; lia).
  unfold ret at 1. cbn [cdcResult].
  (* the attributes and the id *)
  unfold bind, d_Set, setCDCData, d_SetId, ret. cbn [trace rd fst snd].
  rewrite (rd_Set_ok _ "connector_status" _ TypeString)
    by (rewrite ?Hd', ?Hd, ?Hsch; auto using cdc_schema_strings, in_eq, in_cons).
  cbn [fst snd].
  rewrite (rd_Set_ok _ "data_topic" _ TypeString)
    by (cbn [rdSchema]; rewrite ?Hd', ?Hd, ?Hsch; reflexivity).
  cbn [fst snd]. eexists. split; [reflexivity|].
  cbn [trace rd rd_SetId rdId rdAttrs calls isCall].
  repeat split.
  - congruence.
  - rewrite lookup_insert_ne by discriminate. apply lookup_insert_eq.
  - apply lookup_insert_eq.
Qed.

End RefusedMutation.

Lemma worldRefused_prepCDC line databaseId token org tenantName st :
  exists pulsarCluster pulsarToken,
    fst (prepCDC (worldRefused line) databaseId token org tenantName st)
    = Val (pulsarCluster, pulsarToken, None).
Proof. do 2 eexists. reflexivity. Qed.

Lemma enable_cdc_refusal_taken_as_accepted_witness :
  exists st',
    resourceCDCCreate (worldRefused "500 Internal Server Error") 10 cdcState
    = (Val [], st')
    /\ calls EnableCDC (trace st') = 1%nat
    /\ rdId (rd st') = "db-1/KS1/Orders/tenant"
    /\ rdAttrs (rd st') !! "connector_status" = Some (VString "running")
    /\ rdAttrs (rd st') !! "data_topic"
       = Some (VString "persistent://tenant/astracdc/data-users").
Proof.
  apply (enable_cdc_refusal_taken_as_accepted
           (worldRefused "500 Internal Server Error")
           (worldRefused_prepCDC "500 Internal Server Error") cdcState
           (mkHttpResponse "200 OK" "org-json" None)
           (mkHttpResponse "500 Internal Server Error" "refused" None)
           (mkHttpResponse "200 OK" "[other]" None) otherEntry [] 10).
  all: try reflexivity.
  lia.
Defined.

(** The same run with 409 and with 404, evaluated. *)
Example enable_cdc_conflict_taken_as_accepted :
  forall line, In line ["409 Conflict"; "404 Not Found"] ->
  let run := resourceCDCCreate (worldRefused line) 10 cdcState in
  fst run = Val []
  /\ calls EnableCDC (trace (snd run)) = 1%nat
  /\ rdId (rd (snd run)) = "db-1/KS1/Orders/tenant".
Proof.
  intros line Hline. cbn [In] in Hline.
  repeat (destruct Hline as [<-|Hline]; [vm_compute; repeat split|]).
  destruct Hline.
Qed.

(** ** Keyspace operations: classification of the mutation response

    Once the parent is ACTIVE, [AddKeyspace] and [DropKeyspace] responses are
    classified alike: a transport error, a 401 and any other code of 400 or
    more end the retry with an error, and only 409 is retried.  In none of
    these cases is the resource data touched. *)
Lemma keyspace_mutation_classification
    (w : World) (st : State) (databaseID keyspaceName : string)
    (res : GetDatabaseResponse) (db : Database) :
  onGetDatabaseWithResponse w (calls GetDatabaseWithResponse (trace st)) databaseID
  = Ok res ->
  gdStatusCode res <= 200 -> JSON200 res = Some db -> Status db = ACTIVE ->
  let add := onAddKeyspaceWithResponse w (calls AddKeyspaceWithResponse (trace st))
               databaseID keyspaceName in
  let drop := onDropKeyspaceWithResponse w (calls DropKeyspaceWithResponse (trace st))
                databaseID keyspaceName in
  let create := resourceKeyspaceCreate_func w databaseID keyspaceName st in
  let delete := resourceKeyspaceDelete_func w databaseID keyspaceName st in
  (forall resp, add = Ok resp -> 400 <= StatusCode resp ->
     rd (snd create) = rd st
     /\ exists e, fst create = Val (Some (mkRetryError e (StatusCode resp =? 409))))
  /\ (forall err, add = Failed err ->
        rd (snd create) = rd st
        /\ exists e, fst create = Val (retry_NonRetryableError e))
  /\ (forall resp, drop = Ok resp -> 400 <= StatusCode resp ->
        rd (snd delete) = rd st
        /\ exists e, fst delete = Val (Some (mkRetryError e (StatusCode resp =? 409))))
  /\ (forall err, drop = Failed err ->
        rd (snd delete) = rd st
        /\ exists e, fst delete = Val (retry_NonRetryableError e)).
Proof.
  intros Hres Hcode Hjson Hact add drop create delete.
  subst add drop create delete. run_func. rewrite Hres.
  replace (gdStatusCode res >=? 500) with false by (symmetry; lia).
  replace (gdStatusCode res >? 200) with false by (symmetry; lia).
  rewrite Hjson, Hact. cbn [isNil orb].
  change (String.eqb ACTIVE ERROR || String.eqb ACTIVE TERMINATED
          || String.eqb ACTIVE TERMINATING) with false.
  change (String.eqb ACTIVE ACTIVE) with true. cbv beta iota.
  cbn [trace rd calls isCall].
  refine (conj _ (conj _ (conj _ _))).
  - intros resp -> Hc. destruct (Z.eqb_spec (StatusCode resp) 409); [cbn; eauto|].
    destruct (Z.eqb_spec (StatusCode resp) 401); [cbn; eauto|].
    replace (StatusCode resp >=? 400) with true by (symmetry; lia). cbn; eauto.
  - intros err ->. cbn; eauto.
  - intros resp -> Hc. destruct (Z.eqb_spec (StatusCode resp) 409); [cbn; eauto|].
    destruct (Z.eqb_spec (StatusCode resp) 401); [cbn; eauto|].
    replace (StatusCode resp >=? 400) with true by (symmetry; lia). cbn; eauto.
  - intros err ->. cbn; eauto.
Qed.

(** ** Create and the id *)

(** C8. A create operation, of a keyspace or of a CDC, that ends with an
    error has not written the id: on a resource whose id was unset it is
    still unset.  (For the keyspace the resource data is the one of
    [resourceKeyspace], on which [d.Set] of [name] and [database_id]
    cannot fail.) *)
Theorem create_failure_leaves_id_unset
    (w : World) (budget : nat) (st : State) (diags : Diagnostics) :
  rdId (rd st) = "" ->
  diags <> [] ->
  (rdSchema (rd st) = resourceKeyspace_Schema ->
   fst (resourceKeyspaceCreate w budget st) = Val diags ->
   rdId (rd (snd (resourceKeyspaceCreate w budget st))) = "")
  /\ (fst (resourceCDCCreate w budget st) = Val diags ->
      rdId (rd (snd (resourceCDCCreate w budget st))) = "").
Proof.
  intros Hid Hdiags. split.
  - intros Hsch Hrun.
    destruct (resourceKeyspaceCreate_frame w budget st Hsch) as [Hok|Hsame];
      [|now rewrite Hsame].
    rewrite Hrun in Hok. injection Hok as ->. now destruct Hdiags.
  - intros Hrun.
    destruct (resourceCDCCreate_frame w budget st) as [Hok|Hsame];
      [|exact (eq_trans Hsame Hid)].
    rewrite Hrun in Hok. injection Hok as ->. now destruct Hdiags.
Qed.

Lemma create_failure_leaves_id_unset_witness :
  let w := keyspaceWorld (fun _ => databaseIn TERMINATED)
             (fun _ => accepted) (fun _ => accepted) in
  rdId (rd (snd (resourceKeyspaceCreate w 5 keyspaceState))) = ""
  /\ rdId (rd (snd (resourceCDCCreate world401 20 cdcState))) = "".
Proof.
  intros w. split.
  - apply (proj1 (create_failure_leaves_id_unset w 5 keyspaceState
                    ["database failed to reach active status: status=TERMINATED"]
                    eq_refl ltac:(discriminate))); reflexivity.
  - apply (proj2 (create_failure_leaves_id_unset world401 20 cdcState
                    ["Could not enable CDC with token: org-json"]
                    eq_refl ltac:(discriminate))).
    vm_compute. reflexivity.
Defined.

(** * Further properties *)

(** ** Decoding an id and writing it again *)

Lemma genSplit_skip sep (p rest : string) :
  strings.genSplit sep (String.length p) (p +:+ rest) = strings.genSplit sep 0 rest.
Proof.
  induction p as [|c p IH]; [reflexivity|].
  rewrite append_cons. cbn [String.length strings.genSplit]. exact IH.
Qed.

Lemma HasPrefix_split (sep s : string) :
  strings.HasPrefix s sep = true -> exists rest, s = sep +:+ rest.
Proof.
  revert s. induction sep as [|a sep IH]; intros s H.
  - exists s. reflexivity.
  - destruct s as [|b s]; [discriminate|]. cbn [strings.HasPrefix] in H.
    apply andb_prop in H as [Hab Hs]. apply Ascii.eqb_eq in Hab. subst b.
    destruct (IH s Hs) as [rest ->]. exists rest. now rewrite append_cons.
Qed.

Lemma strings_Join_cons (e : string) (l : list string) sep :
  l <> [] -> strings_Join (e :: l) sep = e +:+ sep +:+ strings_Join l sep.
Proof. destruct l; [congruence | reflexivity]. Qed.

Lemma strings_Join_head c seg (rest : list string) sep :
  strings_Join (String c seg :: rest) sep = String c (strings_Join (seg :: rest) sep).
Proof. destruct rest; [reflexivity|]. cbn [strings_Join]. now rewrite append_cons. Qed.

(** [strings.Join(strings.Split(s, sep), sep) == s] for a non-empty [sep]. *)
Lemma strings_Join_genSplit a sep' :
  forall (n : nat) (s : string),
    (String.length s <= n)%nat ->
    strings_Join (strings.genSplit (String a sep') 0 s) (String a sep') = s.
Proof.
  induction n as [|n IH]; intros s Hlen.
  - destruct s; [reflexivity | cbn in Hlen; lia].
  - destruct s as [|c s]; [reflexivity|]. cbn [String.length] in Hlen.
    cbn [strings.genSplit].
    destruct (strings.HasPrefix (String c s) (String a sep')) eqn:Hpre.
    + destruct (HasPrefix_split _ _ Hpre) as [rest Hrest].
      rewrite append_cons in Hrest. injection Hrest as -> ->.
      cbn [String.length Nat.pred]. rewrite genSplit_skip.
      rewrite strings_Join_cons by apply genSplit_nonempty.
      rewrite IH, append_empty_l; [reflexivity|].
      assert (String.length (sep' +:+ rest) = String.length sep' + String.length rest)%nat
        as Hl by (clear; induction sep' as [|x y IHy]; [reflexivity|];
                  rewrite append_cons; cbn [String.length]; now rewrite IHy).
      lia.
    + pose proof (genSplit_nonempty (String a sep') s 0%nat) as Hne.
      specialize (IH s ltac:(lia)).
      destruct (strings.genSplit (String a sep') 0 s) as [|seg rest]; [congruence|].
      rewrite strings_Join_head. now rewrite IH.
Qed.

Lemma parsed_keyspaceID (id databaseID keyspaceName : string) :
  parseKeyspaceID id = (databaseID, keyspaceName, None) ->
  keyspaceID databaseID keyspaceName = id.
Proof.
  unfold parseKeyspaceID, strings.Split. intros H.
  pose proof (strings_Join_genSplit "/" "keyspace/" (String.length id) id (le_n _))
    as Hjoin.
  destruct (strings.genSplit "/keyspace/" 0 id) as [|a [|b [|c l]]];
    try discriminate H.
  cbn in H. injection H as <- <-. exact Hjoin.
Qed.

(** X1. Decode then encode on the keyspace id: whenever [parseKeyspaceID]
    accepts an id, writing the id again from the two decoded fields gives the
    same string. *)
Theorem keyspaceID_parseKeyspaceID (id databaseID keyspaceName : string) :
  parseKeyspaceID id = (databaseID, keyspaceName, None) ->
  keyspaceID databaseID keyspaceName = id.
Proof. intros H. now apply parsed_keyspaceID. Qed.

Lemma keyspaceID_parseKeyspaceID_witness :
  keyspaceID "db-1" "ks1" = "db-1/keyspace/ks1".
Proof. apply keyspaceID_parseKeyspaceID. reflexivity. Defined.

Lemma lowerByte_idempotent (c : ascii) :
  Ascii.eqb (strings.lowerByte (strings.lowerByte c)) (strings.lowerByte c) = true.
Proof. destruct c as [[] [] [] [] [] [] [] []]; reflexivity. Qed.

Lemma noUpper_ToLower (s : string) : noUpper (strings.ToLower s) = true.
Proof.
  unfold noUpper. induction s as [|c s IH]; [reflexivity|].
  cbn [strings.ToLower allBytes]. now rewrite lowerByte_idempotent, IH.
Qed.

Lemma noUpper_fixed (s : string) : noUpper s = true -> strings.ToLower s = s.
Proof.
  unfold noUpper. induction s as [|c s IH]; [reflexivity|].
  cbn [allBytes strings.ToLower]. intros H. apply andb_prop in H as [Hc Hs].
  apply Ascii.eqb_eq in Hc. now rewrite Hc, (IH Hs).
Qed.

(** The segments of a split on ["/"] contain no ['/'], and keep every
    byte-wise property of the string. *)
Lemma genSplit_slash_segments (p : ascii -> bool) (s : string) :
  allBytes p s = true ->
  Forall (fun seg => allBytes p seg = true /\ strings.ContainsSlash seg = false)
    (strings.genSplit "/" 0 s).
Proof.
  induction s as [|c s IH]; intros Hp.
  - repeat constructor.
  - cbn [allBytes] in Hp. apply andb_prop in Hp as [Hc Hs]. specialize (IH Hs).
    cbn [strings.genSplit]. rewrite HasPrefix_slash_byte.
    destruct (Ascii.eqb c "/") eqn:Hslash.
    + constructor; [split; reflexivity | exact IH].
    + destruct (strings.genSplit "/" 0 s) as [|seg rest]; [repeat constructor; cbn; now rewrite ?Hc, ?Hslash|].
      inversion IH as [|? ? [Hseg Hno] Hrest]; subst.
      constructor; [|exact Hrest].
      cbn [allBytes strings.ContainsSlash]. now rewrite Hc, Hseg, Hslash, Hno.
Qed.

(** X2. Decode then encode on the CDC id: whenever [parseCDCID] accepts an id,
    the four decoded fields contain no ['/'] and no upper-case letter, and
    writing the id again from them gives the lower-cased id (the id itself
    when it has no upper-case letter). *)
Theorem cdcID_parseCDCID (id databaseId keyspace table tenantName : string) :
  isASCII id = true ->
  parseCDCID id = (databaseId, keyspace, table, tenantName, None) ->
  cdcID databaseId keyspace table tenantName = strings.ToLower id
  /\ Forall (fun field => strings.ContainsSlash field = false /\ noUpper field = true)
       [databaseId; keyspace; table; tenantName]
  /\ (noUpper id = true -> cdcID databaseId keyspace table tenantName = id).
Proof.
  intros _ H. unfold parseCDCID, strings.Split in H.
  pose proof (strings_Join_genSplit "/" "" (String.length (strings.ToLower id))
                (strings.ToLower id) (le_n _)) as Hjoin.
  pose proof (genSplit_slash_segments
                (fun c => Ascii.eqb (strings.lowerByte c) c) (strings.ToLower id)
                (noUpper_ToLower id)) as Hseg.
  destruct (strings.genSplit "/" 0 (strings.ToLower id))
    as [|a [|b [|c [|d [|e l]]]]]; try discriminate H.
  cbn in H. injection H as <- <- <- <-.
  refine (conj Hjoin (conj _ _)).
  - eapply Forall_impl; [exact Hseg|]. cbn. intros field [? ?]. now split.
  - intros Hno. transitivity (strings.ToLower id);
      [exact Hjoin | now apply noUpper_fixed].
Qed.

Lemma cdcID_parseCDCID_witness :
  cdcID "db-1" "ks1" "orders" "tenant" = strings.ToLower "DB-1/ks1/Orders/tenant".
Proof.
  apply (cdcID_parseCDCID "DB-1/ks1/Orders/tenant" "db-1" "ks1" "orders" "tenant");
    reflexivity.
Defined.

(** ** The keyspace name validator *)

Lemma isWord_ascii (c : ascii) : isWord c = true -> (nat_of_ascii c <? 128)%nat = true.
Proof. destruct c as [[] [] [] [] [] [] [] []]; vm_compute; congruence. Qed.

Lemma allBytes_isWord_ascii (s : string) : allBytes isWord s = true -> isASCII s = true.
Proof.
  induction s as [|c s IH]; [reflexivity|]. cbn [allBytes]. intros H.
  apply andb_prop in H as [Hc Hs]. unfold isASCII in *.
  now rewrite (isWord_ascii c Hc), (IH Hs).
Qed.

(** X3. A name that [validateKeyspace] accepts has between 1 and 49 bytes,
    all of them ASCII letters, digits or underscores (so no ['/']); any other
    name gets the one diagnostic [Invalid keyspace name]. *)
Theorem validateKeyspace_accepted (name : string) :
  (validateKeyspace name = [] ->
   (1 <= String.length name <= 49)%nat
   /\ allBytes isWord name = true
   /\ isASCII name = true
   /\ strings.ContainsSlash name = false)
  /\ (validateKeyspace name <> [] -> validateKeyspace name = ["Invalid keyspace name"]).
Proof.
  split.
  - intros Hok. pose proof (validateKeyspace_no_slash name Hok) as Hslash.
    unfold validateKeyspace, keyspaceNameRegex_MatchString in Hok.
    destruct name as [|c rest]; [discriminate|].
    destruct (isAlnum c) eqn:Hc; [|discriminate].
    destruct (allBytes isWord rest) eqn:Hrest; [|discriminate].
    destruct (Nat.leb_spec (String.length rest) 48) as [Hlen|]; [|discriminate].
    assert (Hword : allBytes isWord (String c rest) = true).
    { cbn [allBytes]. unfold isWord at 1. now rewrite Hc, Hrest. }
    cbn [String.length]. repeat split; try lia; auto using allBytes_isWord_ascii.
  - unfold validateKeyspace. destruct (keyspaceNameRegex_MatchString name); cbn;
      congruence.
Qed.

Lemma validateKeyspace_accepted_witness :
  (1 <= String.length "k234567890123456789012345678901234567890123456789" <= 49)%nat.
Proof.
  apply (proj1 (validateKeyspace_accepted
                  "k234567890123456789012345678901234567890123456789")).
  reflexivity.
Defined.

(** ** The cluster locator *)

Lemma lowerByte_dash (c : ascii) :
  Ascii.eqb (strings.lowerByte c) "-" = Ascii.eqb c "-".
Proof. destruct c as [[] [] [] [] [] [] [] []]; reflexivity. Qed.

Lemma ToLower_ReplaceAllByte_dash (r : string) :
  strings.ToLower (strings.ReplaceAllByte r "-" "")
  = strings.ReplaceAllByte (strings.ToLower r) "-" "".
Proof.
  induction r as [|c r IH]; [reflexivity|].
  cbn [strings.ReplaceAllByte strings.ToLower]. rewrite lowerByte_dash.
  destruct (Ascii.eqb c "-"); rewrite ?append_empty_l; [exact IH|].
  cbn [strings.ToLower]. now rewrite IH.
Qed.

Lemma ReplaceAllByte_dash_idempotent (r : string) :
  strings.ReplaceAllByte (strings.ReplaceAllByte r "-" "") "-" ""
  = strings.ReplaceAllByte r "-" "".
Proof.
  induction r as [|c r IH]; [reflexivity|]. cbn [strings.ReplaceAllByte].
  destruct (Ascii.eqb c "-") eqn:Hc; rewrite ?append_empty_l; [exact IH|].
  cbn [strings.ReplaceAllByte]. now rewrite Hc, IH.
Qed.

Lemma ToLower_idempotent (s : string) :
  strings.ToLower (strings.ToLower s) = strings.ToLower s.
Proof. apply noUpper_fixed, noUpper_ToLower. Qed.

(** X4. The locator computed by [GetPulsarCluster] starts with [pulsar-] and
    has no upper-case letter, and it does not depend on the letter case of
    the provider and region nor on the dashes of the region. *)
Theorem GetPulsarCluster_normal_form (cloudProvider rawRegion : string) :
  isASCII cloudProvider = true ->
  isASCII rawRegion = true ->
  let cluster := GetPulsarCluster cloudProvider rawRegion in
  strings.HasPrefix cluster "pulsar-" = true
  /\ noUpper cluster = true
  /\ GetPulsarCluster (strings.ToLower cloudProvider) (strings.ToLower rawRegion)
     = cluster
  /\ GetPulsarCluster cloudProvider (strings.ReplaceAllByte rawRegion "-" "")
     = cluster.
Proof.
  intros _ _ cluster. subst cluster. unfold GetPulsarCluster.
  refine (conj _ (conj (noUpper_ToLower _) (conj _ _))).
  - rewrite ToLower_app. reflexivity.
  - rewrite !ToLower_app, !ToLower_ReplaceAllByte_dash, !ToLower_idempotent.
    reflexivity.
  - now rewrite ReplaceAllByte_dash_idempotent.
Qed.

Lemma GetPulsarCluster_normal_form_witness :
  GetPulsarCluster "aws" "useast1" = GetPulsarCluster "AWS" "us-east-1".
Proof.
  transitivity (GetPulsarCluster "AWS" "US-EAST-1").
  - apply (GetPulsarCluster_normal_form "AWS" "US-EAST-1" eq_refl eq_refl).
  - reflexivity.
Defined.

(** ** Keyspace create and delete: runs of the retried function *)

Lemma calls_app (a : Api) (l1 l2 : list Call) :
  calls a (l1 ++ l2) = (calls a l1 + calls a l2)%nat.
Proof.
  induction l1 as [|c l1 IH]; [reflexivity|]. cbn [app calls].
  destruct (isCall a c); now rewrite IH.
Qed.

Lemma setKeyspaceResourceData_run (st : State) databaseID keyspaceName :
  rdSchema (rd st) = resourceKeyspace_Schema ->
  setKeyspaceResourceData databaseID keyspaceName st
  = (Val None, mkState (trace st) (keyspaceCreated (rd st) databaseID keyspaceName)).
Proof.
  intros Hsch. unfold setKeyspaceResourceData, bind, d_SetId, d_Set, ret.
  cbn [fst snd rd trace].
  rewrite (rd_Set_ok _ "name" _ TypeString)
    by (cbn [rd_SetId rdSchema]; rewrite ?Hsch; auto using keyspace_schema_name).
  cbn [fst snd rd trace].
  rewrite (rd_Set_ok _ "database_id" _ TypeString)
    by (cbn [rd_SetId rdSchema]; rewrite ?Hsch;
        auto using keyspace_schema_database_id).
  reflexivity.
Qed.

(** One run of the function retried by [resourceKeyspaceCreate]: it ends
    with nil after the read and an accepted mutation, having written the
    resource data; or with an error after the read, or after the read and the
    mutation, the resource data being as before. *)
Lemma resourceKeyspaceCreate_func_cases (w : World) (st : State) databaseID keyspaceName :
  rdSchema (rd st) = resourceKeyspace_Schema ->
  let read := CallGetDatabaseWithResponse databaseID in
  let add := CallAddKeyspaceWithResponse databaseID keyspaceName in
  let run := resourceKeyspaceCreate_func w databaseID keyspaceName st in
  run = (Val None, mkState (add :: read :: trace st)
                     (keyspaceCreated (rd st) databaseID keyspaceName))
  \/ exists e, run = (Val (Some e), mkState (read :: trace st) (rd st))
               \/ run = (Val (Some e), mkState (add :: read :: trace st) (rd st)).
Proof.
  intros Hsch read add run. subst run read add. run_func.
  destruct (onGetDatabaseWithResponse w _ databaseID) as [res|err]; [|right; eauto].
  destruct (gdStatusCode res >=? 500); [right; eauto|].
  destruct (JSON200 res) as [db|]; cbn [isNil];
    [|rewrite orb_true_r; right; eauto].
  destruct (gdStatusCode res >? 200); [right; eauto|]. cbn [orb].
  destruct (_ || _ || _); [right; eauto|].
  destruct (String.eqb (Status db) ACTIVE); [|right; eauto].
  destruct (onAddKeyspaceWithResponse w _ databaseID keyspaceName) as [resp|err];
    [|right; eauto].
  destruct (StatusCode resp =? 409); [right; eauto|].
  destruct (StatusCode resp =? 401); [right; eauto|].
  destruct (StatusCode resp >=? 400); [right; eauto|].
  left. rewrite setKeyspaceResourceData_run by exact Hsch. reflexivity.
Qed.

Lemma resourceKeyspaceDelete_func_cases (w : World) (st : State) databaseID keyspaceName :
  let read := CallGetDatabaseWithResponse databaseID in
  let drop := CallDropKeyspaceWithResponse databaseID keyspaceName in
  let run := resourceKeyspaceDelete_func w databaseID keyspaceName st in
  run = (Val None, mkState (drop :: read :: trace st) (rd_SetId (rd st) ""))
  \/ exists e, run = (Val (Some e), mkState (read :: trace st) (rd st))
               \/ run = (Val (Some e), mkState (drop :: read :: trace st) (rd st)).
Proof.
  intros read drop run. subst run read drop. run_func.
  destruct (onGetDatabaseWithResponse w _ databaseID) as [res|err]; [|right; eauto].
  destruct (gdStatusCode res >=? 500); [right; eauto|].
  destruct (JSON200 res) as [db|]; cbn [isNil];
    [|rewrite orb_true_r; right; eauto].
  destruct (gdStatusCode res >? 200); [right; eauto|]. cbn [orb].
  destruct (_ || _ || _); [right; eauto|].
  destruct (String.eqb (Status db) ACTIVE); [|right; eauto].
  destruct (onDropKeyspaceWithResponse w _ databaseID keyspaceName) as [resp|err];
    [|right; eauto].
  destruct (StatusCode resp =? 409); [right; eauto|].
  destruct (StatusCode resp =? 401); [right; eauto|].
  destruct (StatusCode resp >=? 400); [right; eauto|].
  left. reflexivity.
Qed.

Section RetryRuns.

Variable f : M (option RetryError).
Variables read mutation : Call.
Variables d0 target : ResourceData.

Hypothesis read_is_read : isCall GetDatabaseWithResponse read = true.
Hypothesis mutation_not_read : isCall GetDatabaseWithResponse mutation = false.

Hypothesis f_cases :
  forall st, rd st = d0 ->
    f st = (Val None, mkState (mutation :: read :: trace st) target)
    \/ exists e, f st = (Val (Some e), mkState (read :: trace st) d0)
                 \/ f st = (Val (Some e), mkState (mutation :: read :: trace st) d0).

Hypothesis one_api :
  forall a, isCall a mutation = true -> isCall a read = false.

(** A retried run is a sequence of at most [budget] rounds, each a read
    followed by at most one mutation and nothing else; it ends with nil
    right after an accepted mutation, with the data written, or with an
    error and the data untouched. *)
Lemma retry_loop_rounds :
  forall (budget : nat) (resultErr : error) (st : State),
    rd st = d0 ->
    let run := retry_loop budget f resultErr st in
    exists l,
      trace (snd run) = l ++ trace st
      /\ (calls GetDatabaseWithResponse l <= budget)%nat
      /\ (forall a, calls a l <= calls GetDatabaseWithResponse l)%nat
      /\ (forall a, isCall a read = false -> isCall a mutation = false ->
                    calls a l = 0%nat)
      /\ ((fst run = Val None /\ rd (snd run) = target /\ In mutation l)
          \/ ((exists e, fst run = Val (Some e)) /\ rd (snd run) = d0)).
Proof.
  induction budget as [|budget IH]; intros resultErr st Hst run; subst run.
  - exists []. cbn [retry_loop]. unfold ret. cbn.
    repeat split; try lia; auto. right. split; [|exact Hst].
    destruct resultErr; eauto.
  - cbn [retry_loop]. unfold bind.
    assert (Hblock : forall a,
               ((if isCall a mutation then 1 else 0)
                + (if isCall a read then 1 else 0) <= 1)%nat).
    { intros a. pose proof (one_api a) as Hone.
      destruct (isCall a mutation), (isCall a read); try lia;
        discriminate (Hone eq_refl). }
    destruct (f_cases st Hst) as [Hok|[e [Herr|Herr]]]; rewrite ?Hok, ?Herr.
    + exists [mutation; read]. unfold ret. cbn [fst snd trace rd calls app].
      rewrite read_is_read, mutation_not_read.
      repeat split; try lia.
      * intros a. specialize (Hblock a).
        destruct (isCall a mutation), (isCall a read); lia.
      * intros a Hr Hm. now rewrite Hr, Hm.
      * left. repeat split. now left.
    + destruct (Retryable e).
      * destruct (IH (Some (Err e)) (mkState (read :: trace st) d0) eq_refl)
          as (l & Htr & Hb & Hle & Hz & Hcases).
        exists (l ++ [read]). cbn [trace] in Htr.
        rewrite <- app_assoc. cbn [app].
        split; [exact Htr|].
        rewrite calls_app. cbn [calls]. rewrite read_is_read.
        split; [lia|]. split.
        { intros a. rewrite calls_app. cbn [calls]. specialize (Hle a).
          specialize (Hblock a).
          destruct (isCall a mutation), (isCall a read); lia. }
        split.
        { intros a Hr Hm. rewrite calls_app, (Hz a Hr Hm). cbn [calls].
          now rewrite Hr. }
        destruct Hcases as [(Hn & Hrd & Hin)|Herr']; [left|right; exact Herr'].
        repeat split; auto. apply in_or_app. now left.
      * exists [read]. unfold ret. cbn [fst snd trace rd calls app].
        rewrite read_is_read.
        repeat split; try lia.
        { intros a. destruct (isCall a read); lia. }
        { intros a Hr Hm. now rewrite Hr. }
        right. split; eauto.
    + destruct (Retryable e).
      * destruct (IH (Some (Err e)) (mkState (mutation :: read :: trace st) d0) eq_refl)
          as (l & Htr & Hb & Hle & Hz & Hcases).
        exists (l ++ [mutation; read]). cbn [trace] in Htr.
        rewrite <- app_assoc. cbn [app].
        split; [exact Htr|].
        rewrite !calls_app. cbn [calls]. rewrite read_is_read, mutation_not_read.
        split; [lia|]. split.
        { intros a. rewrite calls_app. cbn [calls]. specialize (Hle a).
          specialize (Hblock a).
          destruct (isCall a mutation), (isCall a read); lia. }
        split.
        { intros a Hr Hm. rewrite calls_app, (Hz a Hr Hm). cbn [calls].
          now rewrite Hr, Hm. }
        destruct Hcases as [(Hn & Hrd & Hin)|Herr']; [left|right; exact Herr'].
        repeat split; auto. apply in_or_app. now left.
      * exists [mutation; read]. unfold ret. cbn [fst snd trace rd calls app].
        rewrite read_is_read, mutation_not_read.
        repeat split; try lia.
        { intros a. specialize (Hblock a).
          destruct (isCall a mutation), (isCall a read); lia. }
        { intros a Hr Hm. now rewrite Hr, Hm. }
        right. split; eauto.
Qed.

End RetryRuns.

Lemma resourceKeyspaceCreate_rounds (w : World) (budget : nat) (st : State) :
  rdSchema (rd st) = resourceKeyspace_Schema ->
  let databaseID := rd_GetString (rd st) "database_id" in
  let keyspaceName := rd_GetString (rd st) "name" in
  let run := resourceKeyspaceCreate w budget st in
  exists l,
    trace (snd run) = l ++ trace st
    /\ (calls GetDatabaseWithResponse l <= budget)%nat
    /\ (forall a, calls a l <= calls GetDatabaseWithResponse l)%nat
    /\ (forall a, a <> GetDatabaseWithResponse -> a <> AddKeyspaceWithResponse ->
                  calls a l = 0%nat)
    /\ ((fst run = Val []
         /\ rd (snd run) = keyspaceCreated (rd st) databaseID keyspaceName
         /\ In (CallAddKeyspaceWithResponse databaseID keyspaceName) l)
        \/ ((exists e, fst run = Val [e]) /\ rd (snd run) = rd st)).
Proof.
  intros Hsch databaseID keyspaceName run. subst run.
  unfold resourceKeyspaceCreate, bind.
  rewrite !d_GetString_schema
    by (rewrite Hsch; auto using keyspace_schema_database_id, keyspace_schema_name).
  fold databaseID keyspaceName. unfold retry_RetryContext.
  destruct (retry_loop_rounds
              (resourceKeyspaceCreate_func w databaseID keyspaceName)
              (CallGetDatabaseWithResponse databaseID)
              (CallAddKeyspaceWithResponse databaseID keyspaceName)
              (rd st) (keyspaceCreated (rd st) databaseID keyspaceName)
              eq_refl eq_refl) with (budget := budget) (resultErr := @None string)
                                    (st := st)
    as (l & Htr & Hb & Hle & Hz & Hcases).
  - intros st0 Hst0. rewrite <- Hst0.
    apply resourceKeyspaceCreate_func_cases. now rewrite Hst0.
  - intros a. now destruct a.
  - reflexivity.
  - exists l.
    destruct (retry_loop budget _ None st) as [o st']. cbn [fst snd] in *.
    assert (Hother : forall a, a <> GetDatabaseWithResponse ->
                               a <> AddKeyspaceWithResponse -> calls a l = 0%nat).
    { intros a H1 H2. apply Hz; destruct a; try reflexivity; congruence. }
    destruct Hcases as [(-> & Hrd & Hin)|[[e ->] Hrd]]; unfold ret; cbn [fst snd];
      repeat split; auto.
    right. split; [|exact Hrd]. unfold diag_FromErr. eauto.
Qed.

Lemma resourceKeyspaceDelete_rounds (w : World) (budget : nat) (st : State) :
  rdSchema (rd st) = resourceKeyspace_Schema ->
  let databaseID := rd_GetString (rd st) "database_id" in
  let keyspaceName := rd_GetString (rd st) "name" in
  let run := resourceKeyspaceDelete w budget st in
  exists l,
    trace (snd run) = l ++ trace st
    /\ (calls GetDatabaseWithResponse l <= budget)%nat
    /\ (forall a, calls a l <= calls GetDatabaseWithResponse l)%nat
    /\ (forall a, a <> GetDatabaseWithResponse -> a <> DropKeyspaceWithResponse ->
                  calls a l = 0%nat)
    /\ ((fst run = Val []
         /\ rd (snd run) = rd_SetId (rd st) ""
         /\ In (CallDropKeyspaceWithResponse databaseID keyspaceName) l)
        \/ ((exists e, fst run = Val [e]) /\ rd (snd run) = rd st)).
Proof.
  intros Hsch databaseID keyspaceName run. subst run.
  unfold resourceKeyspaceDelete, bind.
  rewrite !d_GetString_schema
    by (rewrite Hsch; auto using keyspace_schema_database_id, keyspace_schema_name).
  fold databaseID keyspaceName. unfold retry_RetryContext.
  destruct (retry_loop_rounds
              (resourceKeyspaceDelete_func w databaseID keyspaceName)
              (CallGetDatabaseWithResponse databaseID)
              (CallDropKeyspaceWithResponse databaseID keyspaceName)
              (rd st) (rd_SetId (rd st) "")
              eq_refl eq_refl) with (budget := budget) (resultErr := @None string)
                                    (st := st)
    as (l & Htr & Hb & Hle & Hz & Hcases).
  - intros st0 Hst0. rewrite <- Hst0.
    apply resourceKeyspaceDelete_func_cases.
  - intros a. now destruct a.
  - reflexivity.
  - exists l.
    destruct (retry_loop budget _ None st) as [o st']. cbn [fst snd] in *.
    assert (Hother : forall a, a <> GetDatabaseWithResponse ->
                               a <> DropKeyspaceWithResponse -> calls a l = 0%nat).
    { intros a H1 H2. apply Hz; destruct a; try reflexivity; congruence. }
    destruct Hcases as [(-> & Hrd & Hin)|[[e ->] Hrd]]; unfold bind, ret, d_SetId;
      cbn [fst snd trace rd]; repeat split; auto.
    + left. repeat split; auto. now rewrite Hrd.
    + right. split; [|exact Hrd]. unfold diag_FromErr. eauto.
Qed.

(** ** Keyspace create and delete: what a run leaves behind *)

Lemma rd_GetString_keyspaceCreated (d : ResourceData) databaseID keyspaceName :
  rdSchema d = resourceKeyspace_Schema ->
  rd_GetString (keyspaceCreated d databaseID keyspaceName) "database_id" = databaseID
  /\ rd_GetString (keyspaceCreated d databaseID keyspaceName) "name" = keyspaceName.
Proof.
  intros Hsch. unfold rd_GetString, rd_Get, keyspaceCreated. cbn [rdSchema rdAttrs].
  rewrite Hsch, keyspace_schema_database_id, keyspace_schema_name.
  rewrite lookup_insert_eq, lookup_insert_ne by discriminate.
  rewrite lookup_insert_eq. split; reflexivity.
Qed.

(** X5. A keyspace create that reports success has issued [AddKeyspace] for
    the configured database and name and has written the id
    [database_id/keyspace/name] and both attributes; when neither value
    contains ['/'], [parseKeyspaceID] reads the configured values back from
    that id. *)
Theorem resourceKeyspaceCreate_success (w : World) (budget : nat) (st : State) :
  rdSchema (rd st) = resourceKeyspace_Schema ->
  fst (resourceKeyspaceCreate w budget st) = Val [] ->
  let databaseID := rd_GetString (rd st) "database_id" in
  let keyspaceName := rd_GetString (rd st) "name" in
  let st' := snd (resourceKeyspaceCreate w budget st) in
  rd st' = keyspaceCreated (rd st) databaseID keyspaceName
  /\ rd_GetString (rd st') "database_id" = databaseID
  /\ rd_GetString (rd st') "name" = keyspaceName
  /\ In (CallAddKeyspaceWithResponse databaseID keyspaceName) (trace st')
  /\ (strings.ContainsSlash databaseID = false ->
      strings.ContainsSlash keyspaceName = false ->
      parseKeyspaceID (rdId (rd st')) = (databaseID, keyspaceName, None)).
Proof.
  intros Hsch Hok databaseID keyspaceName st'. subst st'.
  destruct (resourceKeyspaceCreate_rounds w budget st Hsch)
    as (l & Htr & _ & _ & _ & [(_ & Hrd & Hin)|[[e He] _]]).
  - fold databaseID keyspaceName in Hrd, Hin. rewrite Hrd, Htr.
    destruct (rd_GetString_keyspaceCreated (rd st) databaseID keyspaceName Hsch)
      as [Hd Hk].
    repeat split; auto.
    + apply in_or_app. now left.
    + intros Hnd Hnk. now apply parseKeyspaceID_keyspaceID.
  - rewrite Hok in He. discriminate He.
Qed.

Lemma resourceKeyspaceCreate_success_witness :
  rd (snd (resourceKeyspaceCreate worldBecomesActive 10 keyspaceState))
  = keyspaceCreated (rd keyspaceState) "db-1" "ks1".
Proof.
  apply (resourceKeyspaceCreate_success worldBecomesActive 10 keyspaceState);
    reflexivity.
Defined.

(** X6. A keyspace delete that reports success has issued [DropKeyspace] for
    the configured database and name and has cleared the id, leaving the
    attributes; a delete that reports an error leaves the resource data,
    the id included, exactly as it was. *)
Theorem resourceKeyspaceDelete_outcomes (w : World) (budget : nat) (st : State) :
  rdSchema (rd st) = resourceKeyspace_Schema ->
  let run := resourceKeyspaceDelete w budget st in
  (fst run = Val [] ->
   rd (snd run) = rd_SetId (rd st) ""
   /\ In (CallDropKeyspaceWithResponse (rd_GetString (rd st) "database_id")
            (rd_GetString (rd st) "name")) (trace (snd run)))
  /\ (forall diags, diags <> [] -> fst run = Val diags -> rd (snd run) = rd st).
Proof.
  intros Hsch run. subst run.
  destruct (resourceKeyspaceDelete_rounds w budget st Hsch)
    as (l & Htr & _ & _ & _ & [(Hok & Hrd & Hin)|[[e He] Hrd]]).
  - split.
    + intros _. split; [exact Hrd|]. rewrite Htr. apply in_or_app. now left.
    + intros diags Hne Hrun. rewrite Hok in Hrun. injection Hrun as <-.
      now destruct Hne.
  - split.
    + intros Hrun. rewrite He in Hrun. discriminate Hrun.
    + intros diags _ _. exact Hrd.
Qed.

Lemma resourceKeyspaceDelete_outcomes_witness :
  let existing := mkState [] (mkResourceData resourceKeyspace_Schema
                                "db-1/keyspace/ks1" keyspaceConfig) in
  rdId (rd (snd (resourceKeyspaceDelete worldConflictOnce 10 existing))) = ""
  /\ rd (snd (resourceKeyspaceDelete
                (keyspaceWorld (fun _ => databaseIn TERMINATED)
                   (fun _ => accepted) (fun _ => accepted)) 10 existing))
     = rd existing.
Proof.
  intros existing. split.
  - destruct (proj1 (resourceKeyspaceDelete_outcomes worldConflictOnce 10 existing
                       eq_refl) eq_refl) as [-> _].
    reflexivity.
  - apply (proj2 (resourceKeyspaceDelete_outcomes
                    (keyspaceWorld (fun _ => databaseIn TERMINATED)
                       (fun _ => accepted) (fun _ => accepted)) 10 existing eq_refl)
             ["database failed to reach active status: status=TERMINATED"]).
    + discriminate.
    + reflexivity.
Defined.

(** X7. Whatever the remote side answers, a keyspace create makes at most
    [budget] reads of the database, at most one [AddKeyspace] call per read,
    and no other call (never [DropKeyspace]); a keyspace delete likewise with
    [DropKeyspace] and never [AddKeyspace]. *)
Theorem keyspace_operations_call_bounds (w : World) (budget : nat) (st : State) :
  rdSchema (rd st) = resourceKeyspace_Schema ->
  (exists l,
      trace (snd (resourceKeyspaceCreate w budget st)) = l ++ trace st
      /\ (calls AddKeyspaceWithResponse l <= calls GetDatabaseWithResponse l
          <= budget)%nat
      /\ forall a, a <> GetDatabaseWithResponse -> a <> AddKeyspaceWithResponse ->
                   calls a l = 0%nat)
  /\ (exists l,
         trace (snd (resourceKeyspaceDelete w budget st)) = l ++ trace st
         /\ (calls DropKeyspaceWithResponse l <= calls GetDatabaseWithResponse l
             <= budget)%nat
         /\ forall a, a <> GetDatabaseWithResponse -> a <> DropKeyspaceWithResponse ->
                      calls a l = 0%nat).
Proof.
  intros Hsch. split.
  - destruct (resourceKeyspaceCreate_rounds w budget st Hsch)
      as (l & Htr & Hb & Hle & Hz & _).
    exists l. repeat split; auto.
  - destruct (resourceKeyspaceDelete_rounds w budget st Hsch)
      as (l & Htr & Hb & Hle & Hz & _).
    exists l. repeat split; auto.
Qed.

Lemma keyspace_operations_call_bounds_witness :
  exists l,
    trace (snd (resourceKeyspaceCreate worldConflictOnce 10 keyspaceState))
    = l ++ trace keyspaceState
    /\ (calls AddKeyspaceWithResponse l <= calls GetDatabaseWithResponse l <= 10)%nat
    /\ forall a, a <> GetDatabaseWithResponse -> a <> AddKeyspaceWithResponse ->
                 calls a l = 0%nat.
Proof.
  exact (proj1 (keyspace_operations_call_bounds worldConflictOnce 10 keyspaceState
                  eq_refl)).
Defined.

(** ** Keyspace create and delete: waiting and retrying *)






Section ConflictRetries.

Variable w : World.
Variables databaseID keyspaceName : string.

Hypothesis database_active :
  forall i, exists res db,
    onGetDatabaseWithResponse w i databaseID = Ok res
    /\ gdStatusCode res <= 200 /\ JSON200 res = Some db /\ Status db = ACTIVE.

Lemma retry_create_conflicts :
  forall (k budget : nat) (resultErr : error) (st : State),
    rdSchema (rd st) = resourceKeyspace_Schema ->
    (forall i, (i < k)%nat ->
       exists resp,
         onAddKeyspaceWithResponse w (calls AddKeyspaceWithResponse (trace st) + i)
           databaseID keyspaceName = Ok resp
         /\ StatusCode resp = 409) ->
    (exists resp,
        onAddKeyspaceWithResponse w (calls AddKeyspaceWithResponse (trace st) + k)
          databaseID keyspaceName = Ok resp
        /\ StatusCode resp < 400) ->
    (k < budget)%nat ->
    exists st',
      retry_loop budget (resourceKeyspaceCreate_func w databaseID keyspaceName)
        resultErr st = (Val None, st')
      /\ calls AddKeyspaceWithResponse (trace st')
         = (calls AddKeyspaceWithResponse (trace st) + S k)%nat
      /\ calls GetDatabaseWithResponse (trace st')
         = (calls GetDatabaseWithResponse (trace st) + S k)%nat
      /\ rd st' = keyspaceCreated (rd st) databaseID keyspaceName.
Proof.
  induction k as [|k IH]; intros budget resultErr st Hsch Hconflict Haccept Hbudget;
    (destruct budget as [|budget]; [lia|]); cbn [retry_loop]; unfold bind.
  - destruct Haccept as (resp & Hresp & Hcode). rewrite Nat.add_0_r in Hresp.
    run_func.
    destruct (database_active (calls GetDatabaseWithResponse (trace st)))
      as (res & db & -> & Hc & Hjson & Hact).
    replace (gdStatusCode res >=? 500) with false by (symmetry; lia).
    replace (gdStatusCode res >? 200) with false by (symmetry; lia).
    rewrite Hjson, Hact. cbn [isNil orb].
    change (String.eqb ACTIVE ERROR || String.eqb ACTIVE TERMINATED
            || String.eqb ACTIVE TERMINATING) with false.
    change (String.eqb ACTIVE ACTIVE) with true. cbv beta iota.
    cbn [trace rd calls isCall]. rewrite Hresp.
    replace (StatusCode resp =? 409) with false by (symmetry; lia).
    replace (StatusCode resp =? 401) with false by (symmetry; lia).
    replace (StatusCode resp >=? 400) with false by (symmetry; lia).
    rewrite setKeyspaceResourceData_run by exact Hsch.
    eexists. split; [reflexivity|]. cbn [trace rd calls isCall].
    repeat split; lia.
  - destruct (Hconflict 0%nat ltac:(lia)) as (resp & Hresp & Hcode).
    rewrite Nat.add_0_r in Hresp. run_func.
    destruct (database_active (calls GetDatabaseWithResponse (trace st)))
      as (res & db & -> & Hc & Hjson & Hact).
    replace (gdStatusCode res >=? 500) with false by (symmetry; lia).
    replace (gdStatusCode res >? 200) with false by (symmetry; lia).
    rewrite Hjson, Hact. cbn [isNil orb].
    change (String.eqb ACTIVE ERROR || String.eqb ACTIVE TERMINATED
            || String.eqb ACTIVE TERMINATING) with false.
    change (String.eqb ACTIVE ACTIVE) with true. cbv beta iota.
    cbn [trace rd calls isCall]. rewrite Hresp.
    replace (StatusCode resp =? 409) with true by (symmetry; lia).
    cbn [retry_RetryableError Retryable Err].
    match goal with
    | |- context [retry_loop budget _ ?r ?s] =>
        destruct (IH budget r s) as (st' & Hrun & Ha & Hg & Hrd)
    end.
    + exact Hsch.
    + intros i Hi. cbn [trace calls isCall].
      destruct (Hconflict (S i) ltac:(lia)) as (resp' & Hresp' & Hcode').
      exists resp'. split; [|exact Hcode'].
      rewrite <- Hresp'. f_equal. lia.
    + destruct Haccept as (resp' & Hresp' & Hcode'). cbn [trace calls isCall].
      exists resp'. split; [|exact Hcode']. rewrite <- Hresp'. f_equal. lia.
    + lia.
    + exists st'. split; [exact Hrun|]. cbn [trace rd calls isCall] in Ha, Hg, Hrd.
      repeat split; try lia. exact Hrd.
Qed.

End ConflictRetries.

(** X9. With the database ACTIVE, when [AddKeyspace] is answered 409 [k]
    times and then with a status below 400, a keyspace create that has time
    for more than [k] rounds succeeds after exactly [k + 1] reads and [k + 1]
    mutation calls, and writes the id and attributes. *)
Theorem keyspace_create_retries_conflicts
    (w : World) (k budget : nat) (st : State) :
  rdSchema (rd st) = resourceKeyspace_Schema ->
  let databaseID := rd_GetString (rd st) "database_id" in
  let keyspaceName := rd_GetString (rd st) "name" in
  (forall i, exists res db,
      onGetDatabaseWithResponse w i databaseID = Ok res
      /\ gdStatusCode res <= 200 /\ JSON200 res = Some db /\ Status db = ACTIVE) ->
  (forall i, (i < k)%nat ->
     exists resp,
       onAddKeyspaceWithResponse w (calls AddKeyspaceWithResponse (trace st) + i)
         databaseID keyspaceName = Ok resp
       /\ StatusCode resp = 409) ->
  (exists resp,
      onAddKeyspaceWithResponse w (calls AddKeyspaceWithResponse (trace st) + k)
        databaseID keyspaceName = Ok resp
      /\ StatusCode resp < 400) ->
  (k < budget)%nat ->
  exists st',
    resourceKeyspaceCreate w budget st = (Val [], st')
    /\ calls AddKeyspaceWithResponse (trace st')
       = (calls AddKeyspaceWithResponse (trace st) + S k)%nat
    /\ calls GetDatabaseWithResponse (trace st')
       = (calls GetDatabaseWithResponse (trace st) + S k)%nat
    /\ rd st' = keyspaceCreated (rd st) databaseID keyspaceName.
Proof.
  intros Hsch databaseID keyspaceName Hactive Hconflict Haccept Hbudget.
  unfold resourceKeyspaceCreate, bind.
  rewrite !d_GetString_schema
    by (rewrite Hsch; auto using keyspace_schema_database_id, keyspace_schema_name).
  fold databaseID keyspaceName. unfold retry_RetryContext.
  destruct (retry_create_conflicts w databaseID keyspaceName Hactive k budget None st
              Hsch Hconflict Haccept Hbudget) as (st' & -> & Ha & Hg & Hrd).
  exists st'. repeat split; assumption.
Qed.

Lemma keyspace_create_retries_conflicts_witness :
  exists st',
    resourceKeyspaceCreate worldConflictOnce 5 keyspaceState = (Val [], st')
    /\ calls AddKeyspaceWithResponse (trace st') = 2%nat
    /\ calls GetDatabaseWithResponse (trace st') = 2%nat
    /\ rd st' = keyspaceCreated (rd keyspaceState) "db-1" "ks1".
Proof.
  apply (keyspace_create_retries_conflicts worldConflictOnce 1 5 keyspaceState eq_refl).
  - intros i. do 2 eexists. split; [reflexivity|]. cbn. repeat split. lia.
  - intros i Hi. assert (i = 0%nat) as -> by lia.
    eexists. split; reflexivity.
  - eexists. split; [reflexivity|]. cbn. lia.
  - lia.
Defined.

(** ** Keyspace read *)

Lemma findKeyspace_In (keyspaceName : string) (keyspaces : list string) :
  findKeyspace keyspaceName keyspaces = true <-> In keyspaceName keyspaces.
Proof.
  induction keyspaces as [|k rest IH]; cbn [findKeyspace In].
  - split; [discriminate | tauto].
  - destruct (String.eqb_spec k keyspaceName) as [->|Hne].
    + split; auto.
    + rewrite IH. split; [auto | intros [?|?]; [congruence | assumption]].
Qed.

Lemma resourceKeyspaceRead_listed (x : Remote) (st : State)
    (databaseID keyspaceName : string) (keyspaces : list string) :
  rdSchema (rd st) = resourceKeyspace_Schema ->
  parseKeyspaceID (rdId (rd st)) = (databaseID, keyspaceName, None) ->
  on_listKeyspaces x (trace st) databaseID = (keyspaces, None) ->
  In keyspaceName keyspaces ->
  resourceKeyspaceRead x st
  = (Val [],
     mkState (CallListKeyspaces databaseID :: trace st)
       (keyspaceCreated (rd st) databaseID keyspaceName)).
Proof.
  intros Hsch Hparse Hlist Hin.
  unfold resourceKeyspaceRead, bind, d_Id, listKeyspaces, ret.
  cbn [fst snd rd trace]. rewrite Hparse, Hlist.
  rewrite (proj2 (findKeyspace_In _ _) Hin).
  now rewrite setKeyspaceResourceData_run.
Qed.

(** X10. A keyspace read whose id decodes and whose keyspace is among those
    [listKeyspaces] returns reports success, fills [name] and [database_id]
    from the id, and leaves the id itself byte for byte as it was (so an
    imported id is kept). *)
Theorem resourceKeyspaceRead_found (x : Remote) (st : State)
    (databaseID keyspaceName : string) (keyspaces : list string) :
  rdSchema (rd st) = resourceKeyspace_Schema ->
  parseKeyspaceID (rdId (rd st)) = (databaseID, keyspaceName, None) ->
  on_listKeyspaces x (trace st) databaseID = (keyspaces, None) ->
  In keyspaceName keyspaces ->
  let run := resourceKeyspaceRead x st in
  fst run = Val []
  /\ rdId (rd (snd run)) = rdId (rd st)
  /\ rd_GetString (rd (snd run)) "database_id" = databaseID
  /\ rd_GetString (rd (snd run)) "name" = keyspaceName
  /\ trace (snd run) = CallListKeyspaces databaseID :: trace st.
Proof.
  intros Hsch Hparse Hlist Hin run. subst run.
  rewrite (resourceKeyspaceRead_listed x st databaseID keyspaceName keyspaces)
    by assumption.
  cbn [fst snd rd trace].
  destruct (rd_GetString_keyspaceCreated (rd st) databaseID keyspaceName Hsch)
    as [Hd Hk].
  repeat split; auto. cbn [keyspaceCreated rdId]. now apply parsed_keyspaceID.
Qed.

Lemma resourceKeyspaceRead_found_witness :
  let x := mkRemote (fun _ _ => (["system"; "ks1"], None))
             (fun _ _ _ _ _ => Failed "no route") in
  let imported := mkState [] (mkResourceData resourceKeyspace_Schema
                                "db-1/keyspace/ks1" ∅) in
  rdId (rd (snd (resourceKeyspaceRead x imported))) = "db-1/keyspace/ks1"
  /\ rd_GetString (rd (snd (resourceKeyspaceRead x imported))) "name" = "ks1".
Proof.
  intros x imported.
  destruct (resourceKeyspaceRead_found x imported "db-1" "ks1" ["system"; "ks1"]
              eq_refl eq_refl eq_refl) as (_ & Hid & _ & Hname & _).
  - right. left. reflexivity.
  - split; assumption.
Defined.

(** X11. A keyspace read whose keyspace is not among those listed reports
    success and clears the id, touching nothing else; a read whose id does not
    decode, or whose listing fails, returns that error and leaves the resource
    data as it was. *)
Theorem resourceKeyspaceRead_not_found (x : Remote) (st : State) :
  (forall e, snd (parseKeyspaceID (rdId (rd st))) = Some e ->
     resourceKeyspaceRead x st = (Val [e], st))
  /\ (forall databaseID keyspaceName keyspaces e,
        parseKeyspaceID (rdId (rd st)) = (databaseID, keyspaceName, None) ->
        on_listKeyspaces x (trace st) databaseID = (keyspaces, Some e) ->
        resourceKeyspaceRead x st
        = (Val [e], mkState (CallListKeyspaces databaseID :: trace st) (rd st)))
  /\ (forall databaseID keyspaceName keyspaces,
        parseKeyspaceID (rdId (rd st)) = (databaseID, keyspaceName, None) ->
        on_listKeyspaces x (trace st) databaseID = (keyspaces, None) ->
        ~ In keyspaceName keyspaces ->
        resourceKeyspaceRead x st
        = (Val [],
           mkState (CallListKeyspaces databaseID :: trace st) (rd_SetId (rd st) ""))).
Proof.
  unfold resourceKeyspaceRead, bind, d_Id, listKeyspaces, ret, d_SetId.
  cbn [fst snd rd trace].
  refine (conj _ (conj _ _)).
  - intros e He.
    destruct (parseKeyspaceID (rdId (rd st))) as [[databaseID keyspaceName] err].
    cbn in He. subst err. now destruct st.
  - intros databaseID keyspaceName keyspaces e -> ->. reflexivity.
  - intros databaseID keyspaceName keyspaces -> -> Hnot.
    destruct (findKeyspace keyspaceName keyspaces) eqn:Hfind; [|reflexivity].
    apply findKeyspace_In in Hfind. contradiction.
Qed.

Lemma resourceKeyspaceRead_not_found_witness :
  let x := mkRemote (fun _ _ => (["system"], None))
             (fun _ _ _ _ _ => Failed "no route") in
  let existing := mkState [] (mkResourceData resourceKeyspace_Schema
                                "db-1/keyspace/ks1" keyspaceConfig) in
  resourceKeyspaceRead x existing
  = (Val [], mkState [CallListKeyspaces "db-1"] (rd_SetId (rd existing) "")).
Proof.
  intros x existing.
  apply (proj2 (proj2 (resourceKeyspaceRead_not_found x existing))
           "db-1" "ks1" ["system"] eq_refl eq_refl).
  intros [Hin|[]]. discriminate Hin.
Defined.

Lemma keyspaceCreated_idempotent (d : ResourceData) databaseID keyspaceName :
  keyspaceCreated (keyspaceCreated d databaseID keyspaceName) databaseID keyspaceName
  = keyspaceCreated d databaseID keyspaceName.
Proof.
  unfold keyspaceCreated. cbn [rdSchema rdAttrs]. f_equal.
  apply map_eq. intros key.
  destruct (decide (key = "database_id")) as [->|Hd];
    [|destruct (decide (key = "name")) as [->|Hn]];
    repeat first [rewrite lookup_insert_eq | rewrite lookup_insert_ne by congruence];
    reflexivity.
Qed.

(** X12. Create then read: after a keyspace create that reported success,
    for a database id and name without ['/'], a read that finds the keyspace
    listed reports success and leaves the resource data exactly as the create
    left it. *)
Theorem keyspace_create_then_read
    (w : World) (x : Remote) (budget : nat) (st : State) (keyspaces : list string) :
  rdSchema (rd st) = resourceKeyspace_Schema ->
  fst (resourceKeyspaceCreate w budget st) = Val [] ->
  let databaseID := rd_GetString (rd st) "database_id" in
  let keyspaceName := rd_GetString (rd st) "name" in
  let created := snd (resourceKeyspaceCreate w budget st) in
  strings.ContainsSlash databaseID = false ->
  strings.ContainsSlash keyspaceName = false ->
  on_listKeyspaces x (trace created) databaseID = (keyspaces, None) ->
  In keyspaceName keyspaces ->
  resourceKeyspaceRead x created
  = (Val [], mkState (CallListKeyspaces databaseID :: trace created) (rd created)).
Proof.
  intros Hsch Hok databaseID keyspaceName created Hnd Hnk Hlist Hin.
  assert (Hrd : rd created = keyspaceCreated (rd st) databaseID keyspaceName).
  { subst created.
    destruct (resourceKeyspaceCreate_rounds w budget st Hsch)
      as (l & _ & _ & _ & _ & [(_ & Hrd & _)|[[e He] _]]); [exact Hrd|].
    rewrite Hok in He. discriminate He. }
  rewrite (resourceKeyspaceRead_listed x created databaseID keyspaceName keyspaces).
  - now rewrite Hrd, keyspaceCreated_idempotent.
  - now rewrite Hrd.
  - rewrite Hrd. cbn [keyspaceCreated rdId]. now apply parseKeyspaceID_keyspaceID.
  - exact Hlist.
  - exact Hin.
Qed.

Lemma keyspace_create_then_read_witness :
  let x := mkRemote (fun _ _ => (["system"; "ks1"], None))
             (fun _ _ _ _ _ => Failed "no route") in
  let created := snd (resourceKeyspaceCreate worldBecomesActive 10 keyspaceState) in
  resourceKeyspaceRead x created
  = (Val [], mkState (CallListKeyspaces "db-1" :: trace created) (rd created)).
Proof.
  intros x created.
  apply (keyspace_create_then_read worldBecomesActive x 10 keyspaceState
           ["system"; "ks1"]); try reflexivity.
  right. left. reflexivity.
Defined.

(** ** CDC: what credential resolution returns *)

(** X13. Whatever the remote side answers, a [prepCDC] that returns does so
    in one of two ways: with an empty locator, an empty token and an error,
    after the [getDatabase] call alone; or with a locator that starts with
    [pulsar-], and then a non-empty token never comes with an error. *)
Theorem prepCDC_returns (w : World) (databaseId token org tenantName : string)
    (st : State) (pulsarCluster pulsarToken : string) (err : error) :
  let run := prepCDC w databaseId token org tenantName st in
  fst run = Val (pulsarCluster, pulsarToken, err) ->
  (pulsarCluster = "" /\ pulsarToken = "" /\ err <> None
   /\ trace (snd run) = CallGetDatabase databaseId :: trace st)
  \/ (strings.HasPrefix pulsarCluster "pulsar-" = true
      /\ (err <> None -> pulsarToken = "")
      /\ (err = None ->
          calls GetTokenByIDWithResponse (trace (snd run))
          = S (calls GetTokenByIDWithResponse (trace st)))).
Proof.
  intros run. subst run. run_cdc.
  destruct (on_getDatabase w _ databaseId) as [db|e].
  2:{ cbn. intros [= <- <- <-]. left. repeat split. discriminate. }
  destruct (Info_CloudProvider db) as [cloudProvider|],
           (Info_Region db) as [region|]; try (cbn; discriminate).
  assert (Hprefix : strings.HasPrefix (GetPulsarCluster cloudProvider region) "pulsar-"
                    = true).
  { unfold GetPulsarCluster. rewrite ToLower_app. reflexivity. }
  destruct (onIdListTenantTokensWithResponse w _ _) as [resp|e].
  2:{ cbn. intros [= <- <- <-]. right. repeat split; auto. discriminate. }
  destruct (jsonStreamingTokens w (Body resp)) as [[|first rest] [e|]];
    try (cbn; discriminate);
    try (cbn; intros [= <- <- <-]; right; repeat split; auto; discriminate).
  destruct (onGetTokenByIDWithResponse w _ _) as [resp'|e];
    cbn; intros [= <- <- <-]; right; repeat split; auto; try discriminate.
  intros Hnil. now destruct Hnil.
Qed.

Lemma prepCDC_returns_witness :
  strings.HasPrefix "pulsar-gcp-useast1" "pulsar-" = true.
Proof.
  destruct (prepCDC_returns world401 "db-1" "AstraCS:token" "org-1" "tenant" cdcState
              "pulsar-gcp-useast1" "pulsar-jwt" None eq_refl)
    as [(Hempty & _)|(Hprefix & _)].
  - discriminate Hempty.
  - exact Hprefix.
Defined.

(** ** CDC create: recovering from stale credentials *)

Section Recovers.

Variable w : World.

Hypothesis prepCDC_succeeds :
  forall databaseId token org tenantName st,
  exists pulsarCluster pulsarToken,
    fst (prepCDC w databaseId token org tenantName st)
    = Val (pulsarCluster, pulsarToken, None).

(** From [retryCount = r] with [r + k <= 7], [k] attempts answered 401 and a
    next one answered 2xx leave the first loop after [k + 1] attempts and [k]
    runs of [prepCDC]; the loop sleeps before every retry but the first. *)
Lemma enableLoop_recovers databaseId tenantName org body :
  forall (k fuel : nat) (v : EnableVars) (st : State),
    0 <= retryCount v ->
    retryCount v + Z.of_nat k <= 7 ->
    (k < fuel)%nat ->
    match enableClientResult v with
    | None => True
    | Some r => strings.HasPrefix (httpStatus r) "401" = true
    end ->
    (forall i request, (i < k)%nat ->
       exists r, onEnableCDC w (calls EnableCDC (trace st) + i) request = Ok r
                 /\ strings.HasPrefix (httpStatus r) "401" = true) ->
    (forall request,
       exists r, onEnableCDC w (calls EnableCDC (trace st) + k) request = Ok r
                 /\ strings.HasPrefix (httpStatus r) "2" = true) ->
    exists v' st',
      enableLoop w fuel databaseId tenantName org body v st = (Val (Leave v'), st')
      /\ calls EnableCDC (trace st') = (calls EnableCDC (trace st) + S k)%nat
      /\ calls GetDatabase (trace st') = (calls GetDatabase (trace st) + k)%nat
      /\ calls GetCDC (trace st') = calls GetCDC (trace st)
      /\ calls Sleep (trace st')
         = (calls Sleep (trace st) + if retryCount v >? 0 then k else Nat.pred k)%nat
      /\ rd st' = rd st.
Proof.
  induction k as [|k IH]; intros fuel v st Hr0 Hr7 Hfuel Hcond H401 H2xx;
    (destruct fuel as [|fuel]; [lia|]); cbn [enableLoop].
  all: assert (Hloop : match enableClientResult v with
                       | None => true
                       | Some r => strings.HasPrefix (httpStatus r) "401"
                       end = true)
         by (destruct (enableClientResult v); [exact Hcond | reflexivity]).
  all: rewrite Hloop; clear Hloop.
  all: unfold streamingClientv3_EnableCDC, bind at 1;
    unfold bind at 1; unfold issue at 1; unfold ret at 1; cbn [trace rd fst snd].
  - match goal with
    | |- context [onEnableCDC w ?n ?c] =>
        destruct (H2xx c) as (r & Hr & Hok); rewrite Nat.add_0_r in Hr; rewrite Hr
    end.
    rewrite Hok. unfold ret. do 2 eexists. split; [reflexivity|].
    cbn [trace rd calls isCall]. destruct (retryCount v >? 0); repeat split; lia.
  - match goal with
    | |- context [onEnableCDC w ?n ?c] =>
        destruct (H401 0%nat c ltac:(lia)) as (r & Hr & Hstale);
        rewrite Nat.add_0_r in Hr; rewrite Hr
    end.
    rewrite (HasPrefix_401_not_2 _ Hstale).
    replace (retryCount v >? 6) with false by (symmetry; lia).
    unfold bind at 1.
    set (st1 := mkState (CallEnableCDC _ _ _ _ :: trace st) (rd st)).
    set (pause := (if retryCount v >? 0 then time_Sleep 20 else ret tt) st1).
    assert (Hpause : fst pause = Val tt
                     /\ calls EnableCDC (trace (snd pause))
                        = S (calls EnableCDC (trace st))
                     /\ calls GetDatabase (trace (snd pause))
                        = calls GetDatabase (trace st)
                     /\ calls GetCDC (trace (snd pause)) = calls GetCDC (trace st)
                     /\ calls Sleep (trace (snd pause))
                        = (calls Sleep (trace st)
                           + if retryCount v >? 0 then 1 else 0)%nat
                     /\ rd (snd pause) = rd st).
    { subst pause st1. destruct (retryCount v >? 0); run_cdc; repeat split; lia. }
    destruct pause as [o st2]. destruct Hpause as (Ho & He & Hg & Hc & Hs & Hd).
    cbn in Ho, He, Hg, Hc, Hs, Hd. subst o. unfold bind at 1.
    destruct (prepCDC_succeeds databaseId (token w) org tenantName st2)
      as (cluster & tok & Hprep).
    destruct (prepCDC_effect w databaseId (token w) org tenantName st2)
      as (Hd' & Hg' & He' & Hc' & Hs').
    destruct (prepCDC w databaseId (token w) org tenantName st2) as [o st3].
    cbn in Hprep, Hd', Hg', He', Hc', Hs'. subst o.
    destruct (IH fuel (mkEnableVars (Some r) (retryCount v + 1) cluster tok
                         (bodyBuffer v)) st3)
      as (v' & st' & Hrun & HcE & HcG & HcC & HcS & Hrd).
    + cbn. lia.
    + cbn. lia.
    + lia.
    + exact Hstale.
    + intros i request Hi.
      destruct (H401 (S i) request ltac:(lia)) as (r' & Hr' & Hstale').
      exists r'. split; [|exact Hstale']. rewrite <- Hr'. f_equal. lia.
    + intros request. destruct (H2xx request) as (r' & Hr' & Hok').
      exists r'. split; [|exact Hok']. rewrite <- Hr'. f_equal. lia.
    + exists v', st'. split; [exact Hrun|]. cbn [retryCount] in HcS.
      replace (retryCount v + 1 >? 0) with true in HcS by (symmetry; lia).
      destruct (retryCount v >? 0); repeat split; try congruence; lia.
Qed.

End Recovers.

Lemma getCDCLoop_first_call (w : World) (fuel : nat) tenantName cluster authorization
    (bodyBuffer0 : string) (st : State) :
  let request := CallGetCDC tenantName cluster authorization in
  let st1 := mkState (request :: trace st) (rd st) in
  getCDCLoop w (S (S fuel)) tenantName cluster authorization
    (mkPollVars [] 0 bodyBuffer0) st
  = match onGetCDC w (calls GetCDC (trace st)) request with
    | Failed err => (Val (Return (diag_FromErr err)), st1)
    | Ok getCDCResponse =>
        if strings.HasPrefix (httpStatus getCDCResponse) "2" then
          match fst (jsonCDCResult w (httpBody getCDCResponse)) with
          | [] =>
              getCDCLoop w (S fuel) tenantName cluster authorization
                (mkPollVars [] 0 (httpBody getCDCResponse)) st1
          | first :: rest =>
              (Val (Leave (mkPollVars (first :: rest) 0 (httpBody getCDCResponse))),
               st1)
          end
        else
          (Val (Return (diag_Errorf ("Error enabling client "
                                     +:+ httpBody getCDCResponse))), st1)
    end.
Proof.
  intros request st1. subst request st1.
  cbn [getCDCLoop cdcResult pollRetryCount length].
  change (Z.of_nat 0 <=? 0) with true. change (0 >? 0) with false.
  change (0 >? 6) with false. cbv beta iota.
  unfold streamingClientv3_GetCDC, bind at 1.
  unfold bind at 1. unfold issue at 1. unfold ret at 1. cbn [trace rd fst snd].
  destruct (onGetCDC w _ _) as [g|err]; [|reflexivity].
  unfold ioutil_ReadAll. cbn [fst].
  destruct (strings.HasPrefix (httpStatus g) "2"); cbn [negb]; [|reflexivity].
  unfold bind at 1. unfold ret at 1.
  destruct (fst (jsonCDCResult w (httpBody g))) as [|first rest]; [reflexivity|].
  cbn [length].
  replace (Z.of_nat (S (length rest)) <=? 0) with false
    by (symmetry; apply Z.leb_gt; lia).
  reflexivity.
Qed.

Section AcceptedAfterRetries.

Variable w : World.

Hypothesis prepCDC_succeeds :
  forall databaseId token org tenantName st,
  exists pulsarCluster pulsarToken,
    fst (prepCDC w databaseId token org tenantName st)
    = Val (pulsarCluster, pulsarToken, None).

Variable st : State.
Variable orgBody : HttpResponse.
Variable k : nat.

Hypothesis schema_cdc : rdSchema (rd st) = resourceCDC_Schema.
Hypothesis org_ok :
  onGetCurrentOrganization w (calls GetCurrentOrganization (trace st)) = Ok orgBody.
Hypothesis org_body_ok : httpBodyErr orgBody = None.

(** [k] attempts answered 401, at most 7, then one answered 2xx. *)
Hypothesis k_le_7 : (k <= 7)%nat.
Hypothesis stale :
  forall i request, (i < k)%nat ->
    exists r, onEnableCDC w (calls EnableCDC (trace st) + i) request = Ok r
              /\ strings.HasPrefix (httpStatus r) "401" = true.
Hypothesis accepted_then :
  forall request,
    exists r, onEnableCDC w (calls EnableCDC (trace st) + k) request = Ok r
              /\ strings.HasPrefix (httpStatus r) "2" = true.

(** The run up to the end of the first loop. *)
Lemma resourceCDCCreate_enabled (fuel : nat) :
  (k < fuel)%nat ->
  exists v1 st1,
    calls EnableCDC (trace st1) = (calls EnableCDC (trace st) + S k)%nat
    /\ calls GetDatabase (trace st1) = (calls GetDatabase (trace st) + S k)%nat
    /\ calls GetCDC (trace st1) = calls GetCDC (trace st)
    /\ calls Sleep (trace st1) = (calls Sleep (trace st) + Nat.pred k)%nat
    /\ rd st1 = rd st
    /\ resourceCDCCreate w fuel st
       = resourceCDCCreate_afterEnable w fuel (rd_GetString (rd st) "table")
           (rd_GetString (rd st) "keyspace") (rd_GetString (rd st) "database_id")
           (rd_GetString (rd st) "tenant_name") v1 st1.
Proof.
  intros Hfuel.
  cdc_create_start schema_cdc org_ok org_body_ok.
  match goal with
  | |- context [prepCDC w ?a ?b ?c ?d ?s] =>
      destruct (prepCDC_succeeds a b c d s) as (cluster & tok & Hprep);
      destruct (prepCDC_effect w a b c d s) as (Hd & Hg & He & Hc & Hs);
      destruct (prepCDC w a b c d s) as [o st0]
  end.
  cbn in Hprep, Hd, Hg, He, Hc, Hs. subst o.
  match goal with
  | |- context [enableLoop w fuel ?a ?b ?c ?d ?v st0] =>
      destruct (enableLoop_recovers w prepCDC_succeeds a b c d k fuel v st0)
        as (v1 & st1 & Hloop & HcE & HcG & HcC & HcS & Hrd)
  end.
  - cbn. lia.
  - cbn. lia.
  - exact Hfuel.
  - exact I.
  - intros i request Hi. rewrite He. now apply stale.
  - intros request. rewrite He. apply accepted_then.
  - exists v1, st1. rewrite Hloop. cbn [retryCount] in HcS.
    change (0 >? 0) with false in HcS.
    repeat split; try congruence; try lia.
Qed.

(** X14. When credential resolution succeeds, [k <= 7] [EnableCDC] attempts
    answered 401 followed by one answered 2xx, and a first listing that is
    not empty, make [resourceCDCCreate] succeed: it made [k + 1] attempts,
    resolved the credentials [k + 1] times, listed once, slept before every
    retry but the first, and leaves the id and the two computed attributes of
    the first entry listed. *)
Theorem resourceCDCCreate_recovers (first : CDCEntry) (fuel : nat) :
  (forall request,
     exists r rest, onGetCDC w (calls GetCDC (trace st)) request = Ok r
                    /\ strings.HasPrefix (httpStatus r) "2" = true
                    /\ fst (jsonCDCResult w (httpBody r)) = first :: rest) ->
  (S k < fuel)%nat ->
  exists st',
    resourceCDCCreate w fuel st = (Val [], st')
    /\ rd st' = cdcCreated (rd st)
                  (cdcID (rd_GetString (rd st) "database_id")
                     (rd_GetString (rd st) "keyspace") (rd_GetString (rd st) "table")
                     (rd_GetString (rd st) "tenant_name")) first
    /\ calls EnableCDC (trace st') = (calls EnableCDC (trace st) + S k)%nat
    /\ calls GetDatabase (trace st') = (calls GetDatabase (trace st) + S k)%nat
    /\ calls GetCDC (trace st') = S (calls GetCDC (trace st))
    /\ calls Sleep (trace st') = (calls Sleep (trace st) + Nat.pred k)%nat.
Proof.
  intros Hlisting Hfuel.
  destruct fuel as [|[|fuel]]; [lia | lia |].
  destruct (resourceCDCCreate_enabled (S (S fuel)) ltac:(lia))
    as (v1 & st1 & HcE & HcG & HcC & HcS & Hrd & Hrun).
  rewrite Hrun. unfold resourceCDCCreate_afterEnable.
  unfold bind at 1. rewrite getCDCLoop_first_call. rewrite HcC.
  match goal with
  | |- context [onGetCDC w _ ?c] =>
      destruct (Hlisting c) as (r & rest & Hr & H2xx & Hlist)
  end.
  rewrite Hr, H2xx, Hlist. cbn [cdcResult].
  unfold bind, d_Set, setCDCData, d_SetId, ret. cbn [trace rd fst snd].
  rewrite (rd_Set_ok _ "connector_status" _ TypeString)
    by (rewrite ?Hrd, ?schema_cdc; auto using cdc_schema_strings, in_eq, in_cons).
  cbn [fst snd].
  rewrite (rd_Set_ok _ "data_topic" _ TypeString)
    by (cbn [rdSchema]; rewrite ?Hrd, ?schema_cdc; reflexivity).
  cbn [fst snd]. eexists. split; [reflexivity|].
  cbn [trace rd rd_SetId rdSchema rdAttrs calls isCall]. rewrite Hrd.
  repeat split; lia.
Qed.

(** X15. When the mutation is accepted (after [k <= 7] stale-credential
    answers) but the first listing fails, by a transport error or by a status
    line that does not start with [2], [resourceCDCCreate] returns that error
    after this one listing call, without sleeping or listing again, and
    leaves the resource data as it was: the id stays unset although the
    remote side accepted the CDC. *)
Theorem resourceCDCCreate_listing_failure (fuel : nat) :
  (forall request,
     match onGetCDC w (calls GetCDC (trace st)) request with
     | Ok r => strings.HasPrefix (httpStatus r) "2" = false
     | Failed _ => True
     end) ->
  (S k < fuel)%nat ->
  exists st' request,
    resourceCDCCreate w fuel st
    = (Val (match onGetCDC w (calls GetCDC (trace st)) request with
            | Ok r => diag_Errorf ("Error enabling client " +:+ httpBody r)
            | Failed err => diag_FromErr err
            end), st')
    /\ rd st' = rd st
    /\ calls EnableCDC (trace st') = (calls EnableCDC (trace st) + S k)%nat
    /\ calls GetCDC (trace st') = S (calls GetCDC (trace st))
    /\ calls Sleep (trace st') = (calls Sleep (trace st) + Nat.pred k)%nat.
Proof.
  intros Hlisting Hfuel.
  destruct fuel as [|[|fuel]]; [lia | lia |].
  destruct (resourceCDCCreate_enabled (S (S fuel)) ltac:(lia))
    as (v1 & st1 & HcE & HcG & HcC & HcS & Hrd & Hrun).
  rewrite Hrun. unfold resourceCDCCreate_afterEnable.
  unfold bind at 1. rewrite getCDCLoop_first_call. rewrite HcC.
  match goal with
  | |- context [onGetCDC w _ ?c] =>
      pose proof (Hlisting c) as Hc;
      exists (mkState (c :: trace st1) (rd st1)), c
  end.
  destruct (onGetCDC w _ _) as [r|err].
  - rewrite Hc. unfold ret. split; [reflexivity|].
    cbn [trace rd calls isCall]. repeat split; lia || congruence.
  - unfold ret. split; [reflexivity|].
    cbn [trace rd calls isCall]. repeat split; lia || congruence.
Qed.

End AcceptedAfterRetries.

Lemma worldStaleTwice_prepCDC databaseId token org tenantName st :
  exists pulsarCluster pulsarToken,
    fst (prepCDC worldStaleTwice databaseId token org tenantName st)
    = Val (pulsarCluster, pulsarToken, None).
Proof. do 2 eexists. reflexivity. Qed.

Lemma worldListingDown_prepCDC databaseId token org tenantName st :
  exists pulsarCluster pulsarToken,
    fst (prepCDC worldListingDown databaseId token org tenantName st)
    = Val (pulsarCluster, pulsarToken, None).
Proof. do 2 eexists. reflexivity. Qed.

Lemma resourceCDCCreate_recovers_witness :
  exists st',
    resourceCDCCreate worldStaleTwice 10 cdcState = (Val [], st')
    /\ rd st' = cdcCreated (rd cdcState) "db-1/KS1/Orders/tenant" otherEntry
    /\ calls EnableCDC (trace st') = 3%nat
    /\ calls GetDatabase (trace st') = 3%nat
    /\ calls GetCDC (trace st') = 1%nat
    /\ calls Sleep (trace st') = 1%nat.
Proof.
  apply (resourceCDCCreate_recovers worldStaleTwice worldStaleTwice_prepCDC cdcState
           (mkHttpResponse "200 OK" "org-json" None) 2 eq_refl eq_refl eq_refl).
  - lia.
  - intros i request Hi. exists (mkHttpResponse "401 Unauthorized" "stale token" None).
    destruct i as [|[|i]]; [split; reflexivity | split; reflexivity | lia].
  - intros request. exists (mkHttpResponse "200 OK" "" None). split; reflexivity.
  - intros request. exists (mkHttpResponse "200 OK" "[other]" None), [].
    repeat split; reflexivity.
  - lia.
Defined.

Lemma resourceCDCCreate_listing_failure_witness :
  exists st' request,
    resourceCDCCreate worldListingDown 10 cdcState
    = (Val (match onGetCDC worldListingDown 0 request with
            | Ok r => diag_Errorf ("Error enabling client " +:+ httpBody r)
            | Failed err => diag_FromErr err
            end), st')
    /\ rd st' = rd cdcState
    /\ calls EnableCDC (trace st') = 1%nat
    /\ calls GetCDC (trace st') = 1%nat
    /\ calls Sleep (trace st') = 0%nat.
Proof.
  apply (resourceCDCCreate_listing_failure worldListingDown worldListingDown_prepCDC
           cdcState (mkHttpResponse "200 OK" "org-json" None) 0 eq_refl eq_refl eq_refl).
  - lia.
  - intros i request Hi. lia.
  - intros request. exists (mkHttpResponse "200 OK" "" None). split; reflexivity.
  - intros request. reflexivity.
  - lia.
Defined.

(** ** CDC delete *)

Ltac delete_leaf :=
  do 2 eexists; (split; [reflexivity|]); cbn [trace rd calls isCall];
  split;
  [ first [ left; split; [reflexivity | congruence]
          | right; split; [discriminate | congruence] ]
  | repeat split; lia || congruence ].

(** X16. Whatever the remote side answers, [resourceCDCDelete] clears the id
    exactly when it returns no diagnostics and otherwise (an error, a panic)
    leaves the resource data as they were; it writes no attribute, makes no
    [EnableCDC] or [GetCDC] call, never sleeps, and reads the database at most
    once. *)
Theorem resourceCDCDelete_clears_id_on_success_only
    (w : World) (x : Remote) (st : State) :
  exists o st',
    resourceCDCDelete w x st = (o, st')
    /\ ((o = Val [] /\ rd st' = rd_SetId (rd st) "")
        \/ (o <> Val [] /\ rd st' = rd st))
    /\ calls EnableCDC (trace st') = calls EnableCDC (trace st)
    /\ calls GetCDC (trace st') = calls GetCDC (trace st)
    /\ calls Sleep (trace st') = calls Sleep (trace st)
    /\ (calls GetDatabase (trace st') <= S (calls GetDatabase (trace st)))%nat.
Proof.
  cbv beta iota zeta delta
    [resourceCDCDelete bind d_Id client_GetCurrentOrganization issue ret ioutil_ReadAll
     streamingClientv3_DeleteCDC d_SetId panic d_GetString d_GetInt].
  cbn [trace rd fst snd].
  destruct (parseCDCID (rdId (rd st))) as [[[[databaseId keyspace] table] tenantName] [e|]];
    [delete_leaf|].
  destruct (onGetCurrentOrganization w _) as [orgBody|e]; [|delete_leaf].
  destruct (httpBodyErr orgBody); [delete_leaf|].
  match goal with
  | |- context [prepCDC w ?a ?b ?c ?d ?s] =>
      destruct (prepCDC_effect w a b c d s) as (Hd & Hg & He & Hc & Hs);
      destruct (prepCDC w a b c d s) as [o st2]
  end.
  cbn [trace rd fst snd calls isCall] in Hd, Hg, He, Hc, Hs.
  destruct o as [[[cluster tok] err]| |]; [|delete_leaf..].
  destruct (rd_Get (rd st2) "database_name") as [[s|n]|]; [|delete_leaf..].
  destruct (rd_Get (rd st2) "topic_partitions") as [[s'|n]|]; [delete_leaf| |delete_leaf].
  destruct (onDeleteCDC x _ _ _ _ _) as [r|e]; [|delete_leaf].
  destruct (strings.HasPrefix (httpStatus r) "2"); cbn [negb]; delete_leaf.
Qed.

(** X17. [resourceCDCDelete] does not stop when credential resolution
    fails: for an ASCII id that decodes, with the database read failing, its
    calls are the organisation call, the database read and then [DeleteCDC],
    sent with an empty cluster and an empty authorization for the keyspace
    and table decoded from the id; a 2xx answer to that request clears the
    id, and the error of the database read is reported in no case. *)
Theorem resourceCDCDelete_ignores_credential_failure
    (w : World) (x : Remote) (st : State)
    (databaseId keyspace table tenantName : string) (orgBody : HttpResponse)
    (e : string) :
  let org := fst (jsonOrgId w (httpBody orgBody)) in
  let body :=
    mkDeleteCDCBody databaseId (rd_GetString (rd st) "database_name") keyspace org
      table (rd_GetInt (rd st) "topic_partitions") in
  let before := CallGetDatabase databaseId :: CallGetCurrentOrganization :: trace st in
  isASCII (rdId (rd st)) = true ->
  rdSchema (rd st) = resourceCDC_Schema ->
  parseCDCID (rdId (rd st)) = (databaseId, keyspace, table, tenantName, None) ->
  onGetCurrentOrganization w (calls GetCurrentOrganization (trace st)) = Ok orgBody ->
  httpBodyErr orgBody = None ->
  on_getDatabase w (calls GetDatabase (trace st)) databaseId = Failed e ->
  exists o st',
    resourceCDCDelete w x st = (o, st')
    /\ trace st' = CallDeleteCDC tenantName "" "" body :: before
    /\ match onDeleteCDC x before tenantName "" "" body with
       | Failed _ => o = Panic "nil pointer dereference" /\ rd st' = rd st
       | Ok deleted =>
           if strings.HasPrefix (httpStatus deleted) "2"
           then o = Val [] /\ rd st' = rd_SetId (rd st) ""
           else o = Val ["Error deleting cdc " +:+ httpBody deleted] /\ rd st' = rd st
       end.
Proof.
  intros org body before _ Hsch Hid Horg Hbody Hdb. subst org body before.
  cbv beta iota zeta delta
    [resourceCDCDelete bind d_Id client_GetCurrentOrganization issue ret ioutil_ReadAll
     streamingClientv3_DeleteCDC d_SetId panic prepCDC getDatabase].
  cbn [trace rd fst snd calls isCall].
  rewrite Hid, Horg, Hbody. cbn [trace rd fst snd calls isCall]. rewrite Hdb.
  rewrite d_GetString_schema
    by (cbn [rd]; rewrite Hsch; apply cdc_schema_strings; cbn; auto 10).
  rewrite d_GetInt_schema by (cbn [rd]; rewrite Hsch; apply cdc_schema_topic_partitions).
  cbn [trace rd].
  destruct (onDeleteCDC x _ _ _ _ _) as [deleted|e'];
    [|do 2 eexists; repeat split; reflexivity].
  destruct (strings.HasPrefix (httpStatus deleted) "2"); cbn [negb];
    do 2 eexists; repeat split; reflexivity.
Qed.

Lemma resourceCDCDelete_ignores_credential_failure_witness :
  exists o st',
    resourceCDCDelete worldDatabaseDown (remoteDeleteAnswers "204 No Content")
      (cdcStateWithId "db-1/ks1/orders/tenant") = (o, st')
    /\ trace st'
       = [CallDeleteCDC "tenant" "" "" (mkDeleteCDCBody "db-1" "main" "ks1" "org-1"
                                          "orders" 3);
          CallGetDatabase "db-1"; CallGetCurrentOrganization]
    /\ o = Val [] /\ rd st' = mkResourceData resourceCDC_Schema "" cdcConfig.
Proof.
  apply (resourceCDCDelete_ignores_credential_failure worldDatabaseDown
           (remoteDeleteAnswers "204 No Content")
           (cdcStateWithId "db-1/ks1/orders/tenant") "db-1" "ks1" "orders" "tenant"
           (mkHttpResponse "200 OK" "org-json" None) "database unreachable");
    reflexivity.
Defined.

(** ** CDC read: the listing call *)

(** A run of [resourceCDCRead] from the listing call on, once the id is
    decoded, the organisation is known and [prepCDC] has returned. *)
Lemma resourceCDCRead_run
    (w : World) (st st2 : State) (databaseId keyspace table tenantName : string)
    (orgBody : HttpResponse) (cluster tok : string) (err : error) :
  let org := fst (jsonOrgId w (httpBody orgBody)) in
  let st1 := mkState (CallGetCurrentOrganization :: trace st) (rd st) in
  let request := CallGetCDC tenantName cluster tok in
  let st3 := mkState (request :: trace st2) (rd st) in
  parseCDCID (rdId (rd st)) = (databaseId, keyspace, table, tenantName, None) ->
  onGetCurrentOrganization w (calls GetCurrentOrganization (trace st)) = Ok orgBody ->
  httpBodyErr orgBody = None ->
  prepCDC w databaseId (token w) org tenantName st1 = (Val (cluster, tok, err), st2) ->
  resourceCDCRead w st
  = match onGetCDC w (calls GetCDC (trace st)) request with
    | Failed _ => (Panic "nil pointer dereference", st3)
    | Ok getCDCResponse =>
        if strings.HasPrefix (httpStatus getCDCResponse) "2" then
          let listing := fst (jsonCDCResult w (httpBody getCDCResponse)) in
          if findCDC keyspace table listing then (Val [], st3)
          else match listing with
               | [] => (Panic "index out of range [0] with length 0", st3)
               | first :: _ =>
                   (let* err := d_Set "connector_status"
                                  (VString (ConnectorStatus first)) in
                    match err with
                    | Some e => ret (diag_FromErr e)
                    | None =>
                        let* err := d_Set "data_topic" (VString (DataTopic first)) in
                        match err with
                        | Some e => ret (diag_FromErr e)
                        | None => let* _ := d_SetId "" in ret []
                        end
                    end) st3
               end
        else
          (Val (diag_Errorf ("Error getting cdc config " +:+ httpBody getCDCResponse)),
           st3)
    end.
Proof.
  intros org st1 request st3 Hid Horg Hbody Hprep. subst request st3.
  unfold resourceCDCRead.
  unfold bind at 1. unfold d_Id at 1. rewrite Hid.
  unfold bind at 1. unfold client_GetCurrentOrganization, bind, issue, ret.
  cbn [trace rd fst snd]. rewrite Horg. unfold ioutil_ReadAll. rewrite Hbody.
  fold org. fold st1.
  destruct (prepCDC_effect w databaseId (token w) org tenantName st1)
    as (Hrd & _ & _ & HcallsCDC & _).
  rewrite Hprep in Hrd, HcallsCDC |- *.
  cbn [trace rd fst snd calls isCall] in Hrd, HcallsCDC.
  unfold streamingClientv3_GetCDC, bind, issue, ret. cbn [trace rd fst snd].
  rewrite HcallsCDC, Hrd.
  destruct (onGetCDC w _ _) as [r|e]; [|reflexivity].
  cbn [fst]. destruct (strings.HasPrefix (httpStatus r) "2"); cbn [negb]; [|reflexivity].
  cbn zeta.
  destruct (findCDC keyspace table _); [reflexivity|].
  destruct (fst (jsonCDCResult w (httpBody r))); reflexivity.
Qed.

(** X18. For an ASCII id that decodes, a listing that fails makes
    [resourceCDCRead] stop without touching the resource data: a transport failure is a nil-pointer panic (the error
    is dropped and the response dereferenced), and a status line that does
    not start with [2] gives the error [Error getting cdc config] with the
    response body.  The request carries the bare token, without the
    [Bearer] prefix that [resourceCDCCreate] sends. *)
Theorem resourceCDCRead_listing_failure
    (w : World) (st st2 : State) (databaseId keyspace table tenantName : string)
    (orgBody : HttpResponse) (cluster tok : string) (err : error) :
  let org := fst (jsonOrgId w (httpBody orgBody)) in
  let st1 := mkState (CallGetCurrentOrganization :: trace st) (rd st) in
  let request := CallGetCDC tenantName cluster tok in
  isASCII (rdId (rd st)) = true ->
  parseCDCID (rdId (rd st)) = (databaseId, keyspace, table, tenantName, None) ->
  onGetCurrentOrganization w (calls GetCurrentOrganization (trace st)) = Ok orgBody ->
  httpBodyErr orgBody = None ->
  prepCDC w databaseId (token w) org tenantName st1 = (Val (cluster, tok, err), st2) ->
  match onGetCDC w (calls GetCDC (trace st)) request with
  | Failed _ =>
      resourceCDCRead w st
      = (Panic "nil pointer dereference", mkState (request :: trace st2) (rd st))
  | Ok getCDCResponse =>
      strings.HasPrefix (httpStatus getCDCResponse) "2" = false ->
      resourceCDCRead w st
      = (Val ["Error getting cdc config " +:+ httpBody getCDCResponse],
         mkState (request :: trace st2) (rd st))
  end.
Proof.
  intros org st1 request _ Hid Horg Hbody Hprep.
  rewrite (resourceCDCRead_run w st st2 databaseId keyspace table tenantName orgBody
             cluster tok err Hid Horg Hbody Hprep).
  fold request. destruct (onGetCDC w _ request) as [r|e]; [|reflexivity].
  intros Hnot. now rewrite Hnot.
Qed.

Lemma resourceCDCRead_listing_failure_witness :
  resourceCDCRead worldListingDown (cdcStateWithId "db-1/ks1/orders/tenant")
  = (Val ["Error getting cdc config try later"],
     mkState
       [CallGetCDC "tenant" "pulsar-gcp-useast1" "pulsar-jwt";
        CallGetTokenByIDWithResponse "tenant" "token-1" "Bearer AstraCS:token" "org-1"
          "pulsar-gcp-useast1";
        CallIdListTenantTokensWithResponse "tenant" "Bearer AstraCS:token" "org-1"
          "pulsar-gcp-useast1";
        CallGetDatabase "db-1"; CallGetCurrentOrganization]
       (rd (cdcStateWithId "db-1/ks1/orders/tenant"))).
Proof.
  apply (resourceCDCRead_listing_failure worldListingDown
           (cdcStateWithId "db-1/ks1/orders/tenant") _ "db-1" "ks1" "orders" "tenant"
           (mkHttpResponse "200 OK" "org-json" None) "pulsar-gcp-useast1" "pulsar-jwt"
           None eq_refl eq_refl eq_refl eq_refl eq_refl eq_refl).
Defined.

(** X19. [resourceCDCRead] does not stop when credential resolution fails
    either: for an ASCII id that decodes, with the database read failing, it
    still lists the tenant's CDCs,
    with an empty cluster and an empty authorization, and these three calls
    are all it does; the outcome is that of the listing alone, and the error
    of the database read is lost. *)
Theorem resourceCDCRead_ignores_credential_failure
    (w : World) (st : State) (databaseId keyspace table tenantName : string)
    (orgBody : HttpResponse) (e : string) :
  isASCII (rdId (rd st)) = true ->
  rdSchema (rd st) = resourceCDC_Schema ->
  parseCDCID (rdId (rd st)) = (databaseId, keyspace, table, tenantName, None) ->
  onGetCurrentOrganization w (calls GetCurrentOrganization (trace st)) = Ok orgBody ->
  httpBodyErr orgBody = None ->
  on_getDatabase w (calls GetDatabase (trace st)) databaseId = Failed e ->
  exists o st',
    resourceCDCRead w st = (o, st')
    /\ trace st'
       = CallGetCDC tenantName "" "" :: CallGetDatabase databaseId
         :: CallGetCurrentOrganization :: trace st
    /\ match onGetCDC w (calls GetCDC (trace st)) (CallGetCDC tenantName "" "") with
       | Failed _ => o = Panic "nil pointer dereference"
       | Ok r =>
           if strings.HasPrefix (httpStatus r) "2"
           then o = Val [] \/ o = Panic "index out of range [0] with length 0"
           else o = Val ["Error getting cdc config " +:+ httpBody r]
       end.
Proof.
  intros _ Hsch Hid Horg Hbody Hdb.
  rewrite (resourceCDCRead_run w st
             (mkState (CallGetDatabase databaseId :: CallGetCurrentOrganization
                       :: trace st) (rd st))
             databaseId keyspace table tenantName orgBody "" "" (Some e)
             Hid Horg Hbody).
  2:{ unfold prepCDC, getDatabase, bind, issue, ret. cbn [trace rd fst snd calls isCall].
      now rewrite Hdb. }
  cbn [trace]. destruct (onGetCDC w _ _) as [r|e']; [|do 2 eexists; now repeat split].
  destruct (strings.HasPrefix (httpStatus r) "2"); [|do 2 eexists; now repeat split].
  cbn zeta. destruct (findCDC keyspace table _);
    [do 2 eexists; repeat split; now left|].
  destruct (fst (jsonCDCResult w (httpBody r))) as [|first rest];
    [do 2 eexists; repeat split; now right|].
  unfold bind, d_Set, d_SetId, ret. cbn [trace rd fst snd].
  rewrite (rd_Set_ok _ "connector_status" _ TypeString)
    by (rewrite ?Hsch; reflexivity).
  cbn [fst snd].
  rewrite (rd_Set_ok _ "data_topic" _ TypeString)
    by (cbn [rdSchema]; rewrite ?Hsch; reflexivity).
  cbn [fst snd]. do 2 eexists. repeat split. now left.
Qed.

Lemma resourceCDCRead_ignores_credential_failure_witness :
  exists o st',
    resourceCDCRead worldDatabaseDown (cdcStateWithId "db-1/ks1/orders/tenant")
    = (o, st')
    /\ trace st'
       = [CallGetCDC "tenant" "" ""; CallGetDatabase "db-1"; CallGetCurrentOrganization]
    /\ o = Val ["Error getting cdc config missing token"].
Proof.
  apply (resourceCDCRead_ignores_credential_failure worldDatabaseDown
           (cdcStateWithId "db-1/ks1/orders/tenant") "db-1" "ks1" "orders" "tenant"
           (mkHttpResponse "200 OK" "org-json" None) "database unreachable");
    reflexivity.
Defined.

(** ** The organisation call *)

(** X20. The three CDC operations drop the error of
    [GetCurrentOrganization] and read the body of its response: when that
    call fails at the transport level each of them panics on the nil
    response, right after this one call and with the resource data
    untouched. *)
Theorem organization_failure_panics (w : World) (x : Remote) (st : State) (e : string) :
  onGetCurrentOrganization w (calls GetCurrentOrganization (trace st)) = Failed e ->
  let st1 := mkState (CallGetCurrentOrganization :: trace st) (rd st) in
  (rdSchema (rd st) = resourceCDC_Schema ->
   forall fuel,
     resourceCDCCreate w fuel st = (Panic "nil pointer dereference", st1))
  /\ (snd (parseCDCID (rdId (rd st))) = None ->
      resourceCDCRead w st = (Panic "nil pointer dereference", st1)
      /\ resourceCDCDelete w x st = (Panic "nil pointer dereference", st1)).
Proof.
  intros Horg st1. subst st1. split.
  - intros Hsch fuel.
    cbv beta iota zeta delta
      [resourceCDCCreate bind client_GetCurrentOrganization issue ret ioutil_ReadAll].
    repeat (rewrite d_GetString_schema
              by (rewrite Hsch; apply cdc_schema_strings; cbn; auto 10);
            cbv beta iota).
    rewrite d_GetInt_schema by (rewrite Hsch; apply cdc_schema_topic_partitions).
    cbv beta iota.
    rewrite d_GetString_schema
      by (rewrite Hsch; apply cdc_schema_strings; cbn; auto 10).
    cbv beta iota. cbn [trace rd]. rewrite Horg. reflexivity.
  - intros Hid.
    destruct (parseCDCID (rdId (rd st)))
      as [[[[databaseId keyspace] table] tenantName] err] eqn:Hparse.
    cbn [snd] in Hid. subst err. split.
    + cbv beta iota zeta delta
        [resourceCDCRead bind d_Id client_GetCurrentOrganization issue ret].
      cbn [trace rd fst snd]. rewrite Hparse, Horg. reflexivity.
    + cbv beta iota zeta delta
        [resourceCDCDelete bind d_Id client_GetCurrentOrganization issue ret].
      cbn [trace rd fst snd]. rewrite Hparse, Horg. reflexivity.
Qed.

Lemma organization_failure_panics_witness :
  resourceCDCCreate worldOrganizationDown 10 cdcState
  = (Panic "nil pointer dereference", mkState [CallGetCurrentOrganization] (rd cdcState)).
Proof.
  apply (proj1 (organization_failure_panics worldOrganizationDown
                  (remoteDeleteAnswers "204 No Content") cdcState "connection refused"
                  eq_refl)).
  reflexivity.
Defined.

(** ** Ids that do not decode *)

(** X21. The operations that decode the stored id stop at an id with the
    wrong number of segments: [resourceKeyspaceRead], [resourceCDCRead] and
    [resourceCDCDelete] return the decoder's error without any remote call
    (the trace, in which [listKeyspaces] and [DeleteCDC] are entered like
    every other call, is as before) and without touching the resource data,
    so the resource is neither refreshed nor removed from state. *)
Theorem malformed_id_stops_before_any_call (w : World) (x : Remote) (st : State) :
  (length (strings.Split (rdId (rd st)) "/keyspace/") <> 2%nat ->
   resourceKeyspaceRead x st
   = (Val ["invalid keyspace id format: expected database_id/keyspace"], st))
  /\ (length (strings.Split (rdId (rd st)) "/") <> 4%nat ->
      let diags :=
        ["invalid role id format: expected databaseId/keyspace/table/tenantName"] in
      resourceCDCRead w st = (Val diags, st)
      /\ resourceCDCDelete w x st = (Val diags, st)).
Proof.
  split; intros Hlen.
  - unfold resourceKeyspaceRead, bind, d_Id, ret, parseKeyspaceID. cbn [fst snd].
    destruct (Nat.eqb_spec (length (strings.Split (rdId (rd st)) "/keyspace/")) 2);
      [contradiction | reflexivity].
  - assert (Hparse : parseCDCID (rdId (rd st))
                     = ("", "", "", "",
                        Some "invalid role id format: expected databaseId/keyspace/table/tenantName")).
    { unfold parseCDCID.
      rewrite length_Split_slash in Hlen |- *. rewrite countSlash_ToLower.
      destruct (Nat.eqb_spec (S (countSlash (rdId (rd st)))) 4);
        [contradiction | reflexivity]. }
    cbn zeta. split.
    + unfold resourceCDCRead, bind, d_Id, ret. cbn [fst snd]. now rewrite Hparse.
    + unfold resourceCDCDelete, bind, d_Id, ret. cbn [fst snd]. now rewrite Hparse.
Qed.

Lemma malformed_id_stops_before_any_call_witness :
  resourceCDCRead world401 (cdcStateWithId "db-1/ks1/orders")
  = (Val ["invalid role id format: expected databaseId/keyspace/table/tenantName"],
     cdcStateWithId "db-1/ks1/orders").
Proof.
  apply (proj2 (malformed_id_stops_before_any_call world401
                  (remoteDeleteAnswers "204 No Content")
                  (cdcStateWithId "db-1/ks1/orders"))).
  vm_compute. lia.
Defined.

(** ** CDC create, then read *)

(** X22. A read of the resource that [resourceCDCCreate] wrote, for
    ASCII configuration values without ['/'], looks for the lower-cased
    keyspace and table of the configuration, and looks the database and the
    tenant up under their lower-cased names.  When the 2xx listing has an
    entry with the lower-cased names, the read succeeds and changes nothing.
    When the configured keyspace or table has an upper-case letter and the
    listing is not empty and carries the names as configured, the read finds
    no entry and clears the id: the resource just created is dropped from
    state.  When the listing is empty the read panics on [cdcResult[0]] and
    the resource data stay as they were. *)
Theorem cdc_read_after_create
    (w : World) (st st2 : State) (d : ResourceData)
    (databaseId keyspace table tenantName : string) (first : CDCEntry)
    (orgBody getCDCResponse : HttpResponse) (cluster tok : string) (err : error) :
  let org := fst (jsonOrgId w (httpBody orgBody)) in
  let st1 := mkState (CallGetCurrentOrganization :: trace st) (rd st) in
  let listing := fst (jsonCDCResult w (httpBody getCDCResponse)) in
  let run := resourceCDCRead w st in
  rd st = cdcCreated d (cdcID databaseId keyspace table tenantName) first ->
  rdSchema d = resourceCDC_Schema ->
  isASCII (cdcID databaseId keyspace table tenantName) = true ->
  strings.ContainsSlash databaseId = false ->
  strings.ContainsSlash keyspace = false ->
  strings.ContainsSlash table = false ->
  strings.ContainsSlash tenantName = false ->
  onGetCurrentOrganization w (calls GetCurrentOrganization (trace st)) = Ok orgBody ->
  httpBodyErr orgBody = None ->
  prepCDC w (strings.ToLower databaseId) (token w) org (strings.ToLower tenantName) st1
  = (Val (cluster, tok, err), st2) ->
  onGetCDC w (calls GetCDC (trace st))
    (CallGetCDC (strings.ToLower tenantName) cluster tok) = Ok getCDCResponse ->
  strings.HasPrefix (httpStatus getCDCResponse) "2" = true ->
  ((exists e, In e listing /\ Keyspace e = strings.ToLower keyspace
              /\ DatabaseTable e = strings.ToLower table) ->
   fst run = Val [] /\ rd (snd run) = rd st)
  /\ (listing <> [] ->
      (forall e, In e listing -> Keyspace e = keyspace /\ DatabaseTable e = table) ->
      strings.ToLower keyspace <> keyspace \/ strings.ToLower table <> table ->
      fst run = Val [] /\ rdId (rd (snd run)) = "")
  /\ (listing = [] ->
      fst run = Panic "index out of range [0] with length 0"
      /\ rd (snd run) = rd st).
Proof.
  intros org st1 listing run Hrd Hsch _ Hd Hk Ht Hn Horg Hbody Hprep Hget H2xx.
  assert (Hid : parseCDCID (rdId (rd st))
                = (strings.ToLower databaseId, strings.ToLower keyspace,
                   strings.ToLower table, strings.ToLower tenantName, None)).
  { rewrite Hrd. cbn [cdcCreated rdId]. now apply parseCDCID_cdcID. }
  subst run.
  rewrite (resourceCDCRead_run w st st2 _ _ _ _ orgBody cluster tok err
             Hid Horg Hbody Hprep).
  rewrite Hget, H2xx. cbn zeta. fold listing. refine (conj _ (conj _ _)).
  - intros Hex. rewrite (findCDC_true _ _ _ Hex). now split.
  - intros Hne Hall Hupper.
    rewrite findCDC_false.
    2:{ intros e He [Hke Hte]. destruct (Hall e He) as [Hk' Ht'].
        destruct Hupper as [Hu|Hu]; apply Hu; congruence. }
    destruct listing as [|first' rest]; [contradiction|].
    unfold bind, d_Set, d_SetId, ret. cbn [trace rd fst snd].
    rewrite (rd_Set_ok _ "connector_status" _ TypeString)
      by (rewrite ?Hrd; cbn [cdcCreated rdSchema]; rewrite ?Hsch; reflexivity).
    cbn [fst snd].
    rewrite (rd_Set_ok _ "data_topic" _ TypeString)
      by (cbn [rdSchema]; rewrite ?Hrd; cbn [cdcCreated rdSchema]; rewrite ?Hsch;
          reflexivity).
    split; reflexivity.
  - intros Hl. rewrite Hl. cbn [findCDC]. now split.
Qed.

Lemma cdc_read_after_create_witness :
  let run := resourceCDCRead (worldListing [configuredEntry]) cdcStateCreated in
  fst run = Val [] /\ rdId (rd (snd run)) = "".
Proof.
  apply (proj1 (proj2 (cdc_read_after_create (worldListing [configuredEntry])
                         cdcStateCreated
                         _ (newResourceData resourceCDC_Schema cdcConfig)
                         "db-1" "KS1" "Orders" "tenant" configuredEntry
                         (mkHttpResponse "200 OK" "org-json" None)
                         (mkHttpResponse "200 OK" "listing" None)
                         "pulsar-gcp-useast1" "pulsar-jwt" None
                         eq_refl eq_refl eq_refl eq_refl eq_refl eq_refl eq_refl eq_refl
                         eq_refl eq_refl eq_refl eq_refl))).
  - discriminate.
  - intros e [<-|[]]. split; reflexivity.
  - left. discriminate.
Defined.
